(** * KD_Lib: the distillation and quantization base classes

    A shallow embedding of [KD_Lib/common/base_class.py] (class [BaseClass])
    and [KD_Lib/Quantization/common/base_class.py] (class [Quantizer]).

    Both classes are orchestration code over a tensor framework.  The
    framework is kept abstract (the classes [Tensors] and [Framework]); the
    Python control flow, the mutation of module objects, the instance
    attributes, the file system and the sequence of framework calls are
    modelled explicitly:

    - module objects ([nn.Module]) live in a store indexed by references, so
      that two attributes can denote the very same object;
    - every method is a state transformer that may raise: the state reached
      when an exception propagates is kept;
    - every framework call is recorded, in order, in the [trace] of the world.

    Numbers: counters are Python [int]s that never go below zero ([nat]);
    [epochs] is an arbitrary [int] ([Z]); an accuracy is the quotient of two
    ints, modelled by the exact rational ([Q]) that Python's float quotient
    rounds.  All accuracies of one run share their denominator, so comparing
    the rationals agrees with comparing the floats.  The size of a model in
    megabytes is the exact quotient as well.

    Two failures of the framework are modelled: [torch.save] raises when
    the directory of its path does not exist, and [plt.plot] raises
    [RuntimeError] on a value that requires grad.

    Limits: the other framework calls are total (what the framework raises
    on ill-shaped tensors, or on tensors of different devices, is not
    modelled: a tuple returned by a module has a first component, a batch
    has one label per row of the output, and [.to(device)] leaves a tensor
    as it is); an override of [calculate_kd_loss] is a loss function,
    without effects of its own; [get_parameters], which only prints two
    parameter counts, is left out. *)

From Stdlib Require Import QArith Strings.Byte.
From stdpp Require Import base strings gmap list.

Local Open Scope nat_scope.

(** ** Python: exceptions, results and the monad of methods *)

Module Py.

Inductive exn : Type :=
| ZeroDivisionError
| NotImplementedError
| AttributeError
| FileNotFoundError
| RuntimeError
| Exception (msg : string).

Inductive result (A : Type) : Type :=
| Ok (a : A)
| Raise (e : exn).
Arguments Ok {A} a.
Arguments Raise {A} e.

(** A computation over a state [Σ]: it returns or raises, and in both
    cases leaves a state behind. *)
Definition M (Σ A : Type) : Type := Σ -> result A * Σ.

Definition ret {Σ A} (a : A) : M Σ A := fun s => (Ok a, s).

Definition raise {Σ A} (e : exn) : M Σ A := fun s => (Raise e, s).

Definition bind {Σ A B} (m : M Σ A) (k : A -> M Σ B) : M Σ B :=
  fun s => match m s with
           | (Ok a, s') => k a s'
           | (Raise e, s') => (Raise e, s')
           end.

Definition get {Σ} : M Σ Σ := fun s => (Ok s, s).

Definition put {Σ} (s : Σ) : M Σ unit := fun _ => (Ok tt, s).

Definition modify {Σ} (f : Σ -> Σ) : M Σ unit := fun s => (Ok tt, f s).

(** A pure result ([Ok] or [Raise]) used as a computation. *)
Definition of_result {Σ A} (r : result A) : M Σ A := fun s => (r, s).

(** A computation on the second component of the state (the world), run
    inside a method whose state also holds the instance. *)
Definition lift {S Σ A} (m : M Σ A) : M (S * Σ) A :=
  fun s => let '(r, w) := m (snd s) in (r, (fst s, w)).

(** [for x in xs: acc = body(acc, x)] *)
Fixpoint for_each {Σ A B} (xs : list B) (body : A -> B -> M Σ A) (acc : A)
  : M Σ A :=
  match xs with
  | [] => ret acc
  | x :: xs' => bind (body acc x) (for_each xs' body)
  end.

(** [range(n)]: empty when [n <= 0]. *)
Definition range (n : Z) : list Z := map Z.of_nat (seq 0 (Z.to_nat n)).

(** [a / b] on two non-negative ints (true division). *)
Definition truediv (a b : nat) : result Q :=
  match b with
  | O => Raise ZeroDivisionError
  | S _ => Ok (Z.of_nat a # Pos.of_nat b)
  end.

(** [a > b] on accuracies. *)
Definition gt (a b : Q) : bool := negb (Qle_bool a b).

(** [x if isinstance(x, tuple) else ...]: what a module call returns. *)
Inductive output (T : Type) : Type :=
| Tensor (t : T)
| Tuple (first : T) (rest : list T).
Arguments Tensor {T} t.
Arguments Tuple {T} first rest.

(** [if isinstance(out, tuple): out = out[0]] *)
Definition first_of_tuple {T} (out : output T) : T :=
  match out with
  | Tensor t => t
  | Tuple t _ => t
  end.

End Py.

Import Py.

Declare Scope py_scope.
Delimit Scope py_scope with py.
Notation "x <- m ;; k" := (bind m (fun x => k))
  (at level 100, m at next level, right associativity) : py_scope.
Notation "m ;; k" := (bind m (fun _ => k))
  (at level 100, right associativity) : py_scope.
Local Open Scope py_scope.

(** ** The tensor framework, as the classes see it *)

(** References to module objects and to optimizer objects. *)
Definition loc : Type := nat.

(** The opaque data of the framework. *)
Class Tensors : Type := {
  Arch : Type;       (** the class of a module: its layers and [forward] *)
  StateDict : Type;  (** the contents of [state_dict()] *)
  Grads : Type;      (** the [.grad] fields of the parameters *)
  Data : Type;       (** a batch of inputs *)
  Logits : Type;     (** an output tensor, one row of scores per sample *)
  Scalar : Type;     (** a loss value: a float or a 0-dim tensor *)
  OptState : Type;   (** an optimizer: bound parameters and buffers *)
  PyFloat : Type;    (** other floats: times, temperature, weights *)
  Device : Type;
  QConfig : Type;
  Criterion : Type;
  LossName : Type;
}.

(** A batch of labels: one class index per sample. *)
Definition Label : Type := list Z.

Section Objects.
Context `{Tensors}.

(** An [nn.Module] object. *)
Record Module : Type := {
  arch : Arch;
  state : StateDict;
  grads : Grads;
  training : bool;
}.

Definition Heap : Type := loc -> Module.

(** A [DataLoader]: [len(loader.dataset)] and the batches it yields.  A
    loader that shuffles yields different batches each time it is
    iterated; [batches k] are those of the [k]-th iteration started in
    the run. *)
Record DataLoader : Type := {
  dataset_len : nat;
  batches : nat -> list (Data * Label);
}.

End Objects.

(** The operations of the framework. *)
Class Framework `{Tensors} : Type := {
  (** [module(data)] in the given mode: the output, and the state after the
      call (buffers such as running statistics may change). *)
  forward : Arch -> bool -> StateDict -> Data -> StateDict * output Logits;
  (** [out.argmax(dim=1)], one class index per row *)
  argmax : Logits -> list Z;
  (** [F.cross_entropy(out, label)] *)
  cross_entropy : Logits -> Label -> Scalar;
  (** [0.0] and [+] on loss values *)
  float_zero : Scalar;
  scalar_add : Scalar -> Scalar -> Scalar;
  (** [x.requires_grad]: the value is a tensor of the autograd graph (a
      Python float is not) *)
  requires_grad : Scalar -> bool;
  (** [loss.backward()]: accumulates gradients in the modules of the graph *)
  autograd_backward : Scalar -> Heap -> Heap;
  (** [optimizer.zero_grad()] and [optimizer.step()] on the bound modules *)
  optim_zero_grad : OptState -> Heap -> Heap;
  optim_step : OptState -> Heap -> OptState * Heap;
  (** the bytes [torch.save] writes for a state dict, and what it raises
      when the directory of the path does not exist ([FileNotFoundError]
      before PyTorch 1.6, [RuntimeError] since) *)
  pickle : StateDict -> list byte;
  torch_save_error : exn;
  (** [time.time()], by the number of earlier readings, and [t2 - t1] *)
  time_at : nat -> PyFloat;
  float_sub : PyFloat -> PyFloat -> PyFloat;
}.

(** ** The world: objects, files and the record of framework calls *)

Section World.
Context `{Framework}.

(** What [print] writes, one constructor per format string. *)
Inductive Line : Type :=
| LTrainingTeacher
| LTrainingStudent
| LEpoch (ep : Z) (epoch_loss : Scalar) (epoch_acc : Q)
| LRule
| LAccuracy (acc : Q)
| LSizeOriginal (mb : Q)
| LSizeQuantized (mb : Q)
| LOriginalModel (acc : Q) (elapsed : PyFloat)
| LQuantizedModel (acc : Q) (elapsed : PyFloat).

(** The calls into the framework and the runtime, with what they were
    given or what they returned. *)
Inductive Event : Type :=
| EvMode (m : loc) (train : bool)
| EvCall (m : loc) (out : output Logits)
| EvLoss (loss : Scalar)
| EvZeroGrad (o : loc)
| EvBackward (loss : Scalar)
| EvStep (o : loc)
| EvDeepcopyStateDict (m : loc) (sd : StateDict)
| EvDeepcopyModule (m copy : loc)
| EvLoadStateDict (m : loc) (sd : StateDict)
| EvSave (path : string) (sd : StateDict)
| EvRemove (path : string)
| EvPlot (arr : list Scalar)
| EvPrint (l : Line).

Record World : Type := {
  heap : Heap;                   (** the module objects *)
  next_loc : loc;                (** the references below it are in use *)
  optimizers : loc -> OptState;  (** the optimizer objects *)
  fs : gmap string (list byte);  (** the files, by path *)
  dirs : string -> bool;         (** the directories that exist, by path *)
  trace : list Event;            (** the calls made so far, oldest first *)
  passes : nat;                  (** loader iterations started so far *)
  clock : nat;                   (** readings of the clock so far *)
}.

Definition set_heap (h : Heap) (w : World) : World :=
  {| heap := h; next_loc := next_loc w; optimizers := optimizers w;
     fs := fs w; dirs := dirs w; trace := trace w; passes := passes w;
     clock := clock w |}.

Definition set_next_loc (n : loc) (w : World) : World :=
  {| heap := heap w; next_loc := n; optimizers := optimizers w;
     fs := fs w; dirs := dirs w; trace := trace w; passes := passes w;
     clock := clock w |}.

Definition set_optimizers (os : loc -> OptState) (w : World) : World :=
  {| heap := heap w; next_loc := next_loc w; optimizers := os;
     fs := fs w; dirs := dirs w; trace := trace w; passes := passes w;
     clock := clock w |}.

Definition set_fs (f : gmap string (list byte)) (w : World) : World :=
  {| heap := heap w; next_loc := next_loc w; optimizers := optimizers w;
     fs := f; dirs := dirs w; trace := trace w; passes := passes w;
     clock := clock w |}.

Definition set_trace (t : list Event) (w : World) : World :=
  {| heap := heap w; next_loc := next_loc w; optimizers := optimizers w;
     fs := fs w; dirs := dirs w; trace := t; passes := passes w;
     clock := clock w |}.

Definition set_passes (n : nat) (w : World) : World :=
  {| heap := heap w; next_loc := next_loc w; optimizers := optimizers w;
     fs := fs w; dirs := dirs w; trace := trace w; passes := n;
     clock := clock w |}.

Definition set_clock (n : nat) (w : World) : World :=
  {| heap := heap w; next_loc := next_loc w; optimizers := optimizers w;
     fs := fs w; dirs := dirs w; trace := trace w; passes := passes w;
     clock := n |}.

(** [h[l] = m] *)
Definition store (l : loc) (m : Module) (h : Heap) : Heap :=
  fun l' => if Nat.eqb l' l then m else h l'.

Definition with_state (sd : StateDict) (m : Module) : Module :=
  {| arch := arch m; state := sd; grads := grads m; training := training m |}.

Definition with_training (b : bool) (m : Module) : Module :=
  {| arch := arch m; state := state m; grads := grads m; training := b |}.

Definition emit (e : Event) : M World unit :=
  modify (fun w => set_trace (trace w ++ [e]) w).

Definition print (l : Line) : M World unit := emit (EvPrint l).

(** [tensor.to(device)]: the placement is not part of the value. *)
Definition to {T} (t : T) (_ : Device) : T := t.

(** [model.train()] and [model.eval()] *)
Definition nn_set_mode (m : loc) (b : bool) : M World unit :=
  modify (fun w => set_heap (store m (with_training b (heap w m)) (heap w)) w) ;;
  emit (EvMode m b).

Definition nn_train (m : loc) : M World unit := nn_set_mode m true.
Definition nn_eval (m : loc) : M World unit := nn_set_mode m false.

(** [model(data)] *)
Definition nn_call (m : loc) (data : Data) : M World (output Logits) :=
  w <- get ;;
  let obj := heap w m in
  let r := forward (arch obj) (training obj) (state obj) data in
  put (set_heap (store m (with_state (fst r) obj) (heap w)) w) ;;
  emit (EvCall m (snd r)) ;;
  ret (snd r).

(** [deepcopy(model.state_dict())]: [state_dict()] is a view of the live
    tensors, the deep copy is a value of its own. *)
Definition deepcopy_state_dict (m : loc) : M World StateDict :=
  w <- get ;;
  let sd := state (heap w m) in
  emit (EvDeepcopyStateDict m sd) ;;
  ret sd.

(** [deepcopy(model)]: a new object with the same contents. *)
Definition deepcopy_module (m : loc) : M World loc :=
  w <- get ;;
  let copy := next_loc w in
  put (set_next_loc (S copy) (set_heap (store copy (heap w m) (heap w)) w)) ;;
  emit (EvDeepcopyModule m copy) ;;
  ret copy.

(** [model.load_state_dict(sd)] *)
Definition load_state_dict (m : loc) (sd : StateDict) : M World unit :=
  modify (fun w => set_heap (store m (with_state sd (heap w m)) (heap w)) w) ;;
  emit (EvLoadStateDict m sd).

(** The directory part of a path: what precedes its last [/]; empty when
    the path has none. *)
Fixpoint has_separator (path : string) : bool :=
  match path with
  | EmptyString => false
  | String c rest => String.eqb (String c EmptyString) "/" || has_separator rest
  end.

Fixpoint directory_of (path : string) : string :=
  match path with
  | EmptyString => EmptyString
  | String c rest =>
      if has_separator rest then String c (directory_of rest) else EmptyString
  end.

(** The working directory (and the root) are there; another directory is
    when the world has it. *)
Definition directory_exists (w : World) (dir : string) : bool :=
  match dir with
  | EmptyString => true
  | _ => dirs w dir
  end.

(** [torch.save(model.state_dict(), path)]: creates or overwrites the
    file; it creates no directory, and raises when the one of the path is
    missing. *)
Definition torch_save_state_dict (m : loc) (path : string) : M World unit :=
  w <- get ;;
  let sd := state (heap w m) in
  if directory_exists w (directory_of path)
  then put (set_fs (<[path := pickle sd]> (fs w)) w) ;; emit (EvSave path sd)
  else raise torch_save_error.

(** [os.path.getsize(path)] *)
Definition os_path_getsize (path : string) : M World nat :=
  w <- get ;;
  match fs w !! path with
  | Some content => ret (length content)
  | None => raise FileNotFoundError
  end.

(** [os.remove(path)] *)
Definition os_remove (path : string) : M World unit :=
  w <- get ;;
  match fs w !! path with
  | Some _ => put (set_fs (delete path (fs w)) w) ;; emit (EvRemove path)
  | None => raise FileNotFoundError
  end.

(** [plt.plot(arr)]: the values are converted to an array, which raises
    [RuntimeError] on a tensor that requires grad. *)
Definition plt_plot (arr : list Scalar) : M World unit :=
  if existsb requires_grad arr then raise RuntimeError else emit (EvPlot arr).

(** [optimizer.zero_grad()] *)
Definition zero_grad (o : loc) : M World unit :=
  modify (fun w => set_heap (optim_zero_grad (optimizers w o) (heap w)) w) ;;
  emit (EvZeroGrad o).

(** [loss.backward()] *)
Definition backward (loss : Scalar) : M World unit :=
  modify (fun w => set_heap (autograd_backward loss (heap w)) w) ;;
  emit (EvBackward loss).

(** [optimizer.step()] *)
Definition step (o : loc) : M World unit :=
  w <- get ;;
  let r := optim_step (optimizers w o) (heap w) in
  put (set_optimizers (fun o' => if Nat.eqb o' o then fst r else optimizers w o')
         (set_heap (snd r) w)) ;;
  emit (EvStep o).

(** [for batch in loader]: the batches of this iteration. *)
Definition iterate (ld : DataLoader) : M World (list (Data * Label)) :=
  w <- get ;;
  put (set_passes (S (passes w)) w) ;;
  ret (batches ld (passes w)).

(** [time.time()] *)
Definition time_time : M World PyFloat :=
  w <- get ;;
  put (set_clock (S (clock w)) w) ;;
  ret (time_at (clock w)).

(** [pred.eq(label.view_as(pred)).sum().item()]: the number of samples
    whose predicted class is the label. *)
Fixpoint count_eq (pred : list Z) (label : Label) : nat :=
  match pred, label with
  | p :: pred', l :: label' =>
      (if Z.eqb p l then 1 else 0) + count_eq pred' label'
  | _, _ => 0
  end.

(** [F.cross_entropy(out, label)] *)
Definition F_cross_entropy (out : Logits) (label : Label) : M World Scalar :=
  let loss := cross_entropy out label in
  emit (EvLoss loss) ;;
  ret loss.

(** [correct + pred.eq(label.view_as(pred)).sum().item()] for
    [pred = out.argmax(dim=1, keepdim=True)]. *)
Definition add_correct (correct : nat) (out : Logits) (label : Label) : nat :=
  correct + count_eq (argmax out) label.

End World.

(** ** [KD_Lib/common/base_class.py]: class [BaseClass] *)

Module BaseClass.
Section BaseClass.
Context `{Framework}.

(** The attributes of an instance.  The two [best_..._weights] attributes
    exist only once the corresponding training method has started. *)
Record instance : Type := {
  teacher_model : loc;
  student_model : loc;
  train_loader : DataLoader;
  val_loader : DataLoader;
  optimizer_teacher : loc;
  optimizer_student : loc;
  loss : LossName;
  temp : PyFloat;
  distl_weight : PyFloat;
  device : Device;
  best_teacher_model_weights : option StateDict;
  best_student_model_weights : option StateDict;
}.

(** The state of a method call: the instance and the world. *)
Definition Σ : Type := instance * World.

Definition self_ : M Σ instance := fun s => (Ok (fst s), s).

Definition with_best_teacher (sd : StateDict) (self : instance) : instance :=
  {| teacher_model := teacher_model self;
     student_model := student_model self;
     train_loader := train_loader self;
     val_loader := val_loader self;
     optimizer_teacher := optimizer_teacher self;
     optimizer_student := optimizer_student self;
     loss := loss self;
     temp := temp self;
     distl_weight := distl_weight self;
     device := device self;
     best_teacher_model_weights := Some sd;
     best_student_model_weights := best_student_model_weights self |}.

Definition with_best_student (sd : StateDict) (self : instance) : instance :=
  {| teacher_model := teacher_model self;
     student_model := student_model self;
     train_loader := train_loader self;
     val_loader := val_loader self;
     optimizer_teacher := optimizer_teacher self;
     optimizer_student := optimizer_student self;
     loss := loss self;
     temp := temp self;
     distl_weight := distl_weight self;
     device := device self;
     best_teacher_model_weights := best_teacher_model_weights self;
     best_student_model_weights := Some sd |}.

(** [self.best_teacher_model_weights = sd] *)
Definition set_best_teacher_model_weights (sd : StateDict) : M Σ unit :=
  modify (fun s : Σ => (with_best_teacher sd (fst s), snd s)).

(** [self.best_student_model_weights = sd] *)
Definition set_best_student_model_weights (sd : StateDict) : M Σ unit :=
  modify (fun s : Σ => (with_best_student sd (fst s), snd s)).

(** Reading an attribute that may not have been set. *)
Definition attribute {A} (a : option A) : M Σ A :=
  match a with
  | Some x => ret x
  | None => raise AttributeError
  end.

Definition __init__ (teacher_model student_model : loc)
    (train_loader val_loader : DataLoader)
    (optimizer_teacher optimizer_student : loc)
    (loss : LossName) (temp distil_weight : PyFloat) (device : Device)
  : M World instance :=
  ret {| teacher_model := teacher_model;
         student_model := student_model;
         train_loader := train_loader;
         val_loader := val_loader;
         optimizer_teacher := optimizer_teacher;
         optimizer_student := optimizer_student;
         loss := loss;
         temp := temp;
         distl_weight := distil_weight;
         device := device;
         best_teacher_model_weights := None;
         best_student_model_weights := None |}.

(** *** [train_teacher] *)

(** The body of [for (data, label) in self.train_loader]. *)
Definition train_teacher_batch (acc : Scalar * nat) (b : Data * Label)
  : M Σ (Scalar * nat) :=
  let epoch_loss := fst acc in
  let correct := snd acc in
  self <- self_ ;;
  let data := to (fst b) (device self) in
  let label := to (snd b) (device self) in
  out <- lift (nn_call (teacher_model self) data) ;;
  let out := first_of_tuple out in
  let correct := add_correct correct out label in
  loss <- lift (F_cross_entropy out label) ;;
  lift (zero_grad (optimizer_teacher self)) ;;
  lift (backward loss) ;;
  lift (step (optimizer_teacher self)) ;;
  ret (scalar_add epoch_loss loss, correct).

(** The body of [for ep in range(epochs)]; the loop carries [loss_arr]
    and [best_acc]. *)
Definition train_teacher_epoch (length_of_dataset : nat)
    (vars : list Scalar * Q) (ep : Z) : M Σ (list Scalar * Q) :=
  let loss_arr := fst vars in
  let best_acc := snd vars in
  self <- self_ ;;
  bs <- lift (iterate (train_loader self)) ;;
  r <- for_each bs train_teacher_batch (float_zero, 0) ;;
  let epoch_loss := fst r in
  let correct := snd r in
  epoch_acc <- of_result (truediv correct length_of_dataset) ;;
  best_acc <- (if gt epoch_acc best_acc then
                 sd <- lift (deepcopy_state_dict (teacher_model self)) ;;
                 set_best_teacher_model_weights sd ;;
                 ret epoch_acc
               else ret best_acc) ;;
  let loss_arr := loss_arr ++ [epoch_loss] in
  lift (print (LEpoch (ep + 1) epoch_loss epoch_acc)) ;;
  ret (loss_arr, best_acc).

(** What precedes the loop: mode, locals and the first snapshot. *)
Definition train_teacher_begin : M Σ (list Scalar * Q) :=
  self <- self_ ;;
  lift (nn_train (teacher_model self)) ;;
  let loss_arr := [] in
  let best_acc := 0%Q in
  sd <- lift (deepcopy_state_dict (teacher_model self)) ;;
  set_best_teacher_model_weights sd ;;
  lift (print LTrainingTeacher) ;;
  ret (loss_arr, best_acc).

(** [for ep in range(epochs): ...] *)
Definition train_teacher_epochs (epochs : Z) (vars : list Scalar * Q)
  : M Σ (list Scalar * Q) :=
  self <- self_ ;;
  let length_of_dataset := dataset_len (train_loader self) in
  for_each (range epochs) (train_teacher_epoch length_of_dataset) vars.

(** What follows the loop: restore, save, plot. *)
Definition train_teacher_end (vars : list Scalar * Q)
    (plot_losses save_model : bool) (save_model_pth : string) : M Σ unit :=
  let loss_arr := fst vars in
  self <- self_ ;;
  best <- attribute (best_teacher_model_weights self) ;;
  lift (load_state_dict (teacher_model self) best) ;;
  (if save_model
   then lift (torch_save_state_dict (teacher_model self) save_model_pth)
   else ret tt) ;;
  (if plot_losses then lift (plt_plot loss_arr) else ret tt).

Definition train_teacher (epochs : Z) (plot_losses save_model : bool)
    (save_model_pth : string) : M Σ unit :=
  vars <- train_teacher_begin ;;
  vars <- train_teacher_epochs epochs vars ;;
  train_teacher_end vars plot_losses save_model save_model_pth.

(** *** [calculate_kd_loss] and its overrides *)

(** The method of the base class. *)
Definition calculate_kd_loss (y_pred_student y_pred_teacher : output Logits)
    (y_true : Label) : M Σ Scalar :=
  raise NotImplementedError.

(** A subclass may override [calculate_kd_loss] by a loss function of the
    instance's attributes and the three arguments. *)
Class Subclass : Type := {
  override_calculate_kd_loss :
    option (instance -> output Logits -> output Logits -> Label
            -> result Scalar);
}.

(** [self.calculate_kd_loss(...)]: the override when there is one. *)
Definition self_calculate_kd_loss `{Subclass}
    (y_pred_student y_pred_teacher : output Logits) (y_true : Label)
  : M Σ Scalar :=
  match override_calculate_kd_loss with
  | Some f =>
      self <- self_ ;;
      loss <- of_result (f self y_pred_student y_pred_teacher y_true) ;;
      lift (emit (EvLoss loss)) ;;
      ret loss
  | None => calculate_kd_loss y_pred_student y_pred_teacher y_true
  end.

(** *** [train_student] *)

Definition train_student_batch `{Subclass} (acc : Scalar * nat)
    (b : Data * Label) : M Σ (Scalar * nat) :=
  let epoch_loss := fst acc in
  let correct := snd acc in
  self <- self_ ;;
  let data := to (fst b) (device self) in
  let label := to (snd b) (device self) in
  student_out <- lift (nn_call (student_model self) data) ;;
  teacher_out <- lift (nn_call (teacher_model self) data) ;;
  loss <- self_calculate_kd_loss student_out teacher_out label ;;
  let student_out := first_of_tuple student_out in
  let correct := add_correct correct student_out label in
  lift (zero_grad (optimizer_student self)) ;;
  lift (backward loss) ;;
  lift (step (optimizer_student self)) ;;
  ret (scalar_add epoch_loss loss, correct).

Definition train_student_epoch `{Subclass} (length_of_dataset : nat)
    (vars : list Scalar * Q) (ep : Z) : M Σ (list Scalar * Q) :=
  let loss_arr := fst vars in
  let best_acc := snd vars in
  self <- self_ ;;
  bs <- lift (iterate (train_loader self)) ;;
  r <- for_each bs train_student_batch (float_zero, 0) ;;
  let epoch_loss := fst r in
  let correct := snd r in
  epoch_acc <- of_result (truediv correct length_of_dataset) ;;
  best_acc <- (if gt epoch_acc best_acc then
                 sd <- lift (deepcopy_state_dict (student_model self)) ;;
                 set_best_student_model_weights sd ;;
                 ret epoch_acc
               else ret best_acc) ;;
  let loss_arr := loss_arr ++ [epoch_loss] in
  lift (print (LEpoch (ep + 1) epoch_loss epoch_acc)) ;;
  ret (loss_arr, best_acc).

Definition train_student_begin : M Σ (list Scalar * Q) :=
  self <- self_ ;;
  lift (nn_eval (teacher_model self)) ;;
  lift (nn_train (student_model self)) ;;
  let loss_arr := [] in
  let best_acc := 0%Q in
  sd <- lift (deepcopy_state_dict (student_model self)) ;;
  set_best_student_model_weights sd ;;
  lift (print LTrainingStudent) ;;
  ret (loss_arr, best_acc).

Definition train_student_epochs `{Subclass} (epochs : Z)
    (vars : list Scalar * Q) : M Σ (list Scalar * Q) :=
  self <- self_ ;;
  let length_of_dataset := dataset_len (train_loader self) in
  for_each (range epochs) (train_student_epoch length_of_dataset) vars.

Definition train_student_end (vars : list Scalar * Q)
    (plot_losses save_model : bool) (save_model_pth : string) : M Σ unit :=
  let loss_arr := fst vars in
  self <- self_ ;;
  best <- attribute (best_student_model_weights self) ;;
  lift (load_state_dict (student_model self) best) ;;
  (if save_model
   then lift (torch_save_state_dict (student_model self) save_model_pth)
   else ret tt) ;;
  (if plot_losses then lift (plt_plot loss_arr) else ret tt).

Definition train_student `{Subclass} (epochs : Z)
    (plot_losses save_model : bool) (save_model_pth : string) : M Σ unit :=
  vars <- train_student_begin ;;
  vars <- train_student_epochs epochs vars ;;
  train_student_end vars plot_losses save_model save_model_pth.

(** *** [evaluate] *)

(** The body of [for data, target in self.val_loader], under
    [torch.no_grad()] (no gradient is recorded). *)
Definition evaluate_batch (model : loc) (correct : nat) (b : Data * Label)
  : M Σ nat :=
  self <- self_ ;;
  let data := to (fst b) (device self) in
  let target := to (snd b) (device self) in
  output <- lift (nn_call model data) ;;
  let output := first_of_tuple output in
  ret (add_correct correct output target).

Definition evaluate (teacher : bool) : M Σ unit :=
  self <- self_ ;;
  model <- (if teacher
            then lift (deepcopy_module (teacher_model self))
            else lift (deepcopy_module (student_model self))) ;;
  lift (nn_eval model) ;;
  let length_of_dataset := dataset_len (val_loader self) in
  bs <- lift (iterate (val_loader self)) ;;
  correct <- for_each bs (evaluate_batch model) 0 ;;
  lift (print LRule) ;;
  acc <- of_result (truediv correct length_of_dataset) ;;
  lift (print (LAccuracy acc)).

End BaseClass.
End BaseClass.

(** ** [KD_Lib/Quantization/common/base_class.py]: class [Quantizer] *)

Module Quantizer.
Section Quantizer.
Context `{Framework}.

(** The attributes of an instance; [None] is the default of the loaders,
    the optimizer and the criterion. *)
Record instance : Type := {
  model : loc;
  quantized_model : loc;
  qconfig : QConfig;
  train_loader : option DataLoader;
  test_loader : option DataLoader;
  optimizer : option loc;
  criterion : option Criterion;
  device : Device;
}.

Definition Σ : Type := instance * World.

Definition self_ : M Σ instance := fun s => (Ok (fst s), s).

(** [x.dataset] and the like, where [x] may be [None]. *)
Definition attribute_of {A} (a : option A) : M Σ A :=
  match a with
  | Some x => ret x
  | None => raise AttributeError
  end.

Definition __init__ (model : loc) (qconfig : QConfig)
    (train_loader test_loader : option DataLoader)
    (optimizer : option loc) (criterion : option Criterion)
    (device : Device) : M World instance :=
  ret {| model := model;
         quantized_model := model;
         qconfig := qconfig;
         train_loader := train_loader;
         test_loader := test_loader;
         optimizer := optimizer;
         criterion := criterion;
         device := device |}.

Definition quantize : M Σ unit := raise NotImplementedError.

Definition _get_size_of_model (model : loc) : M Σ Q :=
  lift (torch_save_state_dict model "temp.p") ;;
  size <- lift (os_path_getsize "temp.p") ;;
  let model_size := (Z.of_nat size # 1000000)%Q in
  lift (os_remove "temp.p") ;;
  ret model_size.

Definition get_model_sizes : M Σ unit :=
  self <- self_ ;;
  original_size <- _get_size_of_model (model self) ;;
  self <- self_ ;;
  quantized_size <- _get_size_of_model (quantized_model self) ;;
  lift (print LRule) ;;
  lift (print (LSizeOriginal original_size)) ;;
  lift (print (LSizeQuantized quantized_size)).

(** The body of [for image, target in self.test_loader], under
    [torch.no_grad()]. *)
Definition _evaluate_model_batch (model : loc) (correct : nat)
    (b : Data * Label) : M Σ nat :=
  output <- lift (nn_call model (fst b)) ;;
  let output := first_of_tuple output in
  ret (add_correct correct output (snd b)).

Definition _evaluate_model (model : loc) : M Σ Q :=
  lift (nn_eval model) ;;
  self <- self_ ;;
  loader <- attribute_of (test_loader self) ;;
  let len_dataset := dataset_len loader in
  bs <- lift (iterate loader) ;;
  correct <- for_each bs (_evaluate_model_batch model) 0 ;;
  of_result (truediv correct len_dataset).

Definition _time_model_evaluation (model : loc) : M Σ (Q * PyFloat) :=
  s <- lift time_time ;;
  acc <- _evaluate_model model ;;
  e <- lift time_time ;;
  let elapsed := float_sub e s in
  ret (acc, elapsed).

Definition get_performance_statistics : M Σ unit :=
  self <- self_ ;;
  r <- _time_model_evaluation (model self) ;;
  lift (print (LOriginalModel (fst r) (snd r))) ;;
  self <- self_ ;;
  r <- _time_model_evaluation (quantized_model self) ;;
  lift (print (LQuantizedModel (fst r) (snd r))).

End Quantizer.
End Quantizer.

(** ** What a run shows

    The vocabulary of the statements below: the calls one batch and one
    epoch leave in the trace, and the running best of a sequence of
    observations. *)

Section Observations.
Context `{Framework}.
Import BaseClass.

(** The correct predictions of a batch, given the output of the model. *)
Definition batch_correct (b : Data * Label) (out : output Logits) : nat :=
  count_eq (argmax (first_of_tuple out)) (snd b).

(** The number of positions at which the predicted class is the label. *)
Definition correct_predictions (pred : list Z) (label : Label) : nat :=
  length (filter (fun pl : Z * Z => fst pl = snd pl) (zip pred label)).

(** The correct argmax predictions of an epoch or of an evaluation, given
    the batches and the outputs of the model, batch by batch. *)
Definition correct_argmax (bs : list (Data * Label))
    (outs : list (output Logits)) : nat :=
  sum_list (zip_with (fun b out =>
                        correct_predictions (argmax (first_of_tuple out)) (snd b))
              bs outs).

(** [out] is what a module returns when called on [data]. *)
Definition forward_of (data : Data) (out : output Logits) : Prop :=
  exists m : Module, out = snd (forward (arch m) (training m) (state m) data).

(** The result of a batch of [train_teacher]: the output of a forward pass
    on the data of the batch, and its cross entropy with the labels. *)
Definition teacher_batch_result (b : Data * Label)
    (r : output Logits * Scalar) : Prop :=
  forward_of (fst b) (fst r)
  /\ snd r = cross_entropy (first_of_tuple (fst r)) (snd b).

(** The sum of loss values, in the order they are added to [0.0]. *)
Definition loss_sum (losses : list Scalar) : Scalar :=
  fold_left scalar_add losses float_zero.

(** A batch of [train_teacher]: the output of the teacher and the loss. *)
Definition teacher_batch_events (self : instance)
    (r : output Logits * Scalar) : list Event :=
  [EvCall (teacher_model self) (fst r); EvLoss (snd r);
   EvZeroGrad (optimizer_teacher self); EvBackward (snd r);
   EvStep (optimizer_teacher self)].

(** A batch of [train_student]: the outputs of the student and of the
    teacher, and the loss. *)
Definition student_batch_events (self : instance)
    (r : output Logits * output Logits * Scalar) : list Event :=
  [EvCall (student_model self) (fst (fst r));
   EvCall (teacher_model self) (snd (fst r)); EvLoss (snd r);
   EvZeroGrad (optimizer_student self); EvBackward (snd r);
   EvStep (optimizer_student self)].

(** What one epoch did: the results of its batches, the snapshot it took
    (if any) and the line it printed. *)
Record EpochLog (R : Type) : Type := {
  batch_results : list R;
  snapshot : option StateDict;
  epoch_loss : Scalar;
  epoch_acc : Q;
}.
Arguments batch_results {R} _.
Arguments snapshot {R} _.
Arguments epoch_loss {R} _.
Arguments epoch_acc {R} _.

Definition snapshot_events (model : loc) (snap : option StateDict)
  : list Event :=
  match snap with
  | Some sd => [EvDeepcopyStateDict model sd]
  | None => []
  end.

(** The calls of the epoch with loop variable [ep]: those of its batches,
    then the tracking of the best weights, then the line of the epoch. *)
Definition epoch_events {R} (batch_events : R -> list Event) (model : loc)
    (ep : Z) (log : EpochLog R) : list Event :=
  concat (map batch_events (batch_results log))
  ++ snapshot_events model (snapshot log)
  ++ [EvPrint (LEpoch (ep + 1) (epoch_loss log) (epoch_acc log))].

(** The calls of consecutive epochs, from [ep = k] on. *)
Fixpoint epochs_events {R} (batch_events : R -> list Event) (model : loc)
    (k : nat) (logs : list (EpochLog R)) : list Event :=
  match logs with
  | [] => []
  | log :: logs' =>
      epoch_events batch_events model (Z.of_nat k) log
      ++ epochs_events batch_events model (S k) logs'
  end.

(** What follows the epochs: restore, then save, then plot. *)
Definition end_events (model : loc) (best : StateDict) (arr : list Scalar)
    (plot_losses save_model : bool) (save_model_pth : string)
  : list Event :=
  [EvLoadStateDict model best]
  ++ (if save_model then [EvSave save_model_pth best] else [])
  ++ (if plot_losses then [EvPlot arr] else []).

(** The running best of a sequence of observations (an accuracy and the
    weights that reached it): a later observation replaces the best one
    when its accuracy is strictly higher. *)
Definition track_best (best obs : Q * StateDict) : Q * StateDict :=
  if gt (fst obs) (fst best) then obs else best.

Definition running_best (init : StateDict) (history : list (Q * StateDict))
  : Q * StateDict :=
  fold_left track_best history (0%Q, init).

(** Consecutive epochs of a training loop, each returning, with what each
    showed: the accuracy it printed and the state of the trained model
    when it ended. *)
Inductive epochs_observed
    (epoch : list Scalar * Q -> Z -> M Σ (list Scalar * Q)) (model : loc)
  : (list Scalar * Q) * Σ -> list (Q * StateDict)
    -> (list Scalar * Q) * Σ -> Prop :=
| observed_none c : epochs_observed epoch model c [] c
| observed_more c history vars s ep vars' s' loss acc :
    epochs_observed epoch model c history (vars, s) ->
    epoch vars ep s = (Ok vars', s') ->
    last (trace (snd s')) = Some (EvPrint (LEpoch (ep + 1) loss acc)) ->
    epochs_observed epoch model c
      (history ++ [(acc, state (heap (snd s') model))]) (vars', s').

(** The result of [self.calculate_kd_loss(...)] for the class of the
    instance. *)
Definition kd_loss_result `{Subclass} (self : instance)
    (y_pred_student y_pred_teacher : output Logits) (y_true : Label)
  : result Scalar :=
  match override_calculate_kd_loss with
  | Some f => f self y_pred_student y_pred_teacher y_true
  | None => Raise NotImplementedError
  end.

(** The result of a batch of [train_student]: the outputs of the student
    and of the teacher on the data of the batch, and the loss the method of
    the class gives for them. *)
Definition student_batch_result `{!Subclass} (self : instance)
    (b : Data * Label) (r : output Logits * output Logits * Scalar) : Prop :=
  forward_of (fst b) (fst (fst r))
  /\ forward_of (fst b) (snd (fst r))
  /\ kd_loss_result self (fst (fst r)) (snd (fst r)) (snd b) = Ok (snd r).

(** The loss method raised on some batch. *)
Definition kd_loss_raised `{Subclass} (self : instance) (e : exn) : Prop :=
  exists y_pred_student y_pred_teacher y_true,
    kd_loss_result self y_pred_student y_pred_teacher y_true = Raise e.

(** The loss method returns a loss, whatever it is given. *)
Definition kd_loss_total `{Subclass} : Prop :=
  forall self y_pred_student y_pred_teacher y_true,
  exists loss,
    kd_loss_result self y_pred_student y_pred_teacher y_true = Ok loss.

(** The samples a loader yields in one iteration, batch by batch. *)
Definition samples_yielded (bs : list (Data * Label)) : nat :=
  sum_list (map (fun b => length (snd b)) bs).

(** The lines among the events. *)
Definition printed (es : list Event) : list Line :=
  omap (fun e => match e with EvPrint l => Some l | _ => None end) es.

(** The object an event acts on, if it acts on a module object. *)
Definition event_object (e : Event) : option loc :=
  match e with
  | EvMode m _ | EvCall m _ | EvDeepcopyStateDict m _
  | EvLoadStateDict m _ => Some m
  | EvDeepcopyModule _ copy => Some copy
  | _ => None
  end.

End Observations.

Arguments batch_results {_ R} _.
Arguments snapshot {_ R} _.
Arguments epoch_loss {_ R} _.
Arguments epoch_acc {_ R} _.

(** ** What a method leaves as it is

    A property of the state that a computation keeps, whether it returns
    or raises; and the vocabulary of the statements on what the methods
    never do. *)

Section Frames.
Context `{Framework}.

(** [m] keeps [P]: from a state in [P] it ends, returning or raising, in
    a state in [P]. *)
Definition preserves {Σ A} (P : Σ -> Prop) (m : M Σ A) : Prop :=
  forall s, P s -> P (snd (m s)).

(** The optimizer an event acts on, if any. *)
Definition event_optimizer (e : Event) : option loc :=
  match e with
  | EvZeroGrad o | EvStep o => Some o
  | _ => None
  end.

(** The file an event writes or removes, if any. *)
Definition event_path (e : Event) : option string :=
  match e with
  | EvSave path _ | EvRemove path => Some path
  | _ => None
  end.

(** An event that acts on no module object outside [models], on no
    optimizer outside [opts] and on no file outside [paths]. *)
Definition acts_within (models opts : list loc) (paths : list string)
    (e : Event) : Prop :=
  (forall m, event_object e = Some m -> m ∈ models)
  /\ (forall o, event_optimizer e = Some o -> o ∈ opts)
  /\ (forall p, event_path e = Some p -> p ∈ paths).

(** The events added to [t0] all satisfy [Q]. *)
Definition extends_by (Q : Event -> Prop) (t0 : list Event) (w : World)
  : Prop :=
  exists new, trace w = t0 ++ new /\ Forall Q new.

(** The accuracies of the epoch lines among the events, in order. *)
Definition epoch_accuracies (es : list Event) : list Q :=
  omap (fun e => match e with
                 | EvPrint (LEpoch _ _ acc) => Some acc
                 | _ => None
                 end) es.

(** The loop of an evaluation as a function of the module object it
    calls: the number of correct predictions, and the object after the
    calls. *)
Fixpoint eval_loop (m : Module) (bs : list (Data * Label)) (correct : nat)
  : nat * Module :=
  match bs with
  | [] => (correct, m)
  | b :: bs' =>
      let r := forward (arch m) (training m) (state m) (fst b) in
      eval_loop (with_state (fst r) m) bs'
        (correct + batch_correct b (snd r))
  end.

(** The outputs of that loop, call by call, and the object after it. *)
Fixpoint eval_outputs (m : Module) (bs : list (Data * Label))
  : list (output Logits) :=
  match bs with
  | [] => []
  | b :: bs' =>
      let r := forward (arch m) (training m) (state m) (fst b) in
      snd r :: eval_outputs (with_state (fst r) m) bs'
  end.

Fixpoint eval_module (m : Module) (bs : list (Data * Label)) : Module :=
  match bs with
  | [] => m
  | b :: bs' =>
      let r := forward (arch m) (training m) (state m) (fst b) in
      eval_module (with_state (fst r) m) bs'
  end.

End Frames.

(** ** A small framework on which the methods run

    One integer weight per module; a module predicts, for each sample, its
    feature plus the weight; an optimizer step adds one to the weight of the
    module it is bound to. *)

Module Toy.

Definition tensors : Tensors :=
  {| Arch := unit; StateDict := Z; Grads := unit; Data := list Z;
     Logits := list Z; Scalar := Z * bool; OptState := loc; PyFloat := nat;
     Device := unit; QConfig := unit; Criterion := unit;
     LossName := string |}.

#[local] Existing Instance tensors.

Definition framework : Framework :=
  {| forward := fun _ _ sd data => (sd, Tensor (map (Z.add sd) data));
     argmax := fun out => out;
     cross_entropy := fun out label =>
       (Z.of_nat (length label - count_eq out label), true);
     float_zero := (0%Z, false);
     scalar_add := fun a b => ((fst a + fst b)%Z, snd a || snd b);
     requires_grad := snd;
     autograd_backward := fun _ h => h;
     optim_zero_grad := fun _ h => h;
     optim_step := fun o h =>
       (o, store o (with_state (state (h o) + 1)%Z (h o)) h);
     pickle := fun sd => [x00; x01];
     torch_save_error := RuntimeError;
     time_at := fun n => n;
     float_sub := Nat.sub |}.

#[local] Existing Instance framework.

Definition world : World :=
  {| heap := fun _ => {| arch := tt; state := 0%Z; grads := tt;
                         training := false |};
     next_loc := 2;
     optimizers := fun o => o;
     fs := ∅;
     dirs := fun _ => false;
     trace := [];
     passes := 0;
     clock := 0 |}.

(** Two samples in one batch, with labels 1 and 2. *)
Definition loader : DataLoader :=
  {| dataset_len := 2; batches := fun _ => [([0; 0]%Z, [1; 2]%Z)] |}.

(** A loader over an empty dataset. *)
Definition empty_loader : DataLoader :=
  {| dataset_len := 0; batches := fun _ => [] |}.

(** A loader whose sampler draws two samples, with replacement, from a
    dataset of one. *)
Definition oversampling_loader : DataLoader :=
  {| dataset_len := 1; batches := fun _ => [([1; 1]%Z, [1; 1]%Z)] |}.

Definition base (train val : DataLoader) : BaseClass.instance :=
  {| BaseClass.teacher_model := 0;
     BaseClass.student_model := 1;
     BaseClass.train_loader := train;
     BaseClass.val_loader := val;
     BaseClass.optimizer_teacher := 0;
     BaseClass.optimizer_student := 1;
     BaseClass.loss := "MSE";
     BaseClass.temp := 20;
     BaseClass.distl_weight := 1;
     BaseClass.device := tt;
     BaseClass.best_teacher_model_weights := None;
     BaseClass.best_student_model_weights := None |}.

(** The class itself, and a subclass with a loss function. *)
Definition base_class : BaseClass.Subclass :=
  {| BaseClass.override_calculate_kd_loss := None |}.

Definition distiller : BaseClass.Subclass :=
  {| BaseClass.override_calculate_kd_loss :=
       Some (fun _ y_pred_student _ y_true =>
               Ok (cross_entropy (first_of_tuple y_pred_student) y_true)) |}.

Definition quantizer (test : option DataLoader) : Quantizer.instance :=
  {| Quantizer.model := 0;
     Quantizer.quantized_model := 0;
     Quantizer.qconfig := tt;
     Quantizer.train_loader := None;
     Quantizer.test_loader := test;
     Quantizer.optimizer := None;
     Quantizer.criterion := None;
     Quantizer.device := tt |}.

(** A working directory in which a file [temp.p] already exists. *)
Definition world_with_temp : World :=
  set_fs (<["temp.p" := [x2a]]> ∅) world.

End Toy.

(** * Properties *)

(** ** The monad and the loops *)

Section Monad.
Context {Σ A B : Type}.

Lemma bind_ok (m : M Σ A) (k : A -> M Σ B) s a s' :
  m s = (Ok a, s') -> bind m k s = k a s'.
Proof. unfold bind. intros ->. reflexivity. Qed.

Lemma bind_raise (m : M Σ A) (k : A -> M Σ B) s e s' :
  m s = (Raise e, s') -> bind m k s = (Raise e, s').
Proof. unfold bind. intros ->. reflexivity. Qed.

Lemma bind_ok_inv (m : M Σ A) (k : A -> M Σ B) s b s' :
  bind m k s = (Ok b, s') ->
  exists a s1, m s = (Ok a, s1) /\ k a s1 = (Ok b, s').
Proof.
  unfold bind. destruct (m s) as [[a|e] s1]; intros E.
  - exists a, s1. split; [reflexivity | exact E].
  - discriminate E.
Qed.

Lemma for_each_cons (x : B) xs (body : A -> B -> M Σ A) acc s :
  for_each (x :: xs) body acc s = bind (body acc x) (for_each xs body) s.
Proof. reflexivity. Qed.
End Monad.

Lemma range_seq (n : Z) : range n = map Z.of_nat (seq 0 (Z.to_nat n)).
Proof. reflexivity. Qed.

Lemma truediv_ok (a b : nat) :
  b <> 0 -> truediv a b = Ok (Z.of_nat a # Pos.of_nat b).
Proof. destruct b; [congruence | reflexivity]. Qed.

Lemma truediv_zero (a : nat) : truediv a 0 = Raise ZeroDivisionError.
Proof. reflexivity. Qed.

Lemma truediv_ok_inv (a b : nat) (q : Q) :
  truediv a b = Ok q -> b <> 0 /\ q = (Z.of_nat a # Pos.of_nat b).
Proof. destruct b; simpl; [discriminate|]. intros [= <-]. split; [lia | reflexivity]. Qed.

Lemma gt_spec (a b : Q) : gt a b = true <-> (b < a)%Q.
Proof.
  unfold gt. rewrite negb_true_iff. split.
  - intros E. apply Qnot_le_lt. intros Hle. apply Qle_bool_iff in Hle. congruence.
  - intros Hlt. destruct (Qle_bool a b) eqn:E; [|reflexivity].
    apply Qle_bool_iff in E. exfalso. exact (Qlt_not_le _ _ Hlt E).
Qed.

Lemma gt_false (a b : Q) : gt a b = false <-> (a <= b)%Q.
Proof.
  unfold gt. rewrite negb_false_iff. apply Qle_bool_iff.
Qed.

(** ** Frames: what a computation keeps *)

Section FrameRules.
Context {Σ : Type} (P : Σ -> Prop).

Lemma preserves_ret {A} (a : A) : preserves P (ret a).
Proof. intros s Hs. exact Hs. Qed.

Lemma preserves_raise {A} (e : exn) : preserves P (@raise Σ A e).
Proof. intros s Hs. exact Hs. Qed.

Lemma preserves_of_result {A} (r : result A) : preserves P (of_result r).
Proof. intros s Hs. exact Hs. Qed.

Lemma preserves_bind {A B} (m : M Σ A) (k : A -> M Σ B) :
  preserves P m -> (forall a, preserves P (k a)) -> preserves P (bind m k).
Proof.
  intros Hm Hk s Hs. unfold bind. specialize (Hm s Hs).
  destruct (m s) as [[a|e] s1]; cbn in *; [apply Hk; exact Hm | exact Hm].
Qed.

(** A first step that brings [P] about, followed by steps that keep it. *)
Lemma bind_establishes {A B} (m : M Σ A) (k : A -> M Σ B) s :
  P (snd (m s)) -> (forall a, preserves P (k a)) -> P (snd (bind m k s)).
Proof.
  intros Hm Hk. unfold bind.
  destruct (m s) as [[a|e] s1]; cbn in *; [apply Hk; exact Hm | exact Hm].
Qed.

Lemma preserves_for_each {A B} (body : A -> B -> M Σ A) (xs : list B) :
  (forall a x, preserves P (body a x)) ->
  forall a, preserves P (for_each xs body a).
Proof.
  intros Hb. induction xs as [|x xs IH]; intros a; cbn.
  - apply preserves_ret.
  - apply preserves_bind; [apply Hb | exact IH].
Qed.
End FrameRules.

Section FrameLift.
Context `{Framework}.

Lemma preserves_lift {S A} (P : S * World -> Prop) (m : M World A) :
  (forall x, preserves (fun w => P (x, w)) m) -> preserves P (lift m).
Proof.
  intros Hm [x w] Hs. unfold lift. cbn. specialize (Hm x w Hs).
  destruct (m w) as [r w1]. exact Hm.
Qed.

(** [self.attr] read at a point where [P] holds. *)
Lemma preserves_bind_self {B} (P : BaseClass.Σ -> Prop)
    (k : BaseClass.instance -> M BaseClass.Σ B) :
  (forall s0, P s0 -> preserves P (k (fst s0))) ->
  preserves P (bind BaseClass.self_ k).
Proof. intros Hk s Hs. exact (Hk s Hs s Hs). Qed.

Lemma preserves_bind_qself {B} (P : Quantizer.Σ -> Prop)
    (k : Quantizer.instance -> M Quantizer.Σ B) :
  (forall s0, P s0 -> preserves P (k (fst s0))) ->
  preserves P (bind Quantizer.self_ k).
Proof. intros Hk s Hs. exact (Hk s Hs s Hs). Qed.

Lemma preserves_attribute {A} (P : BaseClass.Σ -> Prop) (a : option A) :
  preserves P (BaseClass.attribute a).
Proof. intros s Hs. destruct a; exact Hs. Qed.

Lemma preserves_attribute_of {A} (P : Quantizer.Σ -> Prop) (a : option A) :
  preserves P (Quantizer.attribute_of a).
Proof. intros s Hs. destruct a; exact Hs. Qed.
End FrameLift.

(** One step of taking a method apart along its binds, loops and
    branches; what is left are the calls into the framework and the
    assignments to attributes. *)
Ltac frame_step :=
  lazymatch goal with
  | |- preserves _ (ret _) => apply preserves_ret
  | |- preserves _ (raise _) => apply preserves_raise
  | |- preserves _ (of_result _) => apply preserves_of_result
  | |- preserves _ (BaseClass.attribute _) => apply preserves_attribute
  | |- preserves _ (Quantizer.attribute_of _) => apply preserves_attribute_of
  | |- preserves _ (bind BaseClass.self_ _) =>
      apply preserves_bind_self; intros ? ?; cbn beta
  | |- preserves _ (bind Quantizer.self_ _) =>
      apply preserves_bind_qself; intros ? ?; cbn beta
  | |- preserves _ (bind _ _) => apply preserves_bind; [|intros ?]
  | |- preserves _ (for_each _ _ _) => apply preserves_for_each; intros ? ?
  | |- preserves _ (lift _) => apply preserves_lift; intros ?
  | |- preserves _ (if ?b then _ else _) => destruct b
  | |- preserves _ (match ?o with Some _ => _ | None => _ end) => destruct o
  end.

Ltac frame_open :=
  unfold BaseClass.train_teacher, BaseClass.train_teacher_begin,
    BaseClass.train_teacher_epochs, BaseClass.train_teacher_epoch,
    BaseClass.train_teacher_batch, BaseClass.train_teacher_end,
    BaseClass.train_student, BaseClass.train_student_begin,
    BaseClass.train_student_epochs, BaseClass.train_student_epoch,
    BaseClass.train_student_batch, BaseClass.train_student_end,
    BaseClass.self_calculate_kd_loss, BaseClass.calculate_kd_loss,
    Quantizer._evaluate_model, Quantizer._evaluate_model_batch,
    Quantizer._time_model_evaluation, Quantizer.get_performance_statistics,
    to;
  cbn zeta.

Ltac frame := frame_open; repeat frame_step.

(** A call into the framework, run on the state at hand. *)
Ltac run_call :=
  cbv [nn_train nn_eval nn_set_mode nn_call deepcopy_state_dict
       deepcopy_module load_state_dict torch_save_state_dict plt_plot
       zero_grad backward step iterate time_time F_cross_entropy print emit
       bind get put modify ret
       BaseClass.set_best_teacher_model_weights
       BaseClass.set_best_student_model_weights];
  cbn [fst snd heap next_loc optimizers fs trace passes clock set_heap
       set_next_loc set_optimizers set_fs set_trace set_passes set_clock].

(** The branches of [torch.save] and of [plt.plot]. *)
Ltac run_branches :=
  repeat match goal with
    | |- context [directory_exists ?w ?d] => destruct (directory_exists w d)
    | |- context [existsb requires_grad ?arr] =>
        destruct (existsb requires_grad arr)
    end.

(** *** The directories: no method creates or removes one *)

Section Directories.
Context `{Framework} `{!BaseClass.Subclass}.
Import BaseClass.

Lemma teacher_loop_directories epochs (d0 : string -> bool) :
  preserves (fun s : Σ => dirs (snd s) = d0)
    (vars0 <- train_teacher_begin ;; train_teacher_epochs epochs vars0).
Proof. frame; intros s Hs; exact Hs. Qed.

Lemma student_loop_directories epochs (d0 : string -> bool) :
  preserves (fun s : Σ => dirs (snd s) = d0)
    (vars0 <- train_student_begin ;; train_student_epochs epochs vars0).
Proof. frame; intros s Hs; exact Hs. Qed.

(** Nor does the loop write a file. *)
Lemma teacher_loop_files epochs (f0 : gmap string (list byte)) :
  preserves (fun s : Σ => fs (snd s) = f0)
    (vars0 <- train_teacher_begin ;; train_teacher_epochs epochs vars0).
Proof. frame; intros s Hs; exact Hs. Qed.

Lemma student_loop_files epochs (f0 : gmap string (list byte)) :
  preserves (fun s : Σ => fs (snd s) = f0)
    (vars0 <- train_student_begin ;; train_student_epochs epochs vars0).
Proof. frame; intros s Hs; exact Hs. Qed.
End Directories.

(** ** [train_teacher]: batches and epochs *)

Section Teacher.
Context `{Framework}.
Import BaseClass.

Lemma teacher_batch_run (acc : Scalar * nat) (b : Data * Label)
    (self : instance) (w : World) :
  exists out w',
    let loss := cross_entropy (first_of_tuple out) (snd b) in
    train_teacher_batch acc b (self, w)
    = (Ok (scalar_add (fst acc) loss, snd acc + batch_correct b out),
       (self, w'))
    /\ trace w' = trace w ++ teacher_batch_events self (out, loss)
    /\ passes w' = passes w
    /\ forward_of (fst b) out.
Proof.
  unfold train_teacher_batch. cbn.
  eexists _, _. split; [reflexivity|]. cbn. split_and!.
  - rewrite <- !app_assoc. reflexivity.
  - reflexivity.
  - eexists. reflexivity.
Qed.

Lemma teacher_batches_run (bs : list (Data * Label)) :
  forall (acc : Scalar * nat) (self : instance) (w : World),
  exists rs w',
    for_each bs train_teacher_batch acc (self, w)
    = (Ok (fold_left scalar_add (map snd rs) (fst acc),
           snd acc + sum_list (zip_with batch_correct bs (map fst rs))),
       (self, w'))
    /\ length rs = length bs
    /\ Forall2 teacher_batch_result bs rs
    /\ trace w' = trace w ++ concat (map (teacher_batch_events self) rs)
    /\ passes w' = passes w.
Proof.
  induction bs as [|b bs IH]; intros acc self w.
  - exists [], w. cbn. rewrite Nat.add_0_r, app_nil_r. destruct acc. auto.
  - destruct (teacher_batch_run acc b self w) as (out & w1 & E1 & T1 & P1 & Fw).
    cbn zeta in E1.
    destruct (IH (scalar_add (fst acc) (cross_entropy (first_of_tuple out) (snd b)),
                  snd acc + batch_correct b out) self w1)
      as (rs & w' & E2 & L2 & F2 & T2 & P2).
    exists ((out, cross_entropy (first_of_tuple out) (snd b)) :: rs), w'.
    rewrite for_each_cons, (bind_ok _ _ _ _ _ E1), E2. cbn.
    repeat split.
    + do 3 f_equal. lia.
    + lia.
    + constructor; [split; [exact Fw | reflexivity] | exact F2].
    + rewrite T2, T1, <- !app_assoc. reflexivity.
    + lia.
Qed.
End Teacher.

Section TeacherEpoch.
Context `{Framework}.
Import BaseClass.

Lemma teacher_epoch_run len vars ep self w :
  let bs := batches (train_loader self) (passes w) in
  let model := teacher_model self in
  exists rs w1,
    length rs = length bs
    /\ Forall2 teacher_batch_result bs rs
    /\ trace w1 = trace w ++ concat (map (teacher_batch_events self) rs)
    /\ passes w1 = S (passes w)
    /\ match truediv (sum_list (zip_with batch_correct bs (map fst rs))) len with
       | Raise e =>
           train_teacher_epoch len vars ep (self, w) = (Raise e, (self, w1))
       | Ok acc =>
           let improved := gt acc (snd vars) in
           let eloss := loss_sum (map snd rs) in
           exists w',
             train_teacher_epoch len vars ep (self, w)
             = (Ok (fst vars ++ [eloss], if improved then acc else snd vars),
                (if improved
                 then with_best_teacher (state (heap w1 model)) self
                 else self, w'))
             /\ heap w' = heap w1
             /\ passes w' = passes w1
             /\ trace w' = trace w1
                  ++ snapshot_events model
                       (if improved then Some (state (heap w1 model)) else None)
                  ++ [EvPrint (LEpoch (ep + 1) eloss acc)]
       end.
Proof.
  intros bs model.
  destruct (teacher_batches_run bs (float_zero, 0) self
              (set_passes (S (passes w)) w)) as (rs & w1 & E & L & F & T & P).
  exists rs, w1. repeat split; try assumption.
  unfold train_teacher_epoch, bind at 1 2. cbn [self_ lift iterate bind get put ret fst snd].
  cbn in E. fold bs. cbn in T, P.
  rewrite (bind_ok _ _ _ _ _ E). cbn [fst snd].
  unfold bind at 1, of_result.
  destruct (truediv _ len) as [acc|e]; [|reflexivity].
  cbn zeta. unfold loss_sum.
  destruct (gt acc (snd vars)); cbn; eexists; (split; [reflexivity|]); cbn;
    rewrite <- ?app_assoc; auto.
Qed.

(** An epoch that returns, with its log. *)
Lemma teacher_epoch_ok len vars ep s vars' s' :
  train_teacher_epoch len vars ep s = (Ok vars', s') ->
  let bs := batches (train_loader (fst s)) (passes (snd s)) in
  let model := teacher_model (fst s) in
  exists log : EpochLog (output Logits * Scalar),
    let improved := gt (epoch_acc log) (snd vars) in
    length (batch_results log) = length bs
    /\ Forall2 teacher_batch_result
         bs (batch_results log)
    /\ epoch_loss log = loss_sum (map snd (batch_results log))
    /\ truediv (sum_list (zip_with batch_correct bs (map fst (batch_results log)))) len
       = Ok (epoch_acc log)
    /\ snapshot log
       = (if improved then Some (state (heap (snd s') model)) else None)
    /\ vars' = (fst vars ++ [epoch_loss log],
                if improved then epoch_acc log else snd vars)
    /\ fst s' = (if improved
                 then with_best_teacher (state (heap (snd s') model)) (fst s)
                 else fst s)
    /\ trace (snd s')
       = trace (snd s) ++ epoch_events (teacher_batch_events (fst s)) model ep log
    /\ passes (snd s') = S (passes (snd s)).
Proof.
  destruct s as [self w]. intros E bs model.
  destruct (teacher_epoch_run len vars ep self w) as (rs & w1 & L & F & T & P & R).
  cbn [fst snd] in *. fold bs model in L, F, R.
  destruct (truediv _ len) as [acc|e] eqn:D.
  - destruct R as (w' & E' & Hh & Hp & Ht). rewrite E' in E.
    injection E as <- <-. cbn [fst snd].
    exists {| batch_results := rs;
              snapshot := if gt acc (snd vars)
                          then Some (state (heap w1 model)) else None;
              epoch_loss := loss_sum (map snd rs);
              epoch_acc := acc |}.
    cbn. rewrite Hh. repeat split; try assumption; try reflexivity.
    + rewrite Ht, T. unfold epoch_events. cbn. rewrite <- !app_assoc. reflexivity.
    + lia.
  - rewrite R in E. discriminate E.
Qed.

Lemma teacher_epoch_returns len vars ep s :
  len <> 0 -> exists vars' s', train_teacher_epoch len vars ep s = (Ok vars', s').
Proof.
  destruct s as [self w]. intros Hlen.
  destruct (teacher_epoch_run len vars ep self w) as (rs & w1 & _ & _ & _ & _ & R).
  rewrite truediv_ok in R by assumption.
  destruct R as (w' & E & _). eauto.
Qed.

Lemma teacher_epoch_raises vars ep s :
  exists s', train_teacher_epoch 0 vars ep s = (Raise ZeroDivisionError, s').
Proof.
  destruct s as [self w].
  destruct (teacher_epoch_run 0 vars ep self w) as (rs & w1 & _ & _ & _ & _ & R).
  rewrite truediv_zero in R. eauto.
Qed.
End TeacherEpoch.

Section TeacherRun.
Context `{Framework}.
Import BaseClass.

(** The loop of epochs, when it returns: one log per epoch. *)
Lemma teacher_epochs_ok len n :
  forall k vars s vars' s',
    for_each (map Z.of_nat (seq k n)) (train_teacher_epoch len) vars s
    = (Ok vars', s') ->
    exists logs : list (EpochLog (output Logits * Scalar)),
      length logs = n
      /\ (forall i log, logs !! i = Some log ->
            let bs := batches (train_loader (fst s)) (passes (snd s) + i) in
            length (batch_results log) = length bs
            /\ Forall2 teacher_batch_result
                 bs (batch_results log)
            /\ epoch_loss log = loss_sum (map snd (batch_results log))
            /\ truediv (sum_list (zip_with batch_correct bs
                                    (map fst (batch_results log)))) len
               = Ok (epoch_acc log))
      /\ fst vars' = fst vars ++ map epoch_loss logs
      /\ (fst s' = fst s \/ exists sd, fst s' = with_best_teacher sd (fst s))
      /\ trace (snd s')
         = trace (snd s)
           ++ epochs_events (teacher_batch_events (fst s)) (teacher_model (fst s)) k logs
      /\ passes (snd s') = passes (snd s) + n.
Proof.
  induction n as [|n IH]; intros k vars s vars' s' E.
  - cbn in E. injection E as <- <-. exists []. cbn.
    rewrite !app_nil_r, Nat.add_0_r. split_and!; auto.
    intros i log Hl. rewrite lookup_nil in Hl. discriminate.
  - cbn [seq map] in E. rewrite for_each_cons in E.
    apply bind_ok_inv in E as (vars1 & s1 & E1 & E2).
    apply teacher_epoch_ok in E1
      as (log & L & F & Hl & Ha & Hs & Hv & Hself & Ht & Hp).
    apply IH in E2 as (logs & Ln & Hlogs & Hv' & Hself' & Ht' & Hp').
    assert (Hc : fst s1 = fst s \/ exists sd, fst s1 = with_best_teacher sd (fst s)).
    { rewrite Hself. destruct (gt _ _); eauto. }
    assert (Hcfg : train_loader (fst s1) = train_loader (fst s)
                   /\ teacher_batch_events (fst s1) = teacher_batch_events (fst s)
                   /\ teacher_model (fst s1) = teacher_model (fst s)).
    { destruct Hc as [->|[sd ->]]; repeat split; reflexivity. }
    destruct Hcfg as (Hld & Hev & Hm).
    exists (log :: logs). split_and!.
    + cbn. lia.
    + intros [|i] log' Hlk; cbn in Hlk.
      * injection Hlk as <-. rewrite Nat.add_0_r. auto.
      * specialize (Hlogs i log' Hlk). rewrite Hld, Hp in Hlogs.
        replace (passes (snd s) + S i) with (S (passes (snd s)) + i) by lia.
        exact Hlogs.
    + rewrite Hv', Hv. cbn. rewrite <- app_assoc. reflexivity.
    + destruct Hself' as [->|[sd ->]]; [exact Hc|].
      right. destruct Hc as [->|[sd' ->]]; eexists; reflexivity.
    + rewrite Ht', Ht, Hev, Hm. cbn. rewrite <- !app_assoc. reflexivity.
    + lia.
Qed.

Lemma teacher_epochs_returns len n :
  len <> 0 ->
  forall k vars s,
  exists vars' s',
    for_each (map Z.of_nat (seq k n)) (train_teacher_epoch len) vars s
    = (Ok vars', s').
Proof.
  intros Hlen. induction n as [|n IH]; intros k vars s.
  - cbn. eauto.
  - destruct (teacher_epoch_returns len vars (Z.of_nat k) s Hlen) as (vars1 & s1 & E1).
    destruct (IH (S k) vars1 s1) as (vars' & s' & E2).
    exists vars', s'. cbn [seq map]. rewrite for_each_cons, (bind_ok _ _ _ _ _ E1).
    exact E2.
Qed.
End TeacherRun.

(** ** The running best *)

Section RunningBest.
Context `{Framework}.
Import BaseClass.

Lemma track_best_ge (best obs : Q * StateDict) :
  (fst best <= fst (track_best best obs))%Q
  /\ (fst obs <= fst (track_best best obs))%Q.
Proof.
  unfold track_best. destruct (gt (fst obs) (fst best)) eqn:E.
  - apply gt_spec in E. split; [apply Qlt_le_weak, E | apply Qle_refl].
  - apply gt_false in E. split; [apply Qle_refl | exact E].
Qed.

Lemma fold_track_best_ge (history : list (Q * StateDict)) :
  forall best,
    (fst best <= fst (fold_left track_best history best))%Q
    /\ Forall (fun obs => (fst obs <= fst (fold_left track_best history best))%Q)
         history.
Proof.
  induction history as [|obs history IH]; intros best; cbn.
  - split; [apply Qle_refl | constructor].
  - destruct (IH (track_best best obs)) as [Hb Hall].
    destruct (track_best_ge best obs) as [H1 H2].
    split; [eapply Qle_trans; eassumption|].
    constructor; [eapply Qle_trans; eassumption | exact Hall].
Qed.

Lemma fold_track_best_attained (history : list (Q * StateDict)) :
  forall best,
    fold_left track_best history best = best
    \/ (fold_left track_best history best ∈ history
        /\ (fst best < fst (fold_left track_best history best))%Q).
Proof.
  induction history as [|obs history IH]; intros best; cbn; [auto|].
  destruct (IH (track_best best obs)) as [E|[Hin Hlt]].
  - rewrite E. unfold track_best. destruct (gt (fst obs) (fst best)) eqn:G; [|auto].
    right. split; [left | apply gt_spec, G].
  - right. split; [right; exact Hin|].
    eapply Qle_lt_trans; [apply (track_best_ge best obs) | exact Hlt].
Qed.

Lemma epochs_observed_app epoch model c1 h1 c2 h2 c3 :
  epochs_observed epoch model c1 h1 c2 ->
  epochs_observed epoch model c2 h2 c3 ->
  epochs_observed epoch model c1 (h1 ++ h2) c3.
Proof.
  intros H1 H2. induction H2 as [|? ? ? ? ? ? ? ? ? ? IH E L].
  - rewrite app_nil_r. exact H1.
  - rewrite app_assoc. eapply observed_more; eauto.
Qed.

Lemma last_epoch_events {R} (t : list Event) (bev : R -> list Event) model ep
    (log : EpochLog R) :
  last (t ++ epoch_events bev model ep log)
  = Some (EvPrint (LEpoch (ep + 1) (epoch_loss log) (epoch_acc log))).
Proof. unfold epoch_events. rewrite !app_assoc. apply last_snoc. Qed.

Lemma teacher_epochs_observed len n :
  forall k vars s vars' s',
    for_each (map Z.of_nat (seq k n)) (train_teacher_epoch len) vars s
    = (Ok vars', s') ->
    exists history,
      length history = n
      /\ epochs_observed (train_teacher_epoch len) (teacher_model (fst s))
           (vars, s) history (vars', s').
Proof.
  induction n as [|n IH]; intros k vars s vars' s' E.
  - cbn in E. injection E as <- <-. exists []. split; [reflexivity | constructor].
  - cbn [seq map] in E. rewrite for_each_cons in E.
    apply bind_ok_inv in E as (vars1 & s1 & E1 & E2).
    pose proof (teacher_epoch_ok _ _ _ _ _ _ E1)
      as (log & _ & _ & _ & _ & _ & _ & Hself & Ht & _).
    apply IH in E2 as (history & Ln & Hobs).
    assert (Hm : teacher_model (fst s1) = teacher_model (fst s)).
    { rewrite Hself. destruct (gt _ _); reflexivity. }
    rewrite Hm in Hobs.
    exists ([(epoch_acc log, state (heap (snd s1) (teacher_model (fst s))))] ++ history).
    split; [cbn; lia|].
    eapply epochs_observed_app; [|exact Hobs].
    eapply (observed_more _ _ _ []); [constructor | exact E1 |].
    rewrite Ht. apply last_epoch_events.
Qed.

Lemma teacher_observed_best len model c history c' :
  epochs_observed (train_teacher_epoch len) model c history c' ->
  teacher_model (fst (snd c)) = model ->
  forall sd0, best_teacher_model_weights (fst (snd c)) = Some sd0 ->
    let best := fold_left track_best history (snd (fst c), sd0) in
    teacher_model (fst (snd c')) = model
    /\ snd (fst c') = fst best
    /\ best_teacher_model_weights (fst (snd c')) = Some (snd best).
Proof.
  intros Hobs Hm sd0 Hsd0.
  induction Hobs as [|c history vars s ep vars' s' loss acc Hobs IH E L]; [cbn; auto|].
  destruct (IH Hm Hsd0) as (IHm & IHa & IHw). cbn [fst snd] in *.
  apply teacher_epoch_ok in E
    as (log & _ & _ & _ & _ & _ & Hv & Hself & Ht & _).
  rewrite Ht, last_epoch_events in L. injection L as _ <-.
  rewrite IHm in Hself. rewrite fold_left_app. cbn [fold_left].
  set (best := fold_left track_best history _) in *.
  unfold track_best. cbn [fst snd]. rewrite <- IHa, Hv, Hself. cbn [fst snd].
  destruct (gt (epoch_acc log) (snd vars)); cbn; auto.
Qed.
End RunningBest.

Section TeacherWhole.
Context `{Framework}.
Import BaseClass.

Lemma store_same (l : loc) (m : Module) (h : Heap) : store l m h l = m.
Proof. unfold store. rewrite Nat.eqb_refl. reflexivity. Qed.

Lemma store_other (l l' : loc) (m : Module) (h : Heap) :
  l' <> l -> store l m h l' = h l'.
Proof. unfold store. intros Hne. apply Nat.eqb_neq in Hne. rewrite Hne. reflexivity. Qed.

Lemma teacher_begin_run self w :
  let model := teacher_model self in
  let sd0 := state (heap w model) in
  exists w0,
    train_teacher_begin (self, w)
    = (Ok ([], 0%Q), (with_best_teacher sd0 self, w0))
    /\ state (heap w0 model) = sd0
    /\ passes w0 = passes w
    /\ fs w0 = fs w
    /\ trace w0 = trace w ++ [EvMode model true; EvDeepcopyStateDict model sd0;
                              EvPrint LTrainingTeacher].
Proof.
  intros model sd0. unfold train_teacher_begin. cbn. fold model.
  rewrite !store_same. cbn. fold sd0.
  eexists. split; [reflexivity|]. cbn. rewrite store_same, <- !app_assoc. auto.
Qed.

(** What follows the loop, case by case: the restore; then the save, which
    raises when the directory of the path is missing; then the plot, which
    raises on a loss that requires grad. *)
Lemma teacher_end_run (vars : list Scalar * Q) (plot_losses save_model : bool)
    (save_model_pth : string) (self : instance) (w : World) (best : StateDict) :
  best_teacher_model_weights self = Some best ->
  let model := teacher_model self in
  let w1 := set_trace (trace w ++ [EvLoadStateDict model best])
              (set_heap (store model (with_state best (heap w model)) (heap w)) w) in
  let w2 : World := if save_model
            then set_trace (trace w1 ++ [EvSave save_model_pth best])
                   (set_fs (<[save_model_pth := pickle best]> (fs w1)) w1)
            else w1 in
  train_teacher_end vars plot_losses save_model save_model_pth (self, w)
  = if save_model && negb (directory_exists w (directory_of save_model_pth))
    then (Raise torch_save_error, (self, w1))
    else if plot_losses && existsb requires_grad (fst vars)
         then (Raise RuntimeError, (self, w2))
         else (Ok tt, (self, if plot_losses return World
                             then set_trace (trace w2 ++ [EvPlot (fst vars)]) w2
                             else w2)).
Proof.
  intros Hbest model w1 w2. unfold train_teacher_end.
  rewrite (bind_ok self_ _ (self, w) self (self, w) eq_refl), Hbest.
  assert (E1 : lift (load_state_dict model best) (self, w) = (Ok tt, (self, w1)))
    by reflexivity.
  assert (Hst : state (heap w1 model) = best)
    by (unfold w1; cbn; rewrite store_same; reflexivity).
  cbn [attribute]. rewrite (bind_ok (ret best) _ (self, w) best (self, w) eq_refl).
  fold model. rewrite (bind_ok _ _ _ _ _ E1).
  assert (Hd : directory_exists w1 (directory_of save_model_pth)
               = directory_exists w (directory_of save_model_pth)) by reflexivity.
  destruct save_model; cbn [andb negb].
  - unfold bind at 1, lift at 1, torch_save_state_dict, bind at 1, get.
    cbn [fst snd]. rewrite Hd, Hst.
    destruct (directory_exists w (directory_of save_model_pth)); cbn [negb];
      [|reflexivity].
    cbn [bind put emit modify fst snd]. fold w2.
    destruct plot_losses; cbn [andb]; [|reflexivity].
    unfold lift, plt_plot. cbn [fst snd].
    destruct (existsb requires_grad (fst vars)); reflexivity.
  - rewrite (bind_ok (ret tt) _ (self, w1) tt (self, w1) eq_refl).
    destruct plot_losses; cbn [andb]; [|reflexivity].
    unfold lift, plt_plot. cbn [fst snd].
    destruct (existsb requires_grad (fst vars)); reflexivity.
Qed.

(** The end of a call that returns. *)
Lemma teacher_end_ok vars plot_losses save_model save_model_pth self w best s' :
  best_teacher_model_weights self = Some best ->
  train_teacher_end vars plot_losses save_model save_model_pth (self, w)
  = (Ok tt, s') ->
  let model := teacher_model self in
  exists w',
    s' = (self, w')
    /\ state (heap w' model) = best
    /\ (save_model = true -> fs w' !! save_model_pth = Some (pickle best))
    /\ (save_model = false -> fs w' = fs w)
    /\ (save_model = true ->
        directory_exists w (directory_of save_model_pth) = true)
    /\ (plot_losses = true -> existsb requires_grad (fst vars) = false)
    /\ trace w' = trace w ++ end_events model best (fst vars) plot_losses
                                save_model save_model_pth.
Proof.
  intros Hbest E model.
  rewrite (teacher_end_run _ _ _ _ _ _ _ Hbest) in E. fold model in E.
  unfold end_events.
  destruct save_model, plot_losses,
    (directory_exists w (directory_of save_model_pth)),
    (existsb requires_grad (fst vars)); cbn in E; try discriminate E;
    injection E as <-; eexists; (split; [reflexivity|]); cbn;
    rewrite ?store_same, ?lookup_insert_eq, <- ?app_assoc; cbn;
    split_and!; auto; discriminate.
Qed.
End TeacherWhole.

Section TeacherCall.
Context `{Framework}.
Import BaseClass.

(** A call of [train_teacher] that returns, taken apart. *)
Lemma train_teacher_ok epochs plot_losses save_model save_model_pth self w s' :
  train_teacher epochs plot_losses save_model save_model_pth (self, w)
  = (Ok tt, s') ->
  let model := teacher_model self in
  let sd0 := state (heap w model) in
  let self0 := with_best_teacher sd0 self in
  let len := dataset_len (train_loader self) in
  exists w0 vars s1 best (logs : list (EpochLog (output Logits * Scalar))),
    train_teacher_begin (self, w) = (Ok ([], 0%Q), (self0, w0))
    /\ passes w0 = passes w
    /\ for_each (range epochs) (train_teacher_epoch len) ([], 0%Q) (self0, w0)
       = (Ok vars, s1)
    /\ train_teacher_end vars plot_losses save_model save_model_pth s1
       = (Ok tt, s')
    /\ length logs = Z.to_nat epochs
    /\ fst vars = map epoch_loss logs
    /\ (forall i log, logs !! i = Some log ->
          let bs := batches (train_loader self) (passes w + i) in
          length (batch_results log) = length bs
          /\ Forall2 teacher_batch_result
               bs (batch_results log)
          /\ epoch_loss log = loss_sum (map snd (batch_results log))
          /\ truediv (sum_list (zip_with batch_correct bs
                                  (map fst (batch_results log)))) len
             = Ok (epoch_acc log))
    /\ fst s' = fst s1
    /\ teacher_model (fst s') = model
    /\ best_teacher_model_weights (fst s') = Some best
    /\ state (heap (snd s') model) = best
    /\ (save_model = true -> fs (snd s') !! save_model_pth = Some (pickle best))
    /\ trace (snd s')
       = trace w
         ++ [EvMode model true; EvDeepcopyStateDict model sd0;
             EvPrint LTrainingTeacher]
         ++ epochs_events (teacher_batch_events self) model 0 logs
         ++ end_events model best (fst vars) plot_losses save_model save_model_pth.
Proof.
  intros E model sd0 self0 len. unfold train_teacher in E.
  destruct (teacher_begin_run self w) as (w0 & Eb & _ & Pb & _ & Tb).
  fold model sd0 self0 in Eb, Tb.
  rewrite (bind_ok _ _ _ _ _ Eb) in E.
  apply bind_ok_inv in E as (vars & s1 & Ee & Eend).
  change (train_teacher_epochs epochs ([], 0%Q) (self0, w0))
    with (for_each (range epochs) (train_teacher_epoch len) ([], 0%Q) (self0, w0))
    in Ee.
  pose proof Ee as Ee'. rewrite range_seq in Ee'.
  apply teacher_epochs_ok in Ee' as (logs & Ln & Hlogs & Hv & Hself & Ht & Hp).
  cbn [fst snd] in *.
  assert (Hcfg : exists best, best_teacher_model_weights (fst s1) = Some best
                              /\ teacher_model (fst s1) = model).
  { destruct Hself as [->|[sd ->]]; eexists; split; reflexivity. }
  destruct Hcfg as (best & Hbest & Hm).
  destruct s1 as [self1 w1]. cbn [fst snd] in *.
  destruct (teacher_end_ok vars plot_losses save_model save_model_pth self1 w1 best
              s' Hbest Eend) as (w' & Es' & Hst & Hfs & _ & _ & _ & Tend).
  subst s'. cbn [fst snd].
  rewrite Hm in Hst, Tend.
  exists w0, vars, (self1, w1), best, logs. split_and!; auto.
  - intros i log Hl. specialize (Hlogs i log Hl). rewrite Pb in Hlogs. exact Hlogs.
  - rewrite Tend, Ht, Tb, <- !app_assoc. reflexivity.
Qed.

(** The prologue and the loop return when the training set is not empty. *)
Lemma teacher_loop_returns epochs self w :
  dataset_len (train_loader self) <> 0 ->
  exists vars s1,
    (vars0 <- train_teacher_begin ;; train_teacher_epochs epochs vars0) (self, w)
    = (Ok vars, s1).
Proof.
  intros Hlen. destruct (teacher_begin_run self w) as (w0 & Eb & _).
  rewrite (bind_ok _ _ _ _ _ Eb).
  set (self0 := with_best_teacher _ self) in *.
  destruct (teacher_epochs_returns (dataset_len (train_loader self))
              (Z.to_nat epochs) Hlen 0 ([], 0%Q) (self0, w0)) as (vars & s1 & Ee).
  exists vars, s1. exact Ee.
Qed.

(** A call whose loop returns goes on with what follows the loop. *)
Lemma train_teacher_after_loop epochs plot_losses save_model save_model_pth
    self w vars s1 :
  (vars0 <- train_teacher_begin ;; train_teacher_epochs epochs vars0) (self, w)
  = (Ok vars, s1) ->
  train_teacher epochs plot_losses save_model save_model_pth (self, w)
  = train_teacher_end vars plot_losses save_model save_model_pth s1.
Proof.
  intros E. unfold train_teacher.
  destruct (teacher_begin_run self w) as (w0 & Eb & _).
  rewrite (bind_ok _ _ _ _ _ Eb) in E. rewrite (bind_ok _ _ _ _ _ Eb).
  rewrite (bind_ok _ _ _ _ _ E). reflexivity.
Qed.

(** The prologue and the loop, when they return, taken apart. *)
Lemma teacher_loop_ok epochs self w vars s1 :
  (vars0 <- train_teacher_begin ;; train_teacher_epochs epochs vars0) (self, w)
  = (Ok vars, s1) ->
  let model := teacher_model self in
  let sd0 := state (heap w model) in
  let len := dataset_len (train_loader self) in
  exists best (logs : list (EpochLog (output Logits * Scalar))),
    length logs = Z.to_nat epochs
    /\ fst vars = map epoch_loss logs
    /\ (forall i log, logs !! i = Some log ->
          let bs := batches (train_loader self) (passes w + i) in
          length (batch_results log) = length bs
          /\ Forall2 teacher_batch_result bs (batch_results log)
          /\ epoch_loss log = loss_sum (map snd (batch_results log))
          /\ truediv (sum_list (zip_with batch_correct bs
                                  (map fst (batch_results log)))) len
             = Ok (epoch_acc log))
    /\ fst s1 = with_best_teacher best self
    /\ dirs (snd s1) = dirs w
    /\ trace (snd s1)
       = trace w
         ++ [EvMode model true; EvDeepcopyStateDict model sd0;
             EvPrint LTrainingTeacher]
         ++ epochs_events (teacher_batch_events self) model 0 logs.
Proof.
  intros E model sd0 len.
  pose proof (teacher_loop_directories epochs (dirs w) (self, w) eq_refl) as Hd.
  rewrite E in Hd. cbn [snd] in Hd.
  destruct (teacher_begin_run self w) as (w0 & Eb & _ & Pb & _ & Tb).
  fold model sd0 in Eb, Tb.
  rewrite (bind_ok _ _ _ _ _ Eb) in E.
  change (for_each (map Z.of_nat (seq 0 (Z.to_nat epochs)))
            (train_teacher_epoch len) ([], 0%Q) (with_best_teacher sd0 self, w0)
          = (Ok vars, s1)) in E.
  apply teacher_epochs_ok in E as (logs & Ln & Hlogs & Hv & Hself & Ht & Hp).
  cbn [fst snd] in *.
  assert (Hbest : exists best, fst s1 = with_best_teacher best self).
  { destruct Hself as [->|[sd ->]]; eexists; reflexivity. }
  destruct Hbest as (best & Hbest).
  exists best, logs. split_and!; auto.
  - intros i log Hl. specialize (Hlogs i log Hl). rewrite Pb in Hlogs. exact Hlogs.
  - rewrite Ht, Tb, <- !app_assoc. reflexivity.
Qed.
End TeacherCall.

(** ** [train_student]: batches and epochs *)

Section Student.
Context `{Framework} `{!BaseClass.Subclass}.
Import BaseClass.

Lemma kd_loss_total_not_raised self e :
  kd_loss_total -> ~ kd_loss_raised self e.
Proof.
  intros Ht (so & to & lbl & E). destruct (Ht self so to lbl) as (loss & E').
  congruence.
Qed.

Lemma nn_call_run (m : loc) (data : Data) (w : World) :
  exists out w',
    nn_call m data w = (Ok out, w')
    /\ trace w' = trace w ++ [EvCall m out]
    /\ passes w' = passes w
    /\ forward_of data out.
Proof.
  unfold nn_call. cbn. eexists _, _. split_and!; try reflexivity.
  eexists. reflexivity.
Qed.

Lemma lift_ok {S A} (m : M World A) (x : S) (w : World) a w' :
  m w = (Ok a, w') -> lift m (x, w) = (Ok a, (x, w')).
Proof. unfold lift. cbn. intros ->. reflexivity. Qed.

Lemma student_batch_run (acc : Scalar * nat) (b : Data * Label)
    (self : instance) (w : World) :
  exists so to w1,
    forward_of (fst b) so
    /\ forward_of (fst b) to
    /\ match kd_loss_result self so to (snd b) with
       | Ok loss =>
           exists w',
             train_student_batch acc b (self, w)
             = (Ok (scalar_add (fst acc) loss, snd acc + batch_correct b so),
                (self, w'))
             /\ trace w' = trace w ++ student_batch_events self (so, to, loss)
             /\ passes w' = passes w
       | Raise e => train_student_batch acc b (self, w) = (Raise e, (self, w1))
       end.
Proof.
  destruct (nn_call_run (student_model self) (fst b) w)
    as (so & w1 & E1 & T1 & P1 & F1).
  destruct (nn_call_run (teacher_model self) (fst b) w1)
    as (to' & w2 & E2 & T2 & P2 & F2).
  exists so, to', w2. split; [exact F1|]. split; [exact F2|].
  unfold train_student_batch, to.
  rewrite (bind_ok self_ _ (self, w) self (self, w) eq_refl).
  rewrite (bind_ok _ _ _ _ _ (lift_ok _ self _ _ _ E1)).
  rewrite (bind_ok _ _ _ _ _ (lift_ok _ self _ _ _ E2)).
  unfold self_calculate_kd_loss, kd_loss_result, calculate_kd_loss.
  destruct override_calculate_kd_loss as [f|]; [|reflexivity].
  destruct (f self so to' (snd b)) as [loss|e] eqn:K.
  - unfold bind at 1 2, self_ at 1. cbn [fst snd].
    unfold bind at 1, of_result. rewrite K. cbn.
    eexists. split; [reflexivity|]. cbn.
    rewrite T2, T1, <- !app_assoc. split; [reflexivity|]. lia.
  - unfold bind at 1 2, self_ at 1. cbn [fst snd].
    unfold bind at 1, of_result. rewrite K. reflexivity.
Qed.

Lemma student_batches_run (bs : list (Data * Label)) :
  forall (acc : Scalar * nat) (self : instance) (w : World),
    (exists e s',
        kd_loss_raised self e
        /\ for_each bs train_student_batch acc (self, w) = (Raise e, s'))
    \/ (exists rs w',
          for_each bs train_student_batch acc (self, w)
          = (Ok (fold_left scalar_add (map snd rs) (fst acc),
                 snd acc + sum_list (zip_with batch_correct bs
                                       (map (fun r => fst (fst r)) rs))),
             (self, w'))
          /\ length rs = length bs
          /\ Forall2 (student_batch_result self) bs rs
          /\ trace w' = trace w ++ concat (map (student_batch_events self) rs)
          /\ passes w' = passes w).
Proof.
  induction bs as [|b bs IH]; intros acc self w.
  - right. exists [], w. cbn. rewrite Nat.add_0_r, app_nil_r. destruct acc. auto.
  - destruct (student_batch_run acc b self w) as (so & to & w1 & Fs & Ft & R).
    destruct (kd_loss_result self so to (snd b)) as [loss|e] eqn:K.
    + destruct R as (w' & E1 & T1 & P1).
      destruct (IH (scalar_add (fst acc) loss, snd acc + batch_correct b so) self w')
        as [(e & s' & Hr & E2)|(rs & w2 & E2 & L2 & F2 & T2 & P2)].
      * left. exists e, s'. split; [exact Hr|].
        rewrite for_each_cons, (bind_ok _ _ _ _ _ E1). exact E2.
      * right. exists ((so, to, loss) :: rs), w2.
        rewrite for_each_cons, (bind_ok _ _ _ _ _ E1), E2. cbn.
        split_and!.
        -- do 3 f_equal. lia.
        -- lia.
        -- constructor; [split_and!; [exact Fs | exact Ft | exact K] | exact F2].
        -- rewrite T2, T1, <- !app_assoc. reflexivity.
        -- lia.
    + left. exists e, (self, w1). split; [exists so, to, (snd b); exact K|].
      rewrite for_each_cons. apply bind_raise. exact R.
Qed.

Lemma student_epoch_run len vars ep self w :
  let bs := batches (train_loader self) (passes w) in
  let model := student_model self in
  (exists e s',
      kd_loss_raised self e
      /\ train_student_epoch len vars ep (self, w) = (Raise e, s'))
  \/ (exists rs w1,
    length rs = length bs
    /\ Forall2 (student_batch_result self) bs rs
    /\ trace w1 = trace w ++ concat (map (student_batch_events self) rs)
    /\ passes w1 = S (passes w)
    /\ match truediv (sum_list (zip_with batch_correct bs
                                  (map (fun r => fst (fst r)) rs))) len with
       | Raise e =>
           train_student_epoch len vars ep (self, w) = (Raise e, (self, w1))
       | Ok acc =>
           let improved := gt acc (snd vars) in
           let eloss := loss_sum (map snd rs) in
           exists w',
             train_student_epoch len vars ep (self, w)
             = (Ok (fst vars ++ [eloss], if improved then acc else snd vars),
                (if improved
                 then with_best_student (state (heap w1 model)) self
                 else self, w'))
             /\ heap w' = heap w1
             /\ passes w' = passes w1
             /\ trace w' = trace w1
                  ++ snapshot_events model
                       (if improved then Some (state (heap w1 model)) else None)
                  ++ [EvPrint (LEpoch (ep + 1) eloss acc)]
       end).
Proof.
  intros bs model.
  destruct (student_batches_run bs (float_zero, 0) self
              (set_passes (S (passes w)) w))
    as [(e & s' & Hr & E)|(rs & w1 & E & L & F & T & P)].
  - left. exists e, s'. split; [exact Hr|].
    unfold train_student_epoch, bind at 1 2.
    cbn [self_ lift iterate bind get put ret fst snd]. fold bs.
    apply bind_raise. exact E.
  - right. exists rs, w1. split_and!; try assumption.
    unfold train_student_epoch, bind at 1 2.
    cbn [self_ lift iterate bind get put ret fst snd].
    cbn in E. fold bs. cbn in T, P.
    rewrite (bind_ok _ _ _ _ _ E). cbn [fst snd].
    unfold bind at 1, of_result.
    destruct (truediv _ len) as [acc|e]; [|reflexivity].
    cbn zeta. unfold loss_sum.
    destruct (gt acc (snd vars)); cbn; eexists; (split; [reflexivity|]); cbn;
      rewrite <- ?app_assoc; auto.
Qed.

(** An epoch that returns, with its log. *)
Lemma student_epoch_ok len vars ep s vars' s' :
  train_student_epoch len vars ep s = (Ok vars', s') ->
  let bs := batches (train_loader (fst s)) (passes (snd s)) in
  let model := student_model (fst s) in
  exists log : EpochLog (output Logits * output Logits * Scalar),
    let improved := gt (epoch_acc log) (snd vars) in
    length (batch_results log) = length bs
    /\ Forall2 (student_batch_result (fst s)) bs (batch_results log)
    /\ epoch_loss log = loss_sum (map snd (batch_results log))
    /\ truediv (sum_list (zip_with batch_correct bs
                            (map (fun r => fst (fst r)) (batch_results log)))) len
       = Ok (epoch_acc log)
    /\ snapshot log
       = (if improved then Some (state (heap (snd s') model)) else None)
    /\ vars' = (fst vars ++ [epoch_loss log],
                if improved then epoch_acc log else snd vars)
    /\ fst s' = (if improved
                 then with_best_student (state (heap (snd s') model)) (fst s)
                 else fst s)
    /\ trace (snd s')
       = trace (snd s) ++ epoch_events (student_batch_events (fst s)) model ep log
    /\ passes (snd s') = S (passes (snd s)).
Proof.
  destruct s as [self w]. intros E bs model.
  destruct (student_epoch_run len vars ep self w)
    as [(e & s1 & _ & E')|(rs & w1 & L & F & T & P & R)].
  { rewrite E' in E. discriminate E. }
  cbn [fst snd] in *. fold bs model in L, F, R.
  destruct (truediv _ len) as [acc|e] eqn:D.
  - destruct R as (w' & E' & Hh & Hp & Ht). rewrite E' in E.
    injection E as <- <-. cbn [fst snd].
    exists {| batch_results := rs;
              snapshot := if gt acc (snd vars)
                          then Some (state (heap w1 model)) else None;
              epoch_loss := loss_sum (map snd rs);
              epoch_acc := acc |}.
    cbn. rewrite Hh. split_and!; try assumption; try reflexivity.
    + rewrite Ht, T. unfold epoch_events. cbn. rewrite <- !app_assoc. reflexivity.
    + lia.
  - rewrite R in E. discriminate E.
Qed.

Lemma student_epoch_returns len vars ep s :
  len <> 0 -> kd_loss_total ->
  exists vars' s', train_student_epoch len vars ep s = (Ok vars', s').
Proof.
  destruct s as [self w]. intros Hlen Htot.
  destruct (student_epoch_run len vars ep self w)
    as [(e & s1 & Hr & _)|(rs & w1 & _ & _ & _ & _ & R)].
  { destruct (kd_loss_total_not_raised _ _ Htot Hr). }
  rewrite truediv_ok in R by assumption.
  destruct R as (w' & E & _). eauto.
Qed.

(** The loop of epochs, when it returns: one log per epoch. *)
Lemma student_epochs_ok len n :
  forall k vars s vars' s',
    for_each (map Z.of_nat (seq k n)) (train_student_epoch len) vars s
    = (Ok vars', s') ->
    exists logs : list (EpochLog (output Logits * output Logits * Scalar)),
      length logs = n
      /\ (forall i log, logs !! i = Some log ->
            let bs := batches (train_loader (fst s)) (passes (snd s) + i) in
            length (batch_results log) = length bs
            /\ (exists self',
                  (self' = fst s \/ exists sd, self' = with_best_student sd (fst s))
                  /\ Forall2 (student_batch_result self')
                       bs (batch_results log))
            /\ epoch_loss log = loss_sum (map snd (batch_results log))
            /\ truediv (sum_list (zip_with batch_correct bs
                                    (map (fun r => fst (fst r)) (batch_results log)))) len
               = Ok (epoch_acc log))
      /\ fst vars' = fst vars ++ map epoch_loss logs
      /\ (fst s' = fst s \/ exists sd, fst s' = with_best_student sd (fst s))
      /\ trace (snd s')
         = trace (snd s)
           ++ epochs_events (student_batch_events (fst s)) (student_model (fst s)) k logs
      /\ passes (snd s') = passes (snd s) + n.
Proof.
  induction n as [|n IH]; intros k vars s vars' s' E.
  - cbn in E. injection E as <- <-. exists []. cbn.
    rewrite !app_nil_r, Nat.add_0_r. split_and!; auto.
    intros i log Hl. rewrite lookup_nil in Hl. discriminate.
  - cbn [seq map] in E. rewrite for_each_cons in E.
    apply bind_ok_inv in E as (vars1 & s1 & E1 & E2).
    apply student_epoch_ok in E1
      as (log & L & F & Hl & Ha & Hs & Hv & Hself & Ht & Hp).
    apply IH in E2 as (logs & Ln & Hlogs & Hv' & Hself' & Ht' & Hp').
    assert (Hc : fst s1 = fst s \/ exists sd, fst s1 = with_best_student sd (fst s)).
    { rewrite Hself. destruct (gt _ _); eauto. }
    assert (Hcfg : train_loader (fst s1) = train_loader (fst s)
                   /\ student_batch_events (fst s1) = student_batch_events (fst s)
                   /\ student_model (fst s1) = student_model (fst s)).
    { destruct Hc as [->|[sd ->]]; split_and!; reflexivity. }
    destruct Hcfg as (Hld & Hev & Hm).
    exists (log :: logs). split_and!.
    + cbn. lia.
    + intros [|i] log' Hlk; cbn in Hlk.
      * injection Hlk as <-. rewrite Nat.add_0_r. split_and!; eauto.
      * specialize (Hlogs i log' Hlk). rewrite Hld, Hp in Hlogs.
        replace (passes (snd s) + S i) with (S (passes (snd s)) + i) by lia.
        destruct Hlogs as (Hl1 & (self' & Hs' & Hf) & Hl3 & Hl4).
        split_and!; auto. exists self'. split; [|exact Hf].
        destruct Hs' as [->|[sd ->]]; [exact Hc|].
        right. destruct Hc as [->|[sd' ->]]; eexists; reflexivity.
    + rewrite Hv', Hv. cbn. rewrite <- app_assoc. reflexivity.
    + destruct Hself' as [->|[sd ->]]; [exact Hc|].
      right. destruct Hc as [->|[sd' ->]]; eexists; reflexivity.
    + rewrite Ht', Ht, Hev, Hm. cbn. rewrite <- !app_assoc. reflexivity.
    + lia.
Qed.

Lemma student_epochs_returns len n :
  len <> 0 -> kd_loss_total ->
  forall k vars s,
  exists vars' s',
    for_each (map Z.of_nat (seq k n)) (train_student_epoch len) vars s
    = (Ok vars', s').
Proof.
  intros Hlen Htot. induction n as [|n IH]; intros k vars s.
  - cbn. eauto.
  - destruct (student_epoch_returns len vars (Z.of_nat k) s Hlen Htot)
      as (vars1 & s1 & E1).
    destruct (IH (S k) vars1 s1) as (vars' & s' & E2).
    exists vars', s'. cbn [seq map]. rewrite for_each_cons, (bind_ok _ _ _ _ _ E1).
    exact E2.
Qed.

Lemma student_epochs_observed len n :
  forall k vars s vars' s',
    for_each (map Z.of_nat (seq k n)) (train_student_epoch len) vars s
    = (Ok vars', s') ->
    exists history,
      length history = n
      /\ epochs_observed (train_student_epoch len) (student_model (fst s))
           (vars, s) history (vars', s').
Proof.
  induction n as [|n IH]; intros k vars s vars' s' E.
  - cbn in E. injection E as <- <-. exists []. split; [reflexivity | constructor].
  - cbn [seq map] in E. rewrite for_each_cons in E.
    apply bind_ok_inv in E as (vars1 & s1 & E1 & E2).
    pose proof (student_epoch_ok _ _ _ _ _ _ E1)
      as (log & _ & _ & _ & _ & _ & _ & Hself & Ht & _).
    apply IH in E2 as (history & Ln & Hobs).
    assert (Hm : student_model (fst s1) = student_model (fst s)).
    { rewrite Hself. destruct (gt _ _); reflexivity. }
    rewrite Hm in Hobs.
    exists ([(epoch_acc log, state (heap (snd s1) (student_model (fst s))))] ++ history).
    split; [cbn; lia|].
    eapply epochs_observed_app; [|exact Hobs].
    eapply (observed_more _ _ _ []); [constructor | exact E1 |].
    rewrite Ht. apply last_epoch_events.
Qed.

Lemma student_observed_best len model c history c' :
  epochs_observed (train_student_epoch len) model c history c' ->
  student_model (fst (snd c)) = model ->
  forall sd0, best_student_model_weights (fst (snd c)) = Some sd0 ->
    let best := fold_left track_best history (snd (fst c), sd0) in
    student_model (fst (snd c')) = model
    /\ snd (fst c') = fst best
    /\ best_student_model_weights (fst (snd c')) = Some (snd best).
Proof.
  intros Hobs Hm sd0 Hsd0.
  induction Hobs as [|c history vars s ep vars' s' loss acc Hobs IH E L]; [cbn; auto|].
  destruct (IH Hm Hsd0) as (IHm & IHa & IHw). cbn [fst snd] in *.
  apply student_epoch_ok in E
    as (log & _ & _ & _ & _ & _ & Hv & Hself & Ht & _).
  rewrite Ht, last_epoch_events in L. injection L as _ <-.
  rewrite IHm in Hself. rewrite fold_left_app. cbn [fold_left].
  set (best := fold_left track_best history _) in *.
  unfold track_best. cbn [fst snd]. rewrite <- IHa, Hv, Hself. cbn [fst snd].
  destruct (gt (epoch_acc log) (snd vars)); cbn; auto.
Qed.

Lemma state_store_training (l l' : loc) (b : bool) (h : Heap) :
  state (store l (with_training b (h l)) h l') = state (h l').
Proof.
  unfold store. destruct (Nat.eqb l' l) eqn:E; [|reflexivity].
  apply Nat.eqb_eq in E. subst. reflexivity.
Qed.

Lemma student_begin_run self w :
  let model := student_model self in
  let sd0 := state (heap w model) in
  exists w0,
    train_student_begin (self, w)
    = (Ok ([], 0%Q), (with_best_student sd0 self, w0))
    /\ state (heap w0 model) = sd0
    /\ passes w0 = passes w
    /\ fs w0 = fs w
    /\ trace w0 = trace w ++ [EvMode (teacher_model self) false;
                              EvMode model true;
                              EvDeepcopyStateDict model sd0;
                              EvPrint LTrainingStudent].
Proof.
  intros model sd0. unfold train_student_begin. cbn. fold model.
  rewrite !store_same. cbn. rewrite !state_store_training. fold sd0.
  eexists. split; [reflexivity|]. cbn.
  rewrite store_same. cbn. rewrite state_store_training, <- !app_assoc. auto.
Qed.

(** What follows the loop, case by case: the restore; then the save, which
    raises when the directory of the path is missing; then the plot, which
    raises on a loss that requires grad. *)
Lemma student_end_run (vars : list Scalar * Q) (plot_losses save_model : bool)
    (save_model_pth : string) (self : instance) (w : World) (best : StateDict) :
  best_student_model_weights self = Some best ->
  let model := student_model self in
  let w1 := set_trace (trace w ++ [EvLoadStateDict model best])
              (set_heap (store model (with_state best (heap w model)) (heap w)) w) in
  let w2 : World := if save_model
            then set_trace (trace w1 ++ [EvSave save_model_pth best])
                   (set_fs (<[save_model_pth := pickle best]> (fs w1)) w1)
            else w1 in
  train_student_end vars plot_losses save_model save_model_pth (self, w)
  = if save_model && negb (directory_exists w (directory_of save_model_pth))
    then (Raise torch_save_error, (self, w1))
    else if plot_losses && existsb requires_grad (fst vars)
         then (Raise RuntimeError, (self, w2))
         else (Ok tt, (self, if plot_losses return World
                             then set_trace (trace w2 ++ [EvPlot (fst vars)]) w2
                             else w2)).
Proof.
  intros Hbest model w1 w2. unfold train_student_end.
  rewrite (bind_ok self_ _ (self, w) self (self, w) eq_refl), Hbest.
  assert (E1 : lift (load_state_dict model best) (self, w) = (Ok tt, (self, w1)))
    by reflexivity.
  assert (Hst : state (heap w1 model) = best)
    by (unfold w1; cbn; rewrite store_same; reflexivity).
  cbn [attribute]. rewrite (bind_ok (ret best) _ (self, w) best (self, w) eq_refl).
  fold model. rewrite (bind_ok _ _ _ _ _ E1).
  assert (Hd : directory_exists w1 (directory_of save_model_pth)
               = directory_exists w (directory_of save_model_pth)) by reflexivity.
  destruct save_model; cbn [andb negb].
  - unfold bind at 1, lift at 1, torch_save_state_dict, bind at 1, get.
    cbn [fst snd]. rewrite Hd, Hst.
    destruct (directory_exists w (directory_of save_model_pth)); cbn [negb];
      [|reflexivity].
    cbn [bind put emit modify fst snd]. fold w2.
    destruct plot_losses; cbn [andb]; [|reflexivity].
    unfold lift, plt_plot. cbn [fst snd].
    destruct (existsb requires_grad (fst vars)); reflexivity.
  - rewrite (bind_ok (ret tt) _ (self, w1) tt (self, w1) eq_refl).
    destruct plot_losses; cbn [andb]; [|reflexivity].
    unfold lift, plt_plot. cbn [fst snd].
    destruct (existsb requires_grad (fst vars)); reflexivity.
Qed.

(** The end of a call that returns. *)
Lemma student_end_ok vars plot_losses save_model save_model_pth self w best s' :
  best_student_model_weights self = Some best ->
  train_student_end vars plot_losses save_model save_model_pth (self, w)
  = (Ok tt, s') ->
  let model := student_model self in
  exists w',
    s' = (self, w')
    /\ state (heap w' model) = best
    /\ (save_model = true -> fs w' !! save_model_pth = Some (pickle best))
    /\ (save_model = false -> fs w' = fs w)
    /\ (save_model = true ->
        directory_exists w (directory_of save_model_pth) = true)
    /\ (plot_losses = true -> existsb requires_grad (fst vars) = false)
    /\ trace w' = trace w ++ end_events model best (fst vars) plot_losses
                                save_model save_model_pth.
Proof.
  intros Hbest E model.
  rewrite (student_end_run _ _ _ _ _ _ _ Hbest) in E. fold model in E.
  unfold end_events.
  destruct save_model, plot_losses,
    (directory_exists w (directory_of save_model_pth)),
    (existsb requires_grad (fst vars)); cbn in E; try discriminate E;
    injection E as <-; eexists; (split; [reflexivity|]); cbn;
    rewrite ?store_same, ?lookup_insert_eq, <- ?app_assoc; cbn;
    split_and!; auto; discriminate.
Qed.
End Student.

Section StudentCall.
Context `{Framework} `{!BaseClass.Subclass}.
Import BaseClass.

(** A call of [train_student] that returns, taken apart. *)
Lemma train_student_ok epochs plot_losses save_model save_model_pth self w s' :
  train_student epochs plot_losses save_model save_model_pth (self, w)
  = (Ok tt, s') ->
  let model := student_model self in
  let sd0 := state (heap w model) in
  let self0 := with_best_student sd0 self in
  let len := dataset_len (train_loader self) in
  exists w0 vars s1 best
         (logs : list (EpochLog (output Logits * output Logits * Scalar))),
    train_student_begin (self, w) = (Ok ([], 0%Q), (self0, w0))
    /\ passes w0 = passes w
    /\ for_each (range epochs) (train_student_epoch len) ([], 0%Q) (self0, w0)
       = (Ok vars, s1)
    /\ train_student_end vars plot_losses save_model save_model_pth s1
       = (Ok tt, s')
    /\ length logs = Z.to_nat epochs
    /\ fst vars = map epoch_loss logs
    /\ (forall i log, logs !! i = Some log ->
          let bs := batches (train_loader self) (passes w + i) in
          length (batch_results log) = length bs
          /\ (exists self',
                (self' = self \/ exists sd, self' = with_best_student sd self)
                /\ Forall2 (student_batch_result self')
                     bs (batch_results log))
          /\ epoch_loss log = loss_sum (map snd (batch_results log))
          /\ truediv (sum_list (zip_with batch_correct bs
                                  (map (fun r => fst (fst r)) (batch_results log)))) len
             = Ok (epoch_acc log))
    /\ fst s' = fst s1
    /\ student_model (fst s') = model
    /\ best_student_model_weights (fst s') = Some best
    /\ state (heap (snd s') model) = best
    /\ (save_model = true -> fs (snd s') !! save_model_pth = Some (pickle best))
    /\ trace (snd s')
       = trace w
         ++ [EvMode (teacher_model self) false; EvMode model true;
             EvDeepcopyStateDict model sd0; EvPrint LTrainingStudent]
         ++ epochs_events (student_batch_events self) model 0 logs
         ++ end_events model best (fst vars) plot_losses save_model save_model_pth.
Proof.
  intros E model sd0 self0 len. unfold train_student in E.
  destruct (student_begin_run self w) as (w0 & Eb & _ & Pb & _ & Tb).
  fold model sd0 self0 in Eb, Tb.
  rewrite (bind_ok _ _ _ _ _ Eb) in E.
  apply bind_ok_inv in E as (vars & s1 & Ee & Eend).
  change (train_student_epochs epochs ([], 0%Q) (self0, w0))
    with (for_each (range epochs) (train_student_epoch len) ([], 0%Q) (self0, w0))
    in Ee.
  pose proof Ee as Ee'. rewrite range_seq in Ee'.
  apply student_epochs_ok in Ee' as (logs & Ln & Hlogs & Hv & Hself & Ht & Hp).
  cbn [fst snd] in *.
  assert (Hcfg : exists best, best_student_model_weights (fst s1) = Some best
                              /\ student_model (fst s1) = model).
  { destruct Hself as [->|[sd ->]]; eexists; split; reflexivity. }
  destruct Hcfg as (best & Hbest & Hm).
  destruct s1 as [self1 w1]. cbn [fst snd] in *.
  destruct (student_end_ok vars plot_losses save_model save_model_pth self1 w1 best
              s' Hbest Eend) as (w' & Es' & Hst & Hfs & _ & _ & _ & Tend).
  subst s'. cbn [fst snd].
  rewrite Hm in Hst, Tend.
  exists w0, vars, (self1, w1), best, logs. split_and!; auto.
  - intros i log Hl. specialize (Hlogs i log Hl). rewrite Pb in Hlogs.
    destruct Hlogs as (Hl1 & (self' & Hs' & Hf) & Hl3 & Hl4).
    split_and!; auto. exists self'. split; [|exact Hf].
    right. destruct Hs' as [->|[sd ->]]; eexists; reflexivity.
  - rewrite Tend, Ht, Tb, <- !app_assoc. reflexivity.
Qed.

(** The prologue and the loop return when the training set is not empty
    and the loss method returns. *)
Lemma student_loop_returns epochs self w :
  dataset_len (train_loader self) <> 0 -> kd_loss_total ->
  exists vars s1,
    (vars0 <- train_student_begin ;; train_student_epochs epochs vars0) (self, w)
    = (Ok vars, s1).
Proof.
  intros Hlen Htot. destruct (student_begin_run self w) as (w0 & Eb & _).
  rewrite (bind_ok _ _ _ _ _ Eb).
  set (self0 := with_best_student _ self) in *.
  destruct (student_epochs_returns (dataset_len (train_loader self))
              (Z.to_nat epochs) Hlen Htot 0 ([], 0%Q) (self0, w0))
    as (vars & s1 & Ee).
  exists vars, s1. exact Ee.
Qed.

Lemma train_student_after_loop epochs plot_losses save_model save_model_pth
    self w vars s1 :
  (vars0 <- train_student_begin ;; train_student_epochs epochs vars0) (self, w)
  = (Ok vars, s1) ->
  train_student epochs plot_losses save_model save_model_pth (self, w)
  = train_student_end vars plot_losses save_model save_model_pth s1.
Proof.
  intros E. unfold train_student.
  destruct (student_begin_run self w) as (w0 & Eb & _).
  rewrite (bind_ok _ _ _ _ _ Eb) in E. rewrite (bind_ok _ _ _ _ _ Eb).
  rewrite (bind_ok _ _ _ _ _ E). reflexivity.
Qed.

Lemma student_loop_ok epochs self w vars s1 :
  (vars0 <- train_student_begin ;; train_student_epochs epochs vars0) (self, w)
  = (Ok vars, s1) ->
  let model := student_model self in
  let sd0 := state (heap w model) in
  let len := dataset_len (train_loader self) in
  exists best (logs : list (EpochLog (output Logits * output Logits * Scalar))),
    length logs = Z.to_nat epochs
    /\ fst vars = map epoch_loss logs
    /\ (forall i log, logs !! i = Some log ->
          let bs := batches (train_loader self) (passes w + i) in
          length (batch_results log) = length bs
          /\ (exists self',
                (exists sd, self' = with_best_student sd self)
                /\ Forall2 (student_batch_result self') bs (batch_results log))
          /\ epoch_loss log = loss_sum (map snd (batch_results log))
          /\ truediv (sum_list (zip_with batch_correct bs
                                  (map (fun r => fst (fst r)) (batch_results log)))) len
             = Ok (epoch_acc log))
    /\ fst s1 = with_best_student best self
    /\ dirs (snd s1) = dirs w
    /\ trace (snd s1)
       = trace w
         ++ [EvMode (teacher_model self) false; EvMode model true;
             EvDeepcopyStateDict model sd0; EvPrint LTrainingStudent]
         ++ epochs_events (student_batch_events self) model 0 logs.
Proof.
  intros E model sd0 len.
  pose proof (student_loop_directories epochs (dirs w) (self, w) eq_refl) as Hd.
  rewrite E in Hd. cbn [snd] in Hd.
  destruct (student_begin_run self w) as (w0 & Eb & _ & Pb & _ & Tb).
  fold model sd0 in Eb, Tb.
  rewrite (bind_ok _ _ _ _ _ Eb) in E.
  change (for_each (map Z.of_nat (seq 0 (Z.to_nat epochs)))
            (train_student_epoch len) ([], 0%Q) (with_best_student sd0 self, w0)
          = (Ok vars, s1)) in E.
  apply student_epochs_ok in E as (logs & Ln & Hlogs & Hv & Hself & Ht & Hp).
  cbn [fst snd] in *.
  assert (Hbest : exists best, fst s1 = with_best_student best self).
  { destruct Hself as [->|[sd ->]]; eexists; reflexivity. }
  destruct Hbest as (best & Hbest).
  exists best, logs. split_and!; auto.
  - intros i log Hl. specialize (Hlogs i log Hl). rewrite Pb in Hlogs.
    destruct Hlogs as (Hl1 & (self' & Hs' & Hf) & Hl3 & Hl4).
    split_and!; auto. exists self'. split; [|exact Hf].
    destruct Hs' as [->|[sd ->]]; eexists; reflexivity.
  - rewrite Ht, Tb, <- !app_assoc. reflexivity.
Qed.
End StudentCall.

(** ** Evaluation loops *)

Section Evaluation.
Context `{Framework}.

Lemma count_eq_le (pred : list Z) (label : Label) :
  count_eq pred label <= length label.
Proof.
  revert label. induction pred as [|p pred IH]; intros [|l label]; cbn; try lia.
  specialize (IH label). destruct (Z.eqb p l); lia.
Qed.

Lemma batch_correct_le (b : Data * Label) (out : output Logits) :
  batch_correct b out <= length (snd b).
Proof. apply count_eq_le. Qed.

Lemma correct_le_samples (bs : list (Data * Label)) :
  forall outs : list (output Logits),
    sum_list (zip_with batch_correct bs outs) <= samples_yielded bs.
Proof.
  unfold samples_yielded.
  induction bs as [|b bs IH]; intros [|out outs]; cbn; try lia.
  apply Nat.add_le_mono; [apply batch_correct_le | apply IH].
Qed.

Lemma truediv_bounds (correct len : nat) (acc : Q) :
  truediv correct len = Ok acc ->
  (0 <= acc)%Q /\ (correct <= len -> (acc <= 1)%Q).
Proof.
  intros E. apply truediv_ok_inv in E as [Hlen ->]. split.
  - unfold Qle. cbn. lia.
  - intros Hle. unfold Qle. cbn. destruct len as [|n]; [congruence|].
    rewrite <- Pos.of_nat_succ, Zpos_P_of_succ_nat. lia.
Qed.

(** The batches of [BaseClass.evaluate], on the copy [model]. *)
Lemma evaluate_batches_run (bs : list (Data * Label)) (model : loc) :
  forall (correct : nat) (self : BaseClass.instance) (w : World),
  exists outs w',
    for_each bs (BaseClass.evaluate_batch model) correct (self, w)
    = (Ok (correct + sum_list (zip_with batch_correct bs outs)), (self, w'))
    /\ length outs = length bs
    /\ (forall l, l <> model -> heap w' l = heap w l)
    /\ fs w' = fs w
    /\ optimizers w' = optimizers w
    /\ next_loc w' = next_loc w
    /\ trace w' = trace w ++ map (EvCall model) outs.
Proof.
  induction bs as [|b bs IH]; intros correct self w.
  - exists [], w. cbn. rewrite Nat.add_0_r, app_nil_r. auto 10.
  - set (r := forward (arch (heap w model)) (training (heap w model))
                (state (heap w model)) (fst b)).
    set (w1 := set_trace (trace w ++ [EvCall model (snd r)])
                 (set_heap (store model (with_state (fst r) (heap w model)) (heap w)) w)).
    assert (E1 : BaseClass.evaluate_batch model correct b (self, w)
                 = (Ok (correct + batch_correct b (snd r)), (self, w1)))
      by reflexivity.
    destruct (IH (correct + batch_correct b (snd r)) self w1)
      as (outs & w' & E2 & L & Hh & Hf & Ho & Hn & Ht).
    exists (snd r :: outs), w'.
    rewrite for_each_cons, (bind_ok _ _ _ _ _ E1), E2. cbn.
    split_and!; auto.
    + rewrite Nat.add_assoc. reflexivity.
    + intros l Hl. rewrite Hh by exact Hl. cbn. apply store_other, Hl.
    + rewrite Ht. cbn. rewrite <- app_assoc. reflexivity.
Qed.

Lemma evaluate_run (teacher : bool) (self : BaseClass.instance) (w : World) :
  let src := if teacher then BaseClass.teacher_model self
             else BaseClass.student_model self in
  let copy := next_loc w in
  let loader := BaseClass.val_loader self in
  let bs := batches loader (passes w) in
  exists outs w1,
    length outs = length bs
    /\ (forall l, l <> copy -> heap w1 l = heap w l)
    /\ fs w1 = fs w
    /\ optimizers w1 = optimizers w
    /\ trace w1 = trace w ++ [EvDeepcopyModule src copy; EvMode copy false]
                          ++ map (EvCall copy) outs ++ [EvPrint LRule]
    /\ match truediv (sum_list (zip_with batch_correct bs outs))
               (dataset_len loader) with
       | Ok acc =>
           BaseClass.evaluate teacher (self, w)
           = (Ok tt, (self, set_trace (trace w1 ++ [EvPrint (LAccuracy acc)]) w1))
       | Raise e => BaseClass.evaluate teacher (self, w) = (Raise e, (self, w1))
       end.
Proof.
  intros src copy loader bs.
  set (w0 := set_passes (S (passes w))
               (set_trace (trace w ++ [EvDeepcopyModule src copy; EvMode copy false])
                  (set_heap (store copy (with_training false (heap w src))
                               (store copy (heap w src) (heap w)))
                     (set_next_loc (S copy) w)))).
  destruct (evaluate_batches_run bs copy 0 self w0)
    as (outs & w' & E & L & Hh & Hf & Ho & Hn & Ht).
  exists outs, (set_trace (trace w' ++ [EvPrint LRule]) w').
  cbn [heap fs optimizers trace set_trace].
  split_and!; auto.
  - intros l Hl. rewrite Hh by exact Hl. unfold w0. cbn.
    rewrite !store_other by exact Hl. reflexivity.
  - rewrite Ht. unfold w0. cbn. rewrite <- !app_assoc. reflexivity.
  - assert (Ebegin :
      BaseClass.evaluate teacher (self, w)
      = (bind (for_each bs (BaseClass.evaluate_batch copy) 0)
           (fun correct =>
              lift (print LRule) ;;
              acc <- of_result (truediv correct (dataset_len loader)) ;;
              lift (print (LAccuracy acc)))) (self, w0)).
    { unfold BaseClass.evaluate, w0, src. destruct teacher; cbn;
        rewrite store_same, <- !app_assoc; reflexivity. }
    rewrite Ebegin, (bind_ok _ _ _ _ _ E). cbn [Nat.add].
    destruct (truediv _ _); reflexivity.
Qed.

(** The batches of [Quantizer._evaluate_model]. *)
Lemma q_evaluate_batches_run (bs : list (Data * Label)) (model : loc) :
  forall (correct : nat) (self : Quantizer.instance) (w : World),
  exists outs w',
    for_each bs (Quantizer._evaluate_model_batch model) correct (self, w)
    = (Ok (correct + sum_list (zip_with batch_correct bs outs)), (self, w'))
    /\ length outs = length bs
    /\ fs w' = fs w
    /\ clock w' = clock w
    /\ passes w' = passes w
    /\ trace w' = trace w ++ map (EvCall model) outs.
Proof.
  induction bs as [|b bs IH]; intros correct self w.
  - exists [], w. cbn. rewrite Nat.add_0_r, app_nil_r. auto 10.
  - set (r := forward (arch (heap w model)) (training (heap w model))
                (state (heap w model)) (fst b)).
    set (w1 := set_trace (trace w ++ [EvCall model (snd r)])
                 (set_heap (store model (with_state (fst r) (heap w model)) (heap w)) w)).
    assert (E1 : Quantizer._evaluate_model_batch model correct b (self, w)
                 = (Ok (correct + batch_correct b (snd r)), (self, w1)))
      by reflexivity.
    destruct (IH (correct + batch_correct b (snd r)) self w1)
      as (outs & w' & E2 & L & Hf & Hc & Hp & Ht).
    exists (snd r :: outs), w'.
    rewrite for_each_cons, (bind_ok _ _ _ _ _ E1), E2. cbn.
    split_and!; auto.
    + rewrite Nat.add_assoc. reflexivity.
    + rewrite Ht. cbn. rewrite <- app_assoc. reflexivity.
Qed.

Lemma q_evaluate_model_run (model : loc) (self : Quantizer.instance)
    (w : World) (loader : DataLoader) :
  Quantizer.test_loader self = Some loader ->
  let bs := batches loader (passes w) in
  exists outs w',
    Quantizer._evaluate_model model (self, w)
    = (truediv (sum_list (zip_with batch_correct bs outs)) (dataset_len loader),
       (self, w'))
    /\ length outs = length bs
    /\ fs w' = fs w
    /\ clock w' = clock w
    /\ passes w' = S (passes w)
    /\ trace w' = trace w ++ [EvMode model false] ++ map (EvCall model) outs.
Proof.
  intros Hld bs.
  set (w0 := set_passes (S (passes w))
               (set_trace (trace w ++ [EvMode model false])
                  (set_heap (store model (with_training false (heap w model)) (heap w))
                     w))).
  destruct (q_evaluate_batches_run bs model 0 self w0)
    as (outs & w' & E & L & Hf & Hc & Hp & Ht).
  exists outs, w'. split_and!; auto.
  - unfold Quantizer._evaluate_model.
    assert (Ebegin :
      Quantizer._evaluate_model model (self, w)
      = (bind (for_each bs (Quantizer._evaluate_model_batch model) 0)
           (fun correct => of_result (truediv correct (dataset_len loader))))
          (self, w0)).
    { unfold Quantizer._evaluate_model. cbn. rewrite Hld. reflexivity. }
    fold (Quantizer._evaluate_model model). rewrite Ebegin, (bind_ok _ _ _ _ _ E).
    reflexivity.
  - rewrite Ht. unfold w0. cbn. rewrite <- !app_assoc. reflexivity.
Qed.

Lemma q_evaluate_model_no_loader (model : loc) (self : Quantizer.instance)
    (w : World) :
  Quantizer.test_loader self = None ->
  fst (Quantizer._evaluate_model model (self, w)) = Raise AttributeError.
Proof.
  intros Hld. unfold Quantizer._evaluate_model. cbn. rewrite Hld. reflexivity.
Qed.

Lemma get_size_of_model_run (model : loc) (self : Quantizer.instance) (w : World) :
  let sd := state (heap w model) in
  exists w',
    Quantizer._get_size_of_model model (self, w)
    = (Ok (Z.of_nat (length (pickle sd)) # 1000000)%Q, (self, w'))
    /\ fs w' = delete "temp.p" (fs w)
    /\ heap w' = heap w
    /\ trace w' = trace w ++ [EvSave "temp.p" sd; EvRemove "temp.p"].
Proof.
  intros sd. unfold Quantizer._get_size_of_model.
  set (w1 := set_trace (trace w ++ [EvSave "temp.p" sd])
               (set_fs (<["temp.p" := pickle sd]> (fs w)) w)).
  set (w2 := set_trace (trace w1 ++ [EvRemove "temp.p"])
               (set_fs (delete "temp.p" (fs w1)) w1)).
  assert (Hlk : fs w1 !! "temp.p" = Some (pickle sd)) by apply lookup_insert_eq.
  assert (E1 : lift (torch_save_state_dict model "temp.p") (self, w)
               = (Ok tt, (self, w1))) by reflexivity.
  assert (E2 : lift (os_path_getsize "temp.p") (self, w1)
               = (Ok (length (pickle sd)), (self, w1))).
  { unfold lift, os_path_getsize, bind, get. cbn [fst snd]. rewrite Hlk. reflexivity. }
  assert (E3 : lift (os_remove "temp.p") (self, w1) = (Ok tt, (self, w2))).
  { unfold lift, os_remove, bind, get. cbn [fst snd]. rewrite Hlk. reflexivity. }
  rewrite (bind_ok _ _ _ _ _ E1), (bind_ok _ _ _ _ _ E2), (bind_ok _ _ _ _ _ E3).
  exists w2. split; [reflexivity|]. split_and!.
  - apply delete_insert_eq.
  - reflexivity.
  - unfold w2, w1. cbn [trace set_trace set_fs]. rewrite <- app_assoc. reflexivity.
Qed.
End Evaluation.

Section QuantizerCalls.
Context `{Framework}.
Import Quantizer.

Lemma printed_app (t1 t2 : list Event) :
  printed (t1 ++ t2) = printed t1 ++ printed t2.
Proof. apply omap_app. Qed.

Lemma get_model_sizes_run (self : instance) (w : World) :
  let mb1 := (Z.of_nat (length (pickle (state (heap w (model self))))) # 1000000)%Q in
  let mb2 := (Z.of_nat (length (pickle (state (heap w (quantized_model self)))))
              # 1000000)%Q in
  exists w',
    get_model_sizes (self, w) = (Ok tt, (self, w'))
    /\ fs w' = delete "temp.p" (fs w)
    /\ heap w' = heap w
    /\ printed (trace w')
       = printed (trace w) ++ [LRule; LSizeOriginal mb1; LSizeQuantized mb2].
Proof.
  intros mb1 mb2. unfold get_model_sizes.
  destruct (get_size_of_model_run (model self) self w) as (w1 & E1 & F1 & H1 & T1).
  destruct (get_size_of_model_run (quantized_model self) self w1)
    as (w2 & E2 & F2 & H2 & T2).
  rewrite H1 in E2. fold mb1 in E1. fold mb2 in E2.
  rewrite (bind_ok self_ _ (self, w) self (self, w) eq_refl).
  rewrite (bind_ok _ _ _ _ _ E1).
  rewrite (bind_ok self_ _ (self, w1) self (self, w1) eq_refl).
  rewrite (bind_ok _ _ _ _ _ E2).
  eexists. split; [reflexivity|]. cbn [snd fs heap trace set_trace]. split_and!.
  - rewrite F2, F1. apply map_eq. intros path.
    destruct (decide ("temp.p" = path)) as [<-|Hne].
    + rewrite !lookup_delete_eq. reflexivity.
    + rewrite !lookup_delete_ne by exact Hne. reflexivity.
  - rewrite H2, H1. reflexivity.
  - rewrite T2, T1, !printed_app. cbn. rewrite !app_nil_r, <- !app_assoc. reflexivity.
Qed.

Lemma time_model_evaluation_ok (m : loc) (self : instance) (w : World) r s' :
  _time_model_evaluation m (self, w) = (Ok r, s') ->
  exists outs,
    fst s' = self
    /\ trace (snd s') = trace w ++ [EvMode m false] ++ map (EvCall m) outs.
Proof.
  unfold _time_model_evaluation. intros E.
  set (w0 := set_clock (S (clock w)) w) in *.
  assert (E0 : lift time_time (self, w) = (Ok (time_at (clock w)), (self, w0)))
    by reflexivity.
  rewrite (bind_ok _ _ _ _ _ E0) in E.
  apply bind_ok_inv in E as (acc & s1 & E1 & E2).
  destruct (test_loader self) as [loader|] eqn:Hld.
  - destruct (q_evaluate_model_run m self w0 loader Hld)
      as (outs & w1 & E1' & _ & _ & _ & _ & T1).
    rewrite E1' in E1. injection E1 as _ <-.
    cbn in E2. injection E2 as _ <-. exists outs. cbn. auto.
  - pose proof (q_evaluate_model_no_loader m self w0 Hld) as Hr.
    rewrite E1 in Hr. discriminate Hr.
Qed.

Lemma get_performance_statistics_ok (self : instance) (w : World) s' :
  get_performance_statistics (self, w) = (Ok tt, s') ->
  exists outs1 outs2 acc1 t1 acc2 t2,
    fst s' = self
    /\ trace (snd s')
       = trace w
         ++ ([EvMode (model self) false] ++ map (EvCall (model self)) outs1
             ++ [EvPrint (LOriginalModel acc1 t1)])
         ++ ([EvMode (quantized_model self) false]
             ++ map (EvCall (quantized_model self)) outs2
             ++ [EvPrint (LQuantizedModel acc2 t2)]).
Proof.
  unfold get_performance_statistics. intros E.
  rewrite (bind_ok self_ _ (self, w) self (self, w) eq_refl) in E.
  apply bind_ok_inv in E as (r1 & [self1 w1] & E1 & E).
  apply time_model_evaluation_ok in E1 as (outs1 & Hs1 & T1).
  cbn [fst snd] in Hs1, T1. subst self1.
  set (w2 := set_trace (trace w1 ++ [EvPrint (LOriginalModel (fst r1) (snd r1))]) w1)
    in *.
  assert (Ep : lift (print (LOriginalModel (fst r1) (snd r1))) (self, w1)
               = (Ok tt, (self, w2))) by reflexivity.
  rewrite (bind_ok _ _ _ _ _ Ep) in E.
  rewrite (bind_ok self_ _ (self, w2) self (self, w2) eq_refl) in E.
  apply bind_ok_inv in E as (r2 & [self3 w3] & E2 & E).
  apply time_model_evaluation_ok in E2 as (outs2 & Hs3 & T3).
  cbn [fst snd] in Hs3, T3. subst self3.
  cbn in E. injection E as <-.
  exists outs1, outs2, (fst r1), (snd r1), (fst r2), (snd r2).
  split; [reflexivity|]. cbn [snd trace set_trace].
  rewrite T3. unfold w2. cbn [trace set_trace]. rewrite T1, <- !app_assoc.
  reflexivity.
Qed.
End QuantizerCalls.

(** * Specification *)

(** C4. The constructors of [BaseClass] and [Quantizer] only store their
    arguments: each call returns, leaves the world as it was, and every
    argument is the value of the attribute named after it
    ([distil_weight] is kept in the attribute [distl_weight]; the model of a
    [Quantizer] is also its [quantized_model]). *)
Theorem C4_constructors_store_arguments `{Framework} :
  (forall teacher_model student_model train_loader val_loader
          optimizer_teacher optimizer_student loss temp distil_weight device w,
      exists self,
        BaseClass.__init__ teacher_model student_model train_loader val_loader
          optimizer_teacher optimizer_student loss temp distil_weight device w
        = (Ok self, w)
        /\ BaseClass.teacher_model self = teacher_model
        /\ BaseClass.student_model self = student_model
        /\ BaseClass.train_loader self = train_loader
        /\ BaseClass.val_loader self = val_loader
        /\ BaseClass.optimizer_teacher self = optimizer_teacher
        /\ BaseClass.optimizer_student self = optimizer_student
        /\ BaseClass.loss self = loss
        /\ BaseClass.temp self = temp
        /\ BaseClass.distl_weight self = distil_weight
        /\ BaseClass.device self = device)
  /\ (forall model qconfig train_loader test_loader optimizer criterion device w,
      exists self,
        Quantizer.__init__ model qconfig train_loader test_loader optimizer
          criterion device w
        = (Ok self, w)
        /\ Quantizer.model self = model
        /\ Quantizer.qconfig self = qconfig
        /\ Quantizer.train_loader self = train_loader
        /\ Quantizer.test_loader self = test_loader
        /\ Quantizer.optimizer self = optimizer
        /\ Quantizer.criterion self = criterion
        /\ Quantizer.device self = device).
Proof.
  split; intros; eexists; (split; [reflexivity|]); cbn; auto 12.
Qed.

(** C6. [Quantizer.quantize] and [BaseClass.calculate_kd_loss] raise
    [NotImplementedError], whatever the instance and the arguments, and the
    state they leave (the instance and the world) is the state they were
    called in. *)
Theorem C6_templates_raise_NotImplementedError `{Framework} :
  (forall (self : Quantizer.instance) (w : World),
      Quantizer.quantize (self, w) = (Raise NotImplementedError, (self, w)))
  /\ (forall (self : BaseClass.instance) (w : World)
             (y_pred_student y_pred_teacher : output Logits) (y_true : Label),
      BaseClass.calculate_kd_loss y_pred_student y_pred_teacher y_true (self, w)
      = (Raise NotImplementedError, (self, w))).
Proof. split; reflexivity. Qed.

(** C7 (amended). [Quantizer._get_size_of_model] returns the number of
    bytes of the pickled state dict of the model divided by 1e6, and leaves
    no file [temp.p]: every other file is as it was, and the file system as
    a whole is unchanged when no file [temp.p] existed before the call. *)
Theorem C7_size_of_model_and_temp_file `{Framework}
    (model : loc) (self : Quantizer.instance) (w : World) :
  exists w',
    Quantizer._get_size_of_model model (self, w)
    = (Ok (Z.of_nat (length (pickle (state (heap w model)))) # 1000000)%Q,
       (self, w'))
    /\ fs w' !! "temp.p" = None
    /\ (forall path, path <> "temp.p" -> fs w' !! path = fs w !! path)
    /\ (fs w !! "temp.p" = None -> fs w' = fs w).
Proof.
  destruct (get_size_of_model_run model self w) as (w' & E & F & _).
  exists w'. split; [exact E|]. rewrite F. split_and!.
  - apply lookup_delete_eq.
  - intros path Hne. apply lookup_delete_ne. congruence.
  - apply delete_id.
Qed.

Section ToyRuns.
#[local] Existing Instance Toy.tensors.
#[local] Existing Instance Toy.framework.

Lemma C7_witness :
  fs (snd (snd (Quantizer._get_size_of_model 0 (Toy.quantizer None, Toy.world))))
  = fs Toy.world.
Proof.
  destruct (C7_size_of_model_and_temp_file 0 (Toy.quantizer None) Toy.world)
    as (w' & E & _ & _ & Hsame).
  rewrite E. apply Hsame. reflexivity.
Defined.

(** With a file [temp.p] in the working directory, the call removes it:
    the file system is not what it was. *)
Lemma C7_counterexample :
  fs Toy.world_with_temp !! "temp.p" = Some [x2a]
  /\ fs (snd (snd (Quantizer._get_size_of_model 0
                     (Toy.quantizer None, Toy.world_with_temp)))) !! "temp.p"
     = None
  /\ fs (snd (snd (Quantizer._get_size_of_model 0
                     (Toy.quantizer None, Toy.world_with_temp))))
     <> fs Toy.world_with_temp.
Proof.
  destruct (get_size_of_model_run 0 (Toy.quantizer None) Toy.world_with_temp)
    as (w' & E & F & _).
  rewrite E. cbn [snd]. rewrite F.
  assert (Hbefore : fs Toy.world_with_temp !! "temp.p" = Some [x2a])
    by apply lookup_insert_eq.
  split_and!; [exact Hbefore | apply lookup_delete_eq |].
  intros Heq. rewrite <- Heq, lookup_delete_eq in Hbefore. discriminate Hbefore.
Qed.
End ToyRuns.

Section Counting.
Context `{Framework}.

(** The count the loops keep is the number of positions at which the
    prediction is the label. *)
Lemma count_eq_correct (pred : list Z) (label : Label) :
  count_eq pred label = correct_predictions pred label.
Proof.
  unfold correct_predictions. revert label.
  induction pred as [|p pred IH]; intros [|l label]; try reflexivity.
  cbn [count_eq zip zip_with]. rewrite filter_cons, IH. cbn [fst snd].
  destruct (decide (p = l)) as [->|Hne].
  - rewrite Z.eqb_refl. reflexivity.
  - apply Z.eqb_neq in Hne. rewrite Hne. reflexivity.
Qed.

Lemma batch_correct_argmax (bs : list (Data * Label)) :
  forall outs : list (output Logits),
    sum_list (zip_with batch_correct bs outs) = correct_argmax bs outs.
Proof.
  unfold correct_argmax.
  induction bs as [|b bs IH]; intros [|out outs]; try reflexivity.
  cbn [zip_with sum_list]. rewrite IH. unfold batch_correct.
  rewrite count_eq_correct. reflexivity.
Qed.

(** The quotient a division that returned has computed. *)
Lemma truediv_correct_argmax (bs : list (Data * Label))
    (outs : list (output Logits)) (len : nat) (acc : Q) :
  truediv (sum_list (zip_with batch_correct bs outs)) len = Ok acc ->
  len <> 0 /\ acc = (Z.of_nat (correct_argmax bs outs) # Pos.of_nat len)%Q.
Proof.
  rewrite batch_correct_argmax. apply truediv_ok_inv.
Qed.
End Counting.

Section EvaluationOutputs.
Context `{Framework}.

(** The batches of [Quantizer._evaluate_model]: the outputs are those of
    the forward passes of the object, batch after batch. *)
Lemma q_evaluate_batches_outputs (bs : list (Data * Label)) (model : loc) :
  forall (correct : nat) (self : Quantizer.instance) (w : World),
  exists w',
    for_each bs (Quantizer._evaluate_model_batch model) correct (self, w)
    = (Ok (correct + correct_argmax bs (eval_outputs (heap w model) bs)),
       (self, w'))
    /\ heap w' model = eval_module (heap w model) bs
    /\ passes w' = passes w
    /\ clock w' = clock w
    /\ trace w' = trace w ++ map (EvCall model) (eval_outputs (heap w model) bs).
Proof.
  induction bs as [|b bs IH]; intros correct self w.
  - exists w. cbn. rewrite Nat.add_0_r, app_nil_r. auto.
  - set (r := forward (arch (heap w model)) (training (heap w model))
                (state (heap w model)) (fst b)).
    set (w1 := set_trace (trace w ++ [EvCall model (snd r)])
                 (set_heap (store model (with_state (fst r) (heap w model)) (heap w)) w)).
    assert (E1 : Quantizer._evaluate_model_batch model correct b (self, w)
                 = (Ok (correct + batch_correct b (snd r)), (self, w1)))
      by reflexivity.
    destruct (IH (correct + batch_correct b (snd r)) self w1)
      as (w' & E2 & Hm & Hp & Hc & Ht).
    assert (Hw1 : heap w1 model = with_state (fst r) (heap w model))
      by (unfold w1; cbn; apply store_same).
    rewrite Hw1 in E2, Hm, Ht.
    exists w'. rewrite for_each_cons, (bind_ok _ _ _ _ _ E1), E2.
    cbn [eval_outputs eval_module]. fold r. split_and!; auto.
    + unfold correct_argmax. cbn [zip_with sum_list]. unfold batch_correct.
      rewrite count_eq_correct, Nat.add_assoc. reflexivity.
    + rewrite Ht. unfold w1. cbn [trace set_trace set_heap map].
      rewrite <- app_assoc. reflexivity.
Qed.

Lemma q_evaluate_model_outputs (m : loc) (self : Quantizer.instance) (w : World)
    (loader : DataLoader) :
  Quantizer.test_loader self = Some loader ->
  let m0 := with_training false (heap w m) in
  let bs := batches loader (passes w) in
  exists w',
    Quantizer._evaluate_model m (self, w)
    = (truediv (correct_argmax bs (eval_outputs m0 bs)) (dataset_len loader),
       (self, w'))
    /\ heap w' m = eval_module m0 bs
    /\ passes w' = S (passes w)
    /\ clock w' = clock w
    /\ trace w' = trace w ++ [EvMode m false] ++ map (EvCall m) (eval_outputs m0 bs).
Proof.
  intros Hld m0 bs.
  set (w0 := set_passes (S (passes w))
               (set_trace (trace w ++ [EvMode m false])
                  (set_heap (store m (with_training false (heap w m)) (heap w)) w))).
  destruct (q_evaluate_batches_outputs bs m 0 self w0)
    as (w' & E & Hm & Hp & Hc & Ht).
  assert (Hw0 : heap w0 m = m0) by (unfold w0; cbn; apply store_same).
  rewrite Hw0 in E, Hm, Ht.
  exists w'. split_and!; auto.
  - assert (Ebegin :
      Quantizer._evaluate_model m (self, w)
      = (bind (for_each bs (Quantizer._evaluate_model_batch m) 0)
           (fun correct => of_result (truediv correct (dataset_len loader))))
          (self, w0)).
    { unfold Quantizer._evaluate_model. cbn. rewrite Hld. reflexivity. }
    rewrite Ebegin, (bind_ok _ _ _ _ _ E). reflexivity.
  - rewrite Ht. unfold w0. cbn [trace set_trace set_heap set_passes].
    rewrite <- app_assoc. reflexivity.
Qed.

(** [get_performance_statistics] when both attributes denote one object. *)
Lemma get_performance_statistics_run (self : Quantizer.instance) (w : World)
    (loader : DataLoader) :
  Quantizer.quantized_model self = Quantizer.model self ->
  Quantizer.test_loader self = Some loader ->
  dataset_len loader <> 0 ->
  let m := Quantizer.model self in
  let len := dataset_len loader in
  let m1 := with_training false (heap w m) in
  let bs1 := batches loader (passes w) in
  let outs1 := eval_outputs m1 bs1 in
  let m2 := with_training false (eval_module m1 bs1) in
  let bs2 := batches loader (S (passes w)) in
  let outs2 := eval_outputs m2 bs2 in
  let acc1 := (Z.of_nat (correct_argmax bs1 outs1) # Pos.of_nat len)%Q in
  let acc2 := (Z.of_nat (correct_argmax bs2 outs2) # Pos.of_nat len)%Q in
  let t1 := float_sub (time_at (S (clock w))) (time_at (clock w)) in
  let t2 := float_sub (time_at (S (S (S (clock w))))) (time_at (S (S (clock w)))) in
  exists w',
    Quantizer.get_performance_statistics (self, w) = (Ok tt, (self, w'))
    /\ heap w' m = eval_module m2 bs2
    /\ trace w'
       = trace w
         ++ ([EvMode m false] ++ map (EvCall m) outs1
             ++ [EvPrint (LOriginalModel acc1 t1)])
         ++ ([EvMode m false] ++ map (EvCall m) outs2
             ++ [EvPrint (LQuantizedModel acc2 t2)]).
Proof.
  intros Hq Hld Hlen m len m1 bs1 outs1 m2 bs2 outs2 acc1 acc2 t1 t2.
  unfold Quantizer.get_performance_statistics.
  rewrite (bind_ok Quantizer.self_ _ (self, w) self (self, w) eq_refl).
  fold m.
  set (w0 := set_clock (S (clock w)) w).
  assert (E0 : lift time_time (self, w) = (Ok (time_at (clock w)), (self, w0)))
    by reflexivity.
  destruct (q_evaluate_model_outputs m self w0 loader Hld)
    as (w1 & E1 & Hm1 & Hp1 & Hc1 & Ht1).
  cbn zeta in E1, Hm1, Ht1.
  change (heap w0 m) with (heap w m) in E1, Hm1, Ht1.
  change (passes w0) with (passes w) in E1, Hm1, Ht1, Hp1.
  change (clock w0) with (S (clock w)) in Hc1.
  fold m1 bs1 in E1, Hm1, Ht1. fold outs1 in E1, Ht1.
  rewrite (truediv_ok _ _ Hlen) in E1. fold len acc1 in E1.
  assert (Et1 : Quantizer._time_model_evaluation m (self, w)
                = (Ok (acc1, t1), (self, set_clock (S (clock w1)) w1))).
  { unfold Quantizer._time_model_evaluation.
    rewrite (bind_ok _ _ _ _ _ E0), (bind_ok _ _ _ _ _ E1).
    unfold t1. rewrite <- Hc1. reflexivity. }
  rewrite (bind_ok _ _ _ _ _ Et1). cbn [fst snd].
  set (w2 := set_clock (S (clock w1)) w1).
  set (w3 := set_trace (trace w2 ++ [EvPrint (LOriginalModel acc1 t1)]) w2).
  assert (E3 : lift (print (LOriginalModel acc1 t1)) (self, w2) = (Ok tt, (self, w3)))
    by reflexivity.
  rewrite (bind_ok _ _ _ _ _ E3).
  rewrite (bind_ok Quantizer.self_ _ (self, w3) self (self, w3) eq_refl).
  rewrite Hq. fold m.
  set (w4 := set_clock (S (clock w3)) w3).
  assert (E4 : lift time_time (self, w3) = (Ok (time_at (clock w3)), (self, w4)))
    by reflexivity.
  destruct (q_evaluate_model_outputs m self w4 loader Hld)
    as (w5 & E5 & Hm5 & Hp5 & Hc5 & Ht5).
  cbn zeta in E5, Hm5, Ht5.
  change (heap w4 m) with (heap w1 m) in E5, Hm5, Ht5.
  change (passes w4) with (passes w1) in E5, Hm5, Ht5.
  rewrite Hm1, Hp1 in E5, Hm5, Ht5.
  fold m2 bs2 in E5, Hm5, Ht5. fold outs2 in E5, Ht5.
  rewrite (truediv_ok _ _ Hlen) in E5. fold len acc2 in E5.
  assert (Hc3 : clock w3 = S (S (clock w))).
  { change (clock w3) with (S (clock w1)). rewrite Hc1. reflexivity. }
  assert (Ht2 : float_sub (time_at (clock w5)) (time_at (clock w3)) = t2).
  { unfold t2. rewrite Hc5. change (clock w4) with (S (clock w3)).
    rewrite Hc3. reflexivity. }
  assert (Et2 : Quantizer._time_model_evaluation m (self, w3)
                = (Ok (acc2, t2), (self, set_clock (S (clock w5)) w5))).
  { unfold Quantizer._time_model_evaluation.
    rewrite (bind_ok _ _ _ _ _ E4), (bind_ok _ _ _ _ _ E5), <- Ht2.
    reflexivity. }
  rewrite (bind_ok _ _ _ _ _ Et2).
  eexists. split; [reflexivity|]. cbn [heap trace set_trace set_clock fst snd].
  split; [exact Hm5|].
  rewrite Ht5. change (trace w4) with (trace w2 ++ [EvPrint (LOriginalModel acc1 t1)]).
  change (trace w2) with (trace w1). rewrite Ht1.
  change (trace w0) with (trace w). rewrite <- !app_assoc. reflexivity.
Qed.
End EvaluationOutputs.

(** C8. After [Quantizer.__init__] the attribute [quantized_model] is the
    object [model] itself.  Hence [get_model_sizes] prints twice the size of
    the pickled state dict of that object, and [get_performance_statistics],
    given a test loader over a non-empty dataset, evaluates that one object
    twice: the first evaluation puts it in eval mode and calls it on the
    batches of one pass of the loader, the second does the same on the
    batches of the next pass, starting from the object as the first left it;
    each printed accuracy is the number of correct argmax predictions of its
    pass divided by [len(test_loader.dataset)]. *)
Theorem C8_quantized_model_is_model `{Framework}
    (model : loc) (qconfig : QConfig) (train_loader test_loader : option DataLoader)
    (optimizer : option loc) (criterion : option Criterion) (device : Device)
    (w0 : World) :
  exists self,
    Quantizer.__init__ model qconfig train_loader test_loader optimizer
      criterion device w0 = (Ok self, w0)
    /\ Quantizer.model self = model
    /\ Quantizer.quantized_model self = model
    /\ (forall w,
          let mb := (Z.of_nat (length (pickle (state (heap w model))))
                     # 1000000)%Q in
          exists w',
            Quantizer.get_model_sizes (self, w) = (Ok tt, (self, w'))
            /\ printed (trace w')
               = printed (trace w) ++ [LRule; LSizeOriginal mb; LSizeQuantized mb])
    /\ (forall w loader,
          test_loader = Some loader ->
          dataset_len loader <> 0 ->
          let len := dataset_len loader in
          let m1 := with_training false (heap w model) in
          let bs1 := batches loader (passes w) in
          let outs1 := eval_outputs m1 bs1 in
          let m2 := with_training false (eval_module m1 bs1) in
          let bs2 := batches loader (S (passes w)) in
          let outs2 := eval_outputs m2 bs2 in
          let acc1 := (Z.of_nat (correct_argmax bs1 outs1) # Pos.of_nat len)%Q in
          let acc2 := (Z.of_nat (correct_argmax bs2 outs2) # Pos.of_nat len)%Q in
          let t1 := float_sub (time_at (S (clock w))) (time_at (clock w)) in
          let t2 := float_sub (time_at (S (S (S (clock w)))))
                      (time_at (S (S (clock w)))) in
          exists w',
            Quantizer.get_performance_statistics (self, w) = (Ok tt, (self, w'))
            /\ trace w'
               = trace w
                 ++ ([EvMode model false] ++ map (EvCall model) outs1
                     ++ [EvPrint (LOriginalModel acc1 t1)])
                 ++ ([EvMode model false] ++ map (EvCall model) outs2
                     ++ [EvPrint (LQuantizedModel acc2 t2)])).
Proof.
  eexists. split; [reflexivity|]. split; [reflexivity|]. split; [reflexivity|].
  split.
  - intros w mb.
    match goal with |- context [Quantizer.get_model_sizes (?q, _)] =>
      destruct (get_model_sizes_run q w) as (w' & E & _ & _ & P) end.
    exists w'. split; [exact E | exact P].
  - intros w loader Hld Hlen len m1 bs1 outs1 m2 bs2 outs2 acc1 acc2 t1 t2.
    match goal with |- context [Quantizer.get_performance_statistics (?q, _)] =>
      destruct (get_performance_statistics_run q w loader eq_refl Hld Hlen)
        as (w' & E & _ & T) end.
    exists w'. split; [exact E | exact T].
Qed.

Section EvaluateFrame.
Context `{Framework}.

Lemma printed_calls (m : loc) (outs : list (output Logits)) :
  printed (map (EvCall m) outs) = [].
Proof. induction outs as [|out outs IH]; [reflexivity | exact IH]. Qed.

Lemma calls_on (m : loc) (outs : list (output Logits)) :
  Forall (fun e => event_object e = Some m \/ exists l, e = EvPrint l)
    (map (EvCall m) outs).
Proof. apply Forall_map, Forall_forall. intros out _. left. reflexivity. Qed.
End EvaluateFrame.

(** C9. [BaseClass.evaluate] works on a deep copy: whether it returns or
    raises, the instance, every module object that existed before the call
    (the teacher and the student among them, with their state, gradients and
    mode), the optimizers and the files are as before; every call it makes
    is on the copy or is a [print], and when it returns it has printed the
    rule and the accuracy. *)
Theorem C9_evaluate_leaves_models_unchanged `{Framework}
    (teacher : bool) (self : BaseClass.instance) (w : World) :
  BaseClass.teacher_model self < next_loc w ->
  BaseClass.student_model self < next_loc w ->
  let r := BaseClass.evaluate teacher (self, w) in
  let w' := snd (snd r) in
  fst (snd r) = self
  /\ heap w' (BaseClass.teacher_model self) = heap w (BaseClass.teacher_model self)
  /\ heap w' (BaseClass.student_model self) = heap w (BaseClass.student_model self)
  /\ (forall l, l < next_loc w -> heap w' l = heap w l)
  /\ optimizers w' = optimizers w
  /\ fs w' = fs w
  /\ exists new,
       trace w' = trace w ++ new
       /\ Forall (fun e => event_object e = Some (next_loc w)
                           \/ exists l, e = EvPrint l) new
       /\ (fst r = Ok tt -> exists acc, printed new = [LRule; LAccuracy acc]).
Proof.
  intros Ht Hs r w'.
  destruct (evaluate_run teacher self w) as (outs & w1 & _ & Hh & Hf & Ho & T & R).
  cbn zeta in R.
  assert (Hold : forall l, l < next_loc w -> heap w1 l = heap w l).
  { intros l Hl. apply Hh. lia. }
  assert (Hon : Forall (fun e => event_object e = Some (next_loc w)
                                 \/ exists l, e = EvPrint l)
                  ([EvDeepcopyModule (if teacher then BaseClass.teacher_model self
                                      else BaseClass.student_model self) (next_loc w);
                    EvMode (next_loc w) false]
                   ++ map (EvCall (next_loc w)) outs ++ [EvPrint LRule])).
  { apply Forall_app. split; [repeat constructor|].
    apply Forall_app. split; [apply calls_on|].
    constructor; [right; eauto | constructor]. }
  destruct (truediv _ _) as [acc|e]; subst r w'; rewrite R; cbn [fst snd].
  - cbn [heap fs optimizers trace set_trace]. split_and!; auto.
    eexists. split; [rewrite T, <- app_assoc; reflexivity|]. split.
    + apply Forall_app. split; [exact Hon|].
      constructor; [right; eauto | constructor].
    + intros _. exists acc. rewrite !printed_app, printed_calls. reflexivity.
  - split_and!; auto.
    eexists. split; [exact T|]. split; [exact Hon|]. discriminate.
Qed.

(** C10 (amended).  [BaseClass.evaluate] and [Quantizer._evaluate_model]
    divide the number of correct predictions by [len(dataset)] without a
    guard.  With an empty dataset the call raises [ZeroDivisionError].  With
    a non-empty dataset the accuracy (printed by the first, returned by the
    second) is that quotient, it is not negative, and it is at most 1
    whenever the loader yields no more samples than [len(dataset)]. *)
Theorem C10_accuracy_division `{Framework} :
  (forall (teacher : bool) (self : BaseClass.instance) (w : World),
      let loader := BaseClass.val_loader self in
      let bs := batches loader (passes w) in
      let r := BaseClass.evaluate teacher (self, w) in
      (dataset_len loader = 0 -> fst r = Raise ZeroDivisionError)
      /\ (dataset_len loader <> 0 ->
          exists (correct : nat) (acc : Q),
            fst r = Ok tt
            /\ last (trace (snd (snd r))) = Some (EvPrint (LAccuracy acc))
            /\ acc = (Z.of_nat correct # Pos.of_nat (dataset_len loader))
            /\ correct <= samples_yielded bs
            /\ (0 <= acc)%Q
            /\ (samples_yielded bs <= dataset_len loader -> (acc <= 1)%Q)))
  /\ (forall (model : loc) (self : Quantizer.instance) (w : World)
             (loader : DataLoader),
      Quantizer.test_loader self = Some loader ->
      let bs := batches loader (passes w) in
      let r := Quantizer._evaluate_model model (self, w) in
      (dataset_len loader = 0 -> fst r = Raise ZeroDivisionError)
      /\ (dataset_len loader <> 0 ->
          exists (correct : nat) (acc : Q),
            fst r = Ok acc
            /\ acc = (Z.of_nat correct # Pos.of_nat (dataset_len loader))
            /\ correct <= samples_yielded bs
            /\ (0 <= acc)%Q
            /\ (samples_yielded bs <= dataset_len loader -> (acc <= 1)%Q))).
Proof.
  split.
  - intros teacher self w loader bs r.
    destruct (evaluate_run teacher self w) as (outs & w1 & _ & _ & _ & _ & _ & R).
    cbn zeta in R. fold loader bs in R. split.
    + intros Hlen. rewrite Hlen, truediv_zero in R. subst r. rewrite R. reflexivity.
    + intros Hlen. destruct (truediv _ _) as [acc|e] eqn:D.
      * exists (sum_list (zip_with batch_correct bs outs)), acc.
        pose proof (correct_le_samples bs outs) as Hle.
        destruct (truediv_bounds _ _ _ D) as [H0le H1].
        apply truediv_ok_inv in D as [_ D].
        subst r. rewrite R. cbn [fst snd trace set_trace].
        split_and!; auto; [apply last_snoc | intros; apply H1; lia].
      * rewrite truediv_ok in D by exact Hlen. discriminate D.
  - intros model self w loader Hld bs r.
    destruct (q_evaluate_model_run model self w loader Hld)
      as (outs & w1 & R & _). fold bs in R. split.
    + intros Hlen. subst r. rewrite R, Hlen. reflexivity.
    + intros Hlen. destruct (truediv _ _) as [acc|e] eqn:D.
      * exists (sum_list (zip_with batch_correct bs outs)), acc.
        pose proof (correct_le_samples bs outs) as Hle.
        destruct (truediv_bounds _ _ _ D) as [H0le H1].
        apply truediv_ok_inv in D as [_ D].
        subst r. rewrite R. cbn [fst snd].
        split_and!; auto. intros; apply H1; lia.
      * rewrite truediv_ok in D by exact Hlen. discriminate D.
Qed.

Section ClaimHelpers.
Context `{Framework}.
Import BaseClass.

Lemma run_returns {A S} (x : result A * S) (a : A) :
  fst x = Ok a -> x = (Ok a, snd x).
Proof. destruct x as [r s]. cbn. intros ->. reflexivity. Qed.

Lemma running_best_ge (init : StateDict) (history : list (Q * StateDict)) :
  Forall (fun obs => (fst obs <= fst (running_best init history))%Q) history.
Proof. apply fold_track_best_ge. Qed.

(** The prologue and the loop of [train_teacher], when they return. *)
Lemma teacher_loop_observed epochs self w vars s1 :
  (vars0 <- train_teacher_begin ;; train_teacher_epochs epochs vars0) (self, w)
  = (Ok vars, s1) ->
  let model := teacher_model self in
  let sd0 := state (heap w model) in
  let len := dataset_len (train_loader self) in
  exists history,
    length history = Z.to_nat epochs
    /\ epochs_observed (train_teacher_epoch len) model
         (([], 0%Q), snd (train_teacher_begin (self, w))) history (vars, s1)
    /\ snd vars = fst (running_best sd0 history)
    /\ best_teacher_model_weights (fst s1) = Some (snd (running_best sd0 history)).
Proof.
  intros E model sd0 len.
  destruct (teacher_begin_run self w) as (w0 & Eb & _).
  fold model sd0 in Eb. rewrite (bind_ok _ _ _ _ _ Eb) in E. rewrite Eb. cbn [snd].
  change (for_each (map Z.of_nat (seq 0 (Z.to_nat epochs)))
            (train_teacher_epoch len) ([], 0%Q) (with_best_teacher sd0 self, w0)
          = (Ok vars, s1)) in E.
  apply teacher_epochs_observed in E as (history & Ln & Hobs).
  cbn [fst snd] in Hobs. change (teacher_model (with_best_teacher sd0 self))
    with model in Hobs.
  exists history. split; [exact Ln|]. split; [exact Hobs|].
  destruct (teacher_observed_best _ _ _ _ _ Hobs eq_refl sd0 eq_refl)
    as (_ & Ha & Hw).
  split; assumption.
Qed.

Lemma student_loop_observed `{!Subclass} epochs self w vars s1 :
  (vars0 <- train_student_begin ;; train_student_epochs epochs vars0) (self, w)
  = (Ok vars, s1) ->
  let model := student_model self in
  let sd0 := state (heap w model) in
  let len := dataset_len (train_loader self) in
  exists history,
    length history = Z.to_nat epochs
    /\ epochs_observed (train_student_epoch len) model
         (([], 0%Q), snd (train_student_begin (self, w))) history (vars, s1)
    /\ snd vars = fst (running_best sd0 history)
    /\ best_student_model_weights (fst s1) = Some (snd (running_best sd0 history)).
Proof.
  intros E model sd0 len.
  destruct (student_begin_run self w) as (w0 & Eb & _).
  fold model sd0 in Eb. rewrite (bind_ok _ _ _ _ _ Eb) in E. rewrite Eb. cbn [snd].
  change (for_each (map Z.of_nat (seq 0 (Z.to_nat epochs)))
            (train_student_epoch len) ([], 0%Q) (with_best_student sd0 self, w0)
          = (Ok vars, s1)) in E.
  apply student_epochs_observed in E as (history & Ln & Hobs).
  cbn [fst snd] in Hobs. change (student_model (with_best_student sd0 self))
    with model in Hobs.
  exists history. split; [exact Ln|]. split; [exact Hobs|].
  destruct (student_observed_best _ _ _ _ _ Hobs eq_refl sd0 eq_refl)
    as (_ & Ha & Hw).
  split; assumption.
Qed.
End ClaimHelpers.

(** C1. The best-weights snapshot of [train_teacher] and [train_student]
    follows the running best of the epoch accuracies.  Before any epoch it
    is the state of the model at the call, and the running best is 0.  An
    epoch that ends replaces it by a deep copy of the state the model has
    then exactly when the accuracy it just computed is strictly above the
    running best, which then becomes that accuracy; otherwise both stay as
    they were.  So after any number of epochs the pair of the running best
    and the snapshot is [running_best] of what the epochs showed: no epoch
    had a higher accuracy, and the pair is either 0 with the initial state
    or the accuracy of one of the epochs with the state of the model at the
    end of that epoch. *)
Theorem C1_best_snapshot_tracks_running_best `{Framework} `{!BaseClass.Subclass} :
  ((forall self w,
      exists w0,
        BaseClass.train_teacher_begin (self, w)
        = (Ok ([], 0%Q),
           (BaseClass.with_best_teacher
              (state (heap w (BaseClass.teacher_model self))) self, w0))
        /\ state (heap w0 (BaseClass.teacher_model self))
           = state (heap w (BaseClass.teacher_model self)))
   /\ (forall len vars ep s vars' s',
         BaseClass.train_teacher_epoch len vars ep s = (Ok vars', s') ->
         let model := BaseClass.teacher_model (fst s) in
         let bs := batches (BaseClass.train_loader (fst s)) (passes (snd s)) in
         exists log : EpochLog (output Logits * Scalar),
           let improved := gt (epoch_acc log) (snd vars) in
           trace (snd s')
           = trace (snd s)
             ++ epoch_events (teacher_batch_events (fst s)) model ep log
           /\ truediv (sum_list (zip_with batch_correct bs
                                   (map fst (batch_results log)))) len
              = Ok (epoch_acc log)
           /\ snapshot log
              = (if improved then Some (state (heap (snd s') model)) else None)
           /\ BaseClass.best_teacher_model_weights (fst s')
              = (if improved then Some (state (heap (snd s') model))
                 else BaseClass.best_teacher_model_weights (fst s))
           /\ snd vars' = (if improved then epoch_acc log else snd vars))
   /\ (forall epochs self w vars s1,
         (vars0 <- BaseClass.train_teacher_begin ;;
          BaseClass.train_teacher_epochs epochs vars0) (self, w) = (Ok vars, s1) ->
         let model := BaseClass.teacher_model self in
         let sd0 := state (heap w model) in
         exists history,
           length history = Z.to_nat epochs
           /\ epochs_observed
                (BaseClass.train_teacher_epoch
                   (dataset_len (BaseClass.train_loader self))) model
                (([], 0%Q), snd (BaseClass.train_teacher_begin (self, w)))
                history (vars, s1)
           /\ snd vars = fst (running_best sd0 history)
           /\ BaseClass.best_teacher_model_weights (fst s1)
              = Some (snd (running_best sd0 history))
           /\ Forall (fun obs => (fst obs <= snd vars)%Q) history
           /\ (running_best sd0 history = (0%Q, sd0)
               \/ running_best sd0 history ∈ history)))
  /\
  ((forall self w,
      exists w0,
        BaseClass.train_student_begin (self, w)
        = (Ok ([], 0%Q),
           (BaseClass.with_best_student
              (state (heap w (BaseClass.student_model self))) self, w0))
        /\ state (heap w0 (BaseClass.student_model self))
           = state (heap w (BaseClass.student_model self)))
   /\ (forall len vars ep s vars' s',
         BaseClass.train_student_epoch len vars ep s = (Ok vars', s') ->
         let model := BaseClass.student_model (fst s) in
         let bs := batches (BaseClass.train_loader (fst s)) (passes (snd s)) in
         exists log : EpochLog (output Logits * output Logits * Scalar),
           let improved := gt (epoch_acc log) (snd vars) in
           trace (snd s')
           = trace (snd s)
             ++ epoch_events (student_batch_events (fst s)) model ep log
           /\ truediv (sum_list (zip_with batch_correct bs
                                   (map (fun r => fst (fst r)) (batch_results log))))
                len
              = Ok (epoch_acc log)
           /\ snapshot log
              = (if improved then Some (state (heap (snd s') model)) else None)
           /\ BaseClass.best_student_model_weights (fst s')
              = (if improved then Some (state (heap (snd s') model))
                 else BaseClass.best_student_model_weights (fst s))
           /\ snd vars' = (if improved then epoch_acc log else snd vars))
   /\ (forall epochs self w vars s1,
         (vars0 <- BaseClass.train_student_begin ;;
          BaseClass.train_student_epochs epochs vars0) (self, w) = (Ok vars, s1) ->
         let model := BaseClass.student_model self in
         let sd0 := state (heap w model) in
         exists history,
           length history = Z.to_nat epochs
           /\ epochs_observed
                (BaseClass.train_student_epoch
                   (dataset_len (BaseClass.train_loader self))) model
                (([], 0%Q), snd (BaseClass.train_student_begin (self, w)))
                history (vars, s1)
           /\ snd vars = fst (running_best sd0 history)
           /\ BaseClass.best_student_model_weights (fst s1)
              = Some (snd (running_best sd0 history))
           /\ Forall (fun obs => (fst obs <= snd vars)%Q) history
           /\ (running_best sd0 history = (0%Q, sd0)
               \/ running_best sd0 history ∈ history))).
Proof.
  split; split_and!.
  - intros self w. destruct (teacher_begin_run self w) as (w0 & E & Hs & _). eauto.
  - intros len vars ep s vars' s' E model bs.
    apply teacher_epoch_ok in E as (log & _ & _ & _ & Ha & Hs & Hv & Hself & Ht & _).
    fold model bs in Ha, Hs, Hself, Ht.
    exists log. cbn zeta. split_and!; auto.
    + rewrite Hself. destruct (gt _ _); reflexivity.
    + rewrite Hv. reflexivity.
  - intros epochs self w vars s1 E model sd0.
    apply teacher_loop_observed in E as (history & Ln & Hobs & Ha & Hw).
    fold model sd0 in Hobs, Ha, Hw.
    exists history. split_and!; auto.
    + rewrite Ha. apply running_best_ge.
    + destruct (fold_track_best_attained history (0%Q, sd0)) as [E|[Hin _]];
        [left; exact E | right; exact Hin].
  - intros self w. destruct (student_begin_run self w) as (w0 & E & Hs & _). eauto.
  - intros len vars ep s vars' s' E model bs.
    apply student_epoch_ok in E as (log & _ & _ & _ & Ha & Hs & Hv & Hself & Ht & _).
    fold model bs in Ha, Hs, Hself, Ht.
    exists log. cbn zeta. split_and!; auto.
    + rewrite Hself. destruct (gt _ _); reflexivity.
    + rewrite Hv. reflexivity.
  - intros epochs self w vars s1 E model sd0.
    apply student_loop_observed in E as (history & Ln & Hobs & Ha & Hw).
    fold model sd0 in Hobs, Ha, Hw.
    exists history. split_and!; auto.
    + rewrite Ha. apply running_best_ge.
    + destruct (fold_track_best_attained history (0%Q, sd0)) as [E|[Hin _]];
        [left; exact E | right; exact Hin].
Qed.

(** C2. When [train_teacher] (respectively [train_student]) returns, the
    snapshot held at the end of the loop of epochs has been loaded into the
    model by [load_state_dict]: the state of the model is that snapshot, the
    calls after the loop are the restore, then the save, then the plot, and
    when [save_model] is true the file at [save_model_pth] holds the pickled
    snapshot. *)
Theorem C2_best_weights_restored_and_saved `{Framework} `{!BaseClass.Subclass}
    (epochs : Z) (plot_losses save_model : bool) (save_model_pth : string)
    (self : BaseClass.instance) (w : World) :
  (forall s',
      BaseClass.train_teacher epochs plot_losses save_model save_model_pth (self, w)
      = (Ok tt, s') ->
      let model := BaseClass.teacher_model self in
      exists vars s1 best,
        (vars0 <- BaseClass.train_teacher_begin ;;
         BaseClass.train_teacher_epochs epochs vars0) (self, w) = (Ok vars, s1)
        /\ BaseClass.best_teacher_model_weights (fst s1) = Some best
        /\ BaseClass.best_teacher_model_weights (fst s') = Some best
        /\ state (heap (snd s') model) = best
        /\ trace (snd s')
           = trace (snd s1)
             ++ end_events model best (fst vars) plot_losses save_model save_model_pth
        /\ (save_model = true ->
            fs (snd s') !! save_model_pth = Some (pickle best)))
  /\ (forall s',
      BaseClass.train_student epochs plot_losses save_model save_model_pth (self, w)
      = (Ok tt, s') ->
      let model := BaseClass.student_model self in
      exists vars s1 best,
        (vars0 <- BaseClass.train_student_begin ;;
         BaseClass.train_student_epochs epochs vars0) (self, w) = (Ok vars, s1)
        /\ BaseClass.best_student_model_weights (fst s1) = Some best
        /\ BaseClass.best_student_model_weights (fst s') = Some best
        /\ state (heap (snd s') model) = best
        /\ trace (snd s')
           = trace (snd s1)
             ++ end_events model best (fst vars) plot_losses save_model save_model_pth
        /\ (save_model = true ->
            fs (snd s') !! save_model_pth = Some (pickle best))).
Proof.
  split; intros s' E model.
  - pose proof (train_teacher_ok _ _ _ _ _ _ _ E)
      as (w0 & vars & s1 & best & logs & Eb & _ & Ee & Eend & _ & _ & _
          & Hs & Hm & Hbest & Hst & Hfs & _).
    assert (Hbest1 : BaseClass.best_teacher_model_weights (fst s1) = Some best)
      by (rewrite <- Hs; exact Hbest).
    assert (Hm1 : BaseClass.teacher_model (fst s1) = model)
      by (rewrite <- Hs; exact Hm).
    exists vars, s1, best. split_and!; auto.
    + rewrite (bind_ok _ _ _ _ _ Eb). exact Ee.
    + destruct s1 as [self1 w1]. cbn [fst snd] in *.
      destruct (teacher_end_ok vars plot_losses save_model save_model_pth
                  self1 w1 best s' Hbest1 Eend)
        as (w' & Es' & _ & _ & _ & _ & _ & T).
      subst s'. cbn [snd]. rewrite T, Hm1. reflexivity.
  - pose proof (train_student_ok _ _ _ _ _ _ _ E)
      as (w0 & vars & s1 & best & logs & Eb & _ & Ee & Eend & _ & _ & _
          & Hs & Hm & Hbest & Hst & Hfs & _).
    assert (Hbest1 : BaseClass.best_student_model_weights (fst s1) = Some best)
      by (rewrite <- Hs; exact Hbest).
    assert (Hm1 : BaseClass.student_model (fst s1) = model)
      by (rewrite <- Hs; exact Hm).
    exists vars, s1, best. split_and!; auto.
    + rewrite (bind_ok _ _ _ _ _ Eb). exact Ee.
    + destruct s1 as [self1 w1]. cbn [fst snd] in *.
      destruct (student_end_ok vars plot_losses save_model save_model_pth
                  self1 w1 best s' Hbest1 Eend)
        as (w' & Es' & _ & _ & _ & _ & _ & T).
      subst s'. cbn [snd]. rewrite T, Hm1. reflexivity.
Qed.

Section CallCases.
Context `{Framework} `{!BaseClass.Subclass}.
Import BaseClass.

Lemma directory_exists_dirs (w w' : World) (dir : string) :
  dirs w' = dirs w -> directory_exists w' dir = directory_exists w dir.
Proof. intros Hd. unfold directory_exists. rewrite Hd. reflexivity. Qed.

(** What a call does after a loop that returned: the restore, then the
    save, then the plot, each reached only when the one before it went
    through. *)
Lemma teacher_call_cases epochs plot_losses save_model save_model_pth self w
    vars s1 best :
  (vars0 <- train_teacher_begin ;; train_teacher_epochs epochs vars0) (self, w)
  = (Ok vars, s1) ->
  fst s1 = with_best_teacher best self ->
  dirs (snd s1) = dirs w ->
  let model := teacher_model self in
  let r := train_teacher epochs plot_losses save_model save_model_pth (self, w) in
  let restored := trace (snd s1) ++ [EvLoadStateDict model best] in
  let saved := restored ++ (if save_model then [EvSave save_model_pth best] else []) in
  fst (snd r) = fst s1
  /\ state (heap (snd (snd r)) model) = best
  /\ (save_model = true ->
      directory_exists w (directory_of save_model_pth) = false ->
      fst r = Raise torch_save_error
      /\ trace (snd (snd r)) = restored
      /\ fs (snd (snd r)) = fs (snd s1))
  /\ ((save_model = true ->
       directory_exists w (directory_of save_model_pth) = true) ->
      (save_model = true ->
       fs (snd (snd r)) !! save_model_pth = Some (pickle best))
      /\ (plot_losses && existsb requires_grad (fst vars) = true ->
          fst r = Raise RuntimeError /\ trace (snd (snd r)) = saved)
      /\ (plot_losses && existsb requires_grad (fst vars) = false ->
          fst r = Ok tt
          /\ trace (snd (snd r))
             = saved ++ (if plot_losses then [EvPlot (fst vars)] else []))).
Proof.
  intros E Hs Hd model r restored saved. subst r.
  rewrite (train_teacher_after_loop _ _ _ _ _ _ _ _ E).
  destruct s1 as [self1 w1]. cbn [fst snd] in *. subst self1.
  rewrite (teacher_end_run vars plot_losses save_model save_model_pth
             (with_best_teacher best self) w1 best eq_refl).
  rewrite (directory_exists_dirs w w1 _ Hd).
  change (teacher_model (with_best_teacher best self)) with model.
  subst saved restored.
  destruct save_model, plot_losses,
    (directory_exists w (directory_of save_model_pth)),
    (existsb requires_grad (fst vars));
    cbn; rewrite ?store_same, ?lookup_insert_eq, <- ?app_assoc; cbn;
    (split; [reflexivity|]); (split; [reflexivity|]);
    (split; [intros; first [discriminate | auto]|]);
    intros Hdir; try (specialize (Hdir eq_refl); discriminate Hdir);
    (split; [intros; first [discriminate | reflexivity]|]);
    split; intros; first [discriminate | auto].
Qed.

Lemma student_call_cases epochs plot_losses save_model save_model_pth self w
    vars s1 best :
  (vars0 <- train_student_begin ;; train_student_epochs epochs vars0) (self, w)
  = (Ok vars, s1) ->
  fst s1 = with_best_student best self ->
  dirs (snd s1) = dirs w ->
  let model := student_model self in
  let r := train_student epochs plot_losses save_model save_model_pth (self, w) in
  let restored := trace (snd s1) ++ [EvLoadStateDict model best] in
  let saved := restored ++ (if save_model then [EvSave save_model_pth best] else []) in
  fst (snd r) = fst s1
  /\ state (heap (snd (snd r)) model) = best
  /\ (save_model = true ->
      directory_exists w (directory_of save_model_pth) = false ->
      fst r = Raise torch_save_error
      /\ trace (snd (snd r)) = restored
      /\ fs (snd (snd r)) = fs (snd s1))
  /\ ((save_model = true ->
       directory_exists w (directory_of save_model_pth) = true) ->
      (save_model = true ->
       fs (snd (snd r)) !! save_model_pth = Some (pickle best))
      /\ (plot_losses && existsb requires_grad (fst vars) = true ->
          fst r = Raise RuntimeError /\ trace (snd (snd r)) = saved)
      /\ (plot_losses && existsb requires_grad (fst vars) = false ->
          fst r = Ok tt
          /\ trace (snd (snd r))
             = saved ++ (if plot_losses then [EvPlot (fst vars)] else []))).
Proof.
  intros E Hs Hd model r restored saved. subst r.
  rewrite (train_student_after_loop _ _ _ _ _ _ _ _ E).
  destruct s1 as [self1 w1]. cbn [fst snd] in *. subst self1.
  rewrite (student_end_run vars plot_losses save_model save_model_pth
             (with_best_student best self) w1 best eq_refl).
  rewrite (directory_exists_dirs w w1 _ Hd).
  change (student_model (with_best_student best self)) with model.
  subst saved restored.
  destruct save_model, plot_losses,
    (directory_exists w (directory_of save_model_pth)),
    (existsb requires_grad (fst vars));
    cbn; rewrite ?store_same, ?lookup_insert_eq, <- ?app_assoc; cbn;
    (split; [reflexivity|]); (split; [reflexivity|]);
    (split; [intros; first [discriminate | auto]|]);
    intros Hdir; try (specialize (Hdir eq_refl); discriminate Hdir);
    (split; [intros; first [discriminate | reflexivity]|]);
    split; intros; first [discriminate | auto].
Qed.
End CallCases.

(** C3 (amended).  On a non-empty training set (for [train_student]: with
    a loss method that returns) the prologue and the loop return after
    exactly [epochs] epochs, none when [epochs] is negative; each epoch goes
    through every batch the loader yields, with for each batch the forward
    pass on its data, the loss, [zero_grad], [backward] and the optimizer
    step, in this order, then tracks the best weights (at most one snapshot)
    and prints its line.  Only then the best weights, those of the
    attribute, are loaded into the model; the save, if [save_model], comes next and raises when the
    directory of [save_model_pth] is missing, and nothing is written or
    plotted then; the plot, if [plot_losses], is attempted last: a call that
    returns has plotted the loss array after the restore and the save, and
    one that does not has plotted nothing. *)
Theorem C3_epochs_then_restore_save_plot `{Framework} `{!BaseClass.Subclass}
    (epochs : Z) (plot_losses save_model : bool) (save_model_pth : string)
    (self : BaseClass.instance) (w : World) :
  dataset_len (BaseClass.train_loader self) <> 0 ->
  (let model := BaseClass.teacher_model self in
   let r := BaseClass.train_teacher epochs plot_losses save_model
              save_model_pth (self, w) in
   exists vars s1 best (logs : list (EpochLog (output Logits * Scalar))),
     (vars0 <- BaseClass.train_teacher_begin ;;
      BaseClass.train_teacher_epochs epochs vars0) (self, w) = (Ok vars, s1)
     /\ BaseClass.best_teacher_model_weights (fst s1) = Some best
     /\ length logs = Z.to_nat epochs
     /\ (forall i log, logs !! i = Some log ->
           let bs := batches (BaseClass.train_loader self) (passes w + i) in
           length (batch_results log) = length bs
           /\ Forall2 teacher_batch_result bs (batch_results log))
     /\ trace (snd s1)
        = trace w
          ++ [EvMode model true;
              EvDeepcopyStateDict model (state (heap w model));
              EvPrint LTrainingTeacher]
          ++ epochs_events (teacher_batch_events self) model 0 logs
     /\ (save_model = true ->
         directory_exists w (directory_of save_model_pth) = false ->
         fst r = Raise torch_save_error
         /\ trace (snd (snd r)) = trace (snd s1) ++ [EvLoadStateDict model best]
         /\ fs (snd (snd r)) = fs w)
     /\ ((save_model = true ->
          directory_exists w (directory_of save_model_pth) = true) ->
         exists plotted,
           trace (snd (snd r))
           = trace (snd s1)
             ++ [EvLoadStateDict model best]
             ++ (if save_model then [EvSave save_model_pth best] else [])
             ++ plotted
           /\ (plot_losses = false -> fst r = Ok tt /\ plotted = [])
           /\ (fst r = Ok tt ->
               plotted = if plot_losses then [EvPlot (map epoch_loss logs)]
                         else [])
           /\ (fst r <> Ok tt -> plotted = [])))
  /\ (kd_loss_total ->
      let model := BaseClass.student_model self in
      let r := BaseClass.train_student epochs plot_losses save_model
                 save_model_pth (self, w) in
      exists vars s1 best
             (logs : list (EpochLog (output Logits * output Logits * Scalar))),
        (vars0 <- BaseClass.train_student_begin ;;
         BaseClass.train_student_epochs epochs vars0) (self, w) = (Ok vars, s1)
        /\ BaseClass.best_student_model_weights (fst s1) = Some best
        /\ length logs = Z.to_nat epochs
        /\ (forall i log, logs !! i = Some log ->
              let bs := batches (BaseClass.train_loader self) (passes w + i) in
              length (batch_results log) = length bs
              /\ exists self',
                   (exists sd, self' = BaseClass.with_best_student sd self)
                   /\ Forall2 (student_batch_result self') bs (batch_results log))
        /\ trace (snd s1)
           = trace w
             ++ [EvMode (BaseClass.teacher_model self) false;
                 EvMode model true;
                 EvDeepcopyStateDict model (state (heap w model));
                 EvPrint LTrainingStudent]
             ++ epochs_events (student_batch_events self) model 0 logs
        /\ (save_model = true ->
            directory_exists w (directory_of save_model_pth) = false ->
            fst r = Raise torch_save_error
            /\ trace (snd (snd r)) = trace (snd s1) ++ [EvLoadStateDict model best]
            /\ fs (snd (snd r)) = fs w)
        /\ ((save_model = true ->
             directory_exists w (directory_of save_model_pth) = true) ->
            exists plotted,
              trace (snd (snd r))
              = trace (snd s1)
                ++ [EvLoadStateDict model best]
                ++ (if save_model then [EvSave save_model_pth best] else [])
                ++ plotted
              /\ (plot_losses = false -> fst r = Ok tt /\ plotted = [])
              /\ (fst r = Ok tt ->
                  plotted = if plot_losses then [EvPlot (map epoch_loss logs)]
                            else [])
              /\ (fst r <> Ok tt -> plotted = []))).
Proof.
  intros Hlen. split.
  - intros model r.
    destruct (teacher_loop_returns epochs self w Hlen) as (vars & s1 & E).
    pose proof (teacher_loop_ok _ _ _ _ _ E)
      as (best & logs & Ln & Hv & Hlogs & Hs & Hd & T).
    pose proof (teacher_loop_files epochs (fs w) (self, w) eq_refl) as Hf.
    rewrite E in Hf. cbn [snd] in Hf.
    destruct (teacher_call_cases epochs plot_losses save_model save_model_pth
                self w vars s1 best E Hs Hd) as (_ & _ & Hmiss & Hthere).
    fold model r in Hmiss, Hthere.
    exists vars, s1, best, logs. split_and!; auto.
    + rewrite Hs. reflexivity.
    + intros i log Hl. destruct (Hlogs i log Hl) as (L & F & _). auto.
    + intros Hsave Hdir. destruct (Hmiss Hsave Hdir) as (Er & Tr & Fr).
      rewrite Fr, Hf. auto.
    + intros Hdir. destruct (Hthere Hdir) as (_ & Hraise & Hok).
      rewrite <- Hv.
      destruct (plot_losses && existsb requires_grad (fst vars)) eqn:Hp.
      * destruct (Hraise eq_refl) as [Er Tr]. exists []. rewrite Tr, Er.
        rewrite <- !app_assoc, app_nil_r.
        apply andb_true_iff in Hp as [-> _].
        split_and!; [reflexivity | discriminate | discriminate | reflexivity].
      * destruct (Hok eq_refl) as [Er Tr].
        exists (if plot_losses then [EvPlot (fst vars)] else []).
        rewrite Tr, Er, <- !app_assoc.
        split_and!; [reflexivity | intros ->; auto | reflexivity | congruence].
  - intros Htot model r.
    destruct (student_loop_returns epochs self w Hlen Htot) as (vars & s1 & E).
    pose proof (student_loop_ok _ _ _ _ _ E)
      as (best & logs & Ln & Hv & Hlogs & Hs & Hd & T).
    pose proof (student_loop_files epochs (fs w) (self, w) eq_refl) as Hf.
    rewrite E in Hf. cbn [snd] in Hf.
    destruct (student_call_cases epochs plot_losses save_model save_model_pth
                self w vars s1 best E Hs Hd) as (_ & _ & Hmiss & Hthere).
    fold model r in Hmiss, Hthere.
    exists vars, s1, best, logs. split_and!; auto.
    + rewrite Hs. reflexivity.
    + intros i log Hl. destruct (Hlogs i log Hl) as (L & F & _). auto.
    + intros Hsave Hdir. destruct (Hmiss Hsave Hdir) as (Er & Tr & Fr).
      rewrite Fr, Hf. auto.
    + intros Hdir. destruct (Hthere Hdir) as (_ & Hraise & Hok).
      rewrite <- Hv.
      destruct (plot_losses && existsb requires_grad (fst vars)) eqn:Hp.
      * destruct (Hraise eq_refl) as [Er Tr]. exists []. rewrite Tr, Er.
        rewrite <- !app_assoc, app_nil_r.
        apply andb_true_iff in Hp as [-> _].
        split_and!; [reflexivity | discriminate | discriminate | reflexivity].
      * destruct (Hok eq_refl) as [Er Tr].
        exists (if plot_losses then [EvPlot (fst vars)] else []).
        rewrite Tr, Er, <- !app_assoc.
        split_and!; [reflexivity | intros ->; auto | reflexivity | congruence].
Qed.

(** C5. An epoch of [train_teacher] or [train_student] ends whenever the
    training set is not empty (in [train_student]: and the loss method
    returns), and so does the loop.  Every epoch that ends has one log.  Its loss is the sum, from [0.0] and in order, of the losses of its
    batches, each of which is the loss of the output of a forward pass on the
    data of the batch; its accuracy is the number of positions, over the
    batches, at which the argmax prediction is the label, divided by
    [len(train_loader.dataset)]; both are what the epoch printed last, and
    the loss is the one entry the epoch appended to the loss array.  So
    after the loop the array holds the losses of the epochs in order and has
    length [epochs] (0 when [epochs] is negative), also when the call
    returns. *)
Theorem C5_epoch_metrics `{Framework} `{!BaseClass.Subclass} :
  ((forall len vars ep s vars' s',
      BaseClass.train_teacher_epoch len vars ep s = (Ok vars', s') ->
      let bs := batches (BaseClass.train_loader (fst s)) (passes (snd s)) in
      exists log : EpochLog (output Logits * Scalar),
        length (batch_results log) = length bs
        /\ Forall2 teacher_batch_result bs (batch_results log)
        /\ epoch_loss log
           = fold_left scalar_add (map snd (batch_results log)) float_zero
        /\ len <> 0
        /\ epoch_acc log
           = (Z.of_nat (correct_argmax bs (map fst (batch_results log)))
              # Pos.of_nat len)%Q
        /\ fst vars' = fst vars ++ [epoch_loss log]
        /\ trace (snd s')
           = trace (snd s)
             ++ epoch_events (teacher_batch_events (fst s))
                  (BaseClass.teacher_model (fst s)) ep log
        /\ last (trace (snd s'))
           = Some (EvPrint (LEpoch (ep + 1) (epoch_loss log) (epoch_acc log))))
   /\ (forall epochs self w vars s1,
         (vars0 <- BaseClass.train_teacher_begin ;;
          BaseClass.train_teacher_epochs epochs vars0) (self, w) = (Ok vars, s1) ->
         exists logs : list (EpochLog (output Logits * Scalar)),
           fst vars = map epoch_loss logs
           /\ length (fst vars) = Z.to_nat epochs
           /\ trace (snd s1)
              = trace w
                ++ [EvMode (BaseClass.teacher_model self) true;
                    EvDeepcopyStateDict (BaseClass.teacher_model self)
                      (state (heap w (BaseClass.teacher_model self)));
                    EvPrint LTrainingTeacher]
                ++ epochs_events (teacher_batch_events self)
                     (BaseClass.teacher_model self) 0 logs
           /\ (forall i log, logs !! i = Some log ->
                 let bs := batches (BaseClass.train_loader self) (passes w + i) in
                 length (batch_results log) = length bs
                 /\ Forall2 teacher_batch_result bs (batch_results log)
                 /\ epoch_loss log
                    = fold_left scalar_add (map snd (batch_results log)) float_zero
                 /\ epoch_acc log
                    = (Z.of_nat (correct_argmax bs (map fst (batch_results log)))
                       # Pos.of_nat (dataset_len (BaseClass.train_loader self)))%Q))
   /\ (forall epochs plot_losses save_model save_model_pth self w s',
         BaseClass.train_teacher epochs plot_losses save_model save_model_pth
           (self, w) = (Ok tt, s') ->
         exists vars s1,
           (vars0 <- BaseClass.train_teacher_begin ;;
            BaseClass.train_teacher_epochs epochs vars0) (self, w) = (Ok vars, s1)
           /\ length (fst vars) = Z.to_nat epochs)
   /\ (forall len vars ep s,
         len <> 0 ->
         exists vars' s',
           BaseClass.train_teacher_epoch len vars ep s = (Ok vars', s'))
   /\ (forall epochs self w,
         dataset_len (BaseClass.train_loader self) <> 0 ->
         exists vars s1,
           (vars0 <- BaseClass.train_teacher_begin ;;
            BaseClass.train_teacher_epochs epochs vars0) (self, w)
           = (Ok vars, s1)))
  /\
  ((forall len vars ep s vars' s',
      BaseClass.train_student_epoch len vars ep s = (Ok vars', s') ->
      let bs := batches (BaseClass.train_loader (fst s)) (passes (snd s)) in
      exists log : EpochLog (output Logits * output Logits * Scalar),
        length (batch_results log) = length bs
        /\ Forall2 (student_batch_result (fst s)) bs (batch_results log)
        /\ epoch_loss log
           = fold_left scalar_add (map snd (batch_results log)) float_zero
        /\ len <> 0
        /\ epoch_acc log
           = (Z.of_nat (correct_argmax bs
                          (map (fun r => fst (fst r)) (batch_results log)))
              # Pos.of_nat len)%Q
        /\ fst vars' = fst vars ++ [epoch_loss log]
        /\ trace (snd s')
           = trace (snd s)
             ++ epoch_events (student_batch_events (fst s))
                  (BaseClass.student_model (fst s)) ep log
        /\ last (trace (snd s'))
           = Some (EvPrint (LEpoch (ep + 1) (epoch_loss log) (epoch_acc log))))
   /\ (forall epochs self w vars s1,
         (vars0 <- BaseClass.train_student_begin ;;
          BaseClass.train_student_epochs epochs vars0) (self, w) = (Ok vars, s1) ->
         exists logs : list (EpochLog (output Logits * output Logits * Scalar)),
           fst vars = map epoch_loss logs
           /\ length (fst vars) = Z.to_nat epochs
           /\ trace (snd s1)
              = trace w
                ++ [EvMode (BaseClass.teacher_model self) false;
                    EvMode (BaseClass.student_model self) true;
                    EvDeepcopyStateDict (BaseClass.student_model self)
                      (state (heap w (BaseClass.student_model self)));
                    EvPrint LTrainingStudent]
                ++ epochs_events (student_batch_events self)
                     (BaseClass.student_model self) 0 logs
           /\ (forall i log, logs !! i = Some log ->
                 let bs := batches (BaseClass.train_loader self) (passes w + i) in
                 length (batch_results log) = length bs
                 /\ (exists self',
                       (exists sd, self' = BaseClass.with_best_student sd self)
                       /\ Forall2 (student_batch_result self') bs
                            (batch_results log))
                 /\ epoch_loss log
                    = fold_left scalar_add (map snd (batch_results log)) float_zero
                 /\ epoch_acc log
                    = (Z.of_nat (correct_argmax bs
                                   (map (fun r => fst (fst r)) (batch_results log)))
                       # Pos.of_nat (dataset_len (BaseClass.train_loader self)))%Q))
   /\ (forall epochs plot_losses save_model save_model_pth self w s',
         BaseClass.train_student epochs plot_losses save_model save_model_pth
           (self, w) = (Ok tt, s') ->
         exists vars s1,
           (vars0 <- BaseClass.train_student_begin ;;
            BaseClass.train_student_epochs epochs vars0) (self, w) = (Ok vars, s1)
           /\ length (fst vars) = Z.to_nat epochs)
   /\ (forall len vars ep s,
         len <> 0 -> kd_loss_total ->
         exists vars' s',
           BaseClass.train_student_epoch len vars ep s = (Ok vars', s'))
   /\ (forall epochs self w,
         dataset_len (BaseClass.train_loader self) <> 0 -> kd_loss_total ->
         exists vars s1,
           (vars0 <- BaseClass.train_student_begin ;;
            BaseClass.train_student_epochs epochs vars0) (self, w)
           = (Ok vars, s1))).
Proof.
  split; split_and!.
  - intros len vars ep s vars' s' E bs.
    apply teacher_epoch_ok in E
      as (log & L & F & Hl & Ha & _ & Hv & _ & Ht & _).
    fold bs in L, F, Ha.
    apply truediv_correct_argmax in Ha as [Hlen Ha].
    exists log. split_and!; auto.
    + rewrite Hv. reflexivity.
    + rewrite Ht. apply last_epoch_events.
  - intros epochs self w vars s1 E.
    pose proof (teacher_loop_ok _ _ _ _ _ E)
      as (best & logs & Ln & Hv & Hlogs & _ & _ & T).
    exists logs. split_and!; auto.
    + rewrite Hv, length_map. exact Ln.
    + intros i log Hl. destruct (Hlogs i log Hl) as (L & F & Hls & Ha).
      apply truediv_correct_argmax in Ha as [_ Ha]. auto.
  - intros epochs plot_losses save_model save_model_pth self w s' E.
    pose proof (train_teacher_ok _ _ _ _ _ _ _ E)
      as (w0 & vars & s1 & best & logs & Eb & _ & Ee & _ & Ln & Hv & _).
    exists vars, s1. split.
    + rewrite (bind_ok _ _ _ _ _ Eb). exact Ee.
    + rewrite Hv, length_map. exact Ln.
  - apply teacher_epoch_returns.
  - apply teacher_loop_returns.
  - intros len vars ep s vars' s' E bs.
    apply student_epoch_ok in E
      as (log & L & F & Hl & Ha & _ & Hv & _ & Ht & _).
    fold bs in L, F, Ha.
    apply truediv_correct_argmax in Ha as [Hlen Ha].
    exists log. split_and!; auto.
    + rewrite Hv. reflexivity.
    + rewrite Ht. apply last_epoch_events.
  - intros epochs self w vars s1 E.
    pose proof (student_loop_ok _ _ _ _ _ E)
      as (best & logs & Ln & Hv & Hlogs & _ & _ & T).
    exists logs. split_and!; auto.
    + rewrite Hv, length_map. exact Ln.
    + intros i log Hl. destruct (Hlogs i log Hl) as (L & F & Hls & Ha).
      apply truediv_correct_argmax in Ha as [_ Ha]. auto.
  - intros epochs plot_losses save_model save_model_pth self w s' E.
    pose proof (train_student_ok _ _ _ _ _ _ _ E)
      as (w0 & vars & s1 & best & logs & Eb & _ & Ee & _ & Ln & Hv & _).
    exists vars, s1. split.
    + rewrite (bind_ok _ _ _ _ _ Eb). exact Ee.
    + rewrite Hv, length_map. exact Ln.
  - apply student_epoch_returns.
  - apply student_loop_returns.
Qed.

(** * Runs on the small framework *)

Section Runs.
#[local] Existing Instance Toy.tensors.
#[local] Existing Instance Toy.framework.

Local Abbreviation trained_teacher :=
  (BaseClass.train_teacher 3 false true "m.pt"
     (Toy.base Toy.loader Toy.loader, Toy.world)).

Local Abbreviation trained_student :=
  (@BaseClass.train_student _ _ Toy.distiller 3 false true "m.pt"
     (Toy.base Toy.loader Toy.loader, Toy.world)).

Local Abbreviation teacher_loop :=
  ((vars0 <- BaseClass.train_teacher_begin ;;
    BaseClass.train_teacher_epochs 3 vars0)
     (Toy.base Toy.loader Toy.loader, Toy.world)).

Lemma distiller_total : @kd_loss_total _ Toy.distiller.
Proof. intros self so to lbl. eexists. reflexivity. Qed.

(** Three epochs of [train_teacher] without the plot: the calls, in
    order. *)
Example trained_teacher_trace :
  fst trained_teacher = Ok tt
  /\ trace (snd (snd trained_teacher))
     = [EvMode 0 true; EvDeepcopyStateDict 0 0%Z; EvPrint LTrainingTeacher;
        EvCall 0 (Tensor [0; 0]%Z); EvLoss (2%Z, true); EvZeroGrad 0;
        EvBackward (2%Z, true); EvStep 0;
        EvPrint (LEpoch 1 (2%Z, true) (0 # 2));
        EvCall 0 (Tensor [1; 1]%Z); EvLoss (1%Z, true); EvZeroGrad 0;
        EvBackward (1%Z, true); EvStep 0; EvDeepcopyStateDict 0 2%Z;
        EvPrint (LEpoch 2 (1%Z, true) (1 # 2));
        EvCall 0 (Tensor [2; 2]%Z); EvLoss (1%Z, true); EvZeroGrad 0;
        EvBackward (1%Z, true); EvStep 0;
        EvPrint (LEpoch 3 (1%Z, true) (1 # 2));
        EvLoadStateDict 0 2%Z; EvSave "m.pt" 2%Z]
  /\ state (heap (snd (snd trained_teacher)) 0) = 2%Z.
Proof. split_and!; vm_compute; reflexivity. Qed.

(** The same call with the plot: the losses are tensors of the graph, and
    the call ends in [plt.plot] with [RuntimeError], after the restore and
    the save. *)
Example plotted_teacher_raises :
  fst (BaseClass.train_teacher 3 true true "m.pt"
         (Toy.base Toy.loader Toy.loader, Toy.world))
  = Raise RuntimeError
  /\ trace (snd (snd (BaseClass.train_teacher 3 true true "m.pt"
                        (Toy.base Toy.loader Toy.loader, Toy.world))))
     = trace (snd (snd trained_teacher)).
Proof. split; vm_compute; reflexivity. Qed.

(** [evaluate] on the teacher: the copy is object 2. *)
Example evaluated_trace :
  trace (snd (snd (BaseClass.evaluate true
                     (Toy.base Toy.loader Toy.loader, Toy.world))))
  = [EvDeepcopyModule 0 2; EvMode 2 false; EvCall 2 (Tensor [0; 0]%Z);
     EvPrint LRule; EvPrint (LAccuracy (0 # 2))].
Proof. vm_compute. reflexivity. Qed.

(** Three epochs with accuracies 0, 1/2 and 1/2: the snapshot is the
    state after the second. *)
Lemma C1_witness :
  exists history,
    length history = 3
    /\ BaseClass.best_teacher_model_weights (fst (snd teacher_loop))
       = Some (snd (running_best 0%Z history))
    /\ Forall (fun obs => (fst obs <= 1 # 2)%Q) history.
Proof.
  destruct (@C1_best_snapshot_tracks_running_best _ _ Toy.distiller)
    as [(_ & _ & Hrun) _].
  assert (E : teacher_loop
              = (Ok ([(2%Z, true); (1%Z, true); (1%Z, true)], (1 # 2)%Q),
                 snd teacher_loop))
    by (apply (run_returns teacher_loop); vm_compute; reflexivity).
  destruct (Hrun 3%Z _ _ _ _ E) as (history & Ln & _ & Ha & Hw & Hall & _).
  exists history. cbn [fst snd] in *. auto.
Defined.

Lemma C2_witness :
  exists best,
    BaseClass.best_teacher_model_weights (fst (snd trained_teacher)) = Some best
    /\ state (heap (snd (snd trained_teacher)) 0) = best
    /\ fs (snd (snd trained_teacher)) !! "m.pt" = Some (pickle best).
Proof.
  destruct (@C2_best_weights_restored_and_saved _ _ Toy.distiller
              3 false true "m.pt" (Toy.base Toy.loader Toy.loader) Toy.world)
    as [Ht _].
  destruct (Ht (snd trained_teacher)) as (vars & s1 & best & _ & _ & Hb & Hs & _ & Hf).
  { apply run_returns. vm_compute. reflexivity. }
  exists best. split_and!; [exact Hb | exact Hs | apply Hf; reflexivity].
Defined.

(** Without the plot and with a path in the working directory, both
    methods return. *)
Lemma C3_witness :
  fst trained_teacher = Ok tt /\ fst trained_student = Ok tt.
Proof.
  destruct (@C3_epochs_then_restore_save_plot _ _ Toy.distiller
              3 false true "m.pt" (Toy.base Toy.loader Toy.loader) Toy.world)
    as [Ht Hs].
  { cbn. lia. }
  split.
  - destruct Ht as (vars & s1 & best & logs & _ & _ & _ & _ & _ & _ & Hthere).
    destruct Hthere as (plotted & _ & Hret & _); [reflexivity|].
    apply Hret. reflexivity.
  - destruct (Hs distiller_total)
      as (vars & s1 & best & logs & _ & _ & _ & _ & _ & _ & Hthere).
    destruct Hthere as (plotted & _ & Hret & _); [reflexivity|].
    apply Hret. reflexivity.
Defined.

(** One epoch on an empty training set: the division raises in the first
    epoch; nothing is tracked, restored, saved or plotted.
    [train_student] of the class itself raises in its first batch.  And a
    save below a directory that does not exist raises: no file is written. *)
Lemma C3_counterexample :
  fst (BaseClass.train_teacher 1 true true "m.pt"
         (Toy.base Toy.empty_loader Toy.loader, Toy.world))
  = Raise ZeroDivisionError
  /\ trace (snd (snd (BaseClass.train_teacher 1 true true "m.pt"
                        (Toy.base Toy.empty_loader Toy.loader, Toy.world))))
     = [EvMode 0 true; EvDeepcopyStateDict 0 0%Z; EvPrint LTrainingTeacher]
  /\ fst (@BaseClass.train_student _ _ Toy.base_class 1 true true "m.pt"
            (Toy.base Toy.loader Toy.loader, Toy.world))
     = Raise NotImplementedError
  /\ fst (BaseClass.train_teacher 1 false true "./models/teacher.pt"
            (Toy.base Toy.loader Toy.loader, Toy.world))
     = Raise torch_save_error
  /\ fs (snd (snd (BaseClass.train_teacher 1 false true "./models/teacher.pt"
                     (Toy.base Toy.loader Toy.loader, Toy.world))))
     = ∅.
Proof. split_and!; vm_compute; reflexivity. Qed.

Lemma C5_witness :
  exists vars (logs : list (EpochLog (output Logits * Scalar))),
    fst teacher_loop = Ok vars
    /\ fst vars = map epoch_loss logs
    /\ length (fst vars) = 3.
Proof.
  destruct (@C5_epoch_metrics _ _ Toy.distiller) as [(_ & Hloop & _) _].
  assert (E : teacher_loop
              = (Ok ([(2%Z, true); (1%Z, true); (1%Z, true)], (1 # 2)%Q),
                 snd teacher_loop))
    by (apply (run_returns teacher_loop); vm_compute; reflexivity).
  destruct (Hloop 3%Z _ _ _ _ E) as (logs & Hv & Hl & _).
  eexists _, logs. rewrite E. split_and!; [reflexivity | exact Hv | exact Hl].
Defined.

Local Abbreviation measured :=
  (Quantizer.get_performance_statistics
     (Toy.quantizer (Some Toy.loader), Toy.world)).

(** Two passes over the two samples, with no prediction right. *)
Lemma C8_witness :
  exists w',
    measured = (Ok tt, (Toy.quantizer (Some Toy.loader), w'))
    /\ trace w'
       = [EvMode 0 false; EvCall 0 (Tensor [0; 0]%Z);
          EvPrint (LOriginalModel (0 # 2) 1);
          EvMode 0 false; EvCall 0 (Tensor [0; 0]%Z);
          EvPrint (LQuantizedModel (0 # 2) 1)].
Proof.
  destruct (@C8_quantized_model_is_model Toy.tensors Toy.framework
              0 tt None (Some Toy.loader) None None tt
              Toy.world) as (self & Einit & _ & _ & _ & Hperf).
  injection Einit as <-.
  destruct (Hperf Toy.world Toy.loader) as (w' & E & T).
  - reflexivity.
  - cbn. lia.
  - exists w'. split; [exact E | exact T].
Defined.

Local Abbreviation evaluated :=
  (BaseClass.evaluate true (Toy.base Toy.loader Toy.loader, Toy.world)).

Lemma C9_witness :
  heap (snd (snd evaluated)) 0 = heap Toy.world 0
  /\ heap (snd (snd evaluated)) 1 = heap Toy.world 1.
Proof.
  destruct (C9_evaluate_leaves_models_unchanged true
              (Toy.base Toy.loader Toy.loader) Toy.world)
    as (_ & Ht & Hs & _).
  - cbn. lia.
  - cbn. lia.
  - split; [exact Ht | exact Hs].
Defined.

Lemma C10_witness :
  exists acc,
    last (trace (snd (snd evaluated))) = Some (EvPrint (LAccuracy acc))
    /\ (0 <= acc)%Q /\ (acc <= 1)%Q.
Proof.
  destruct C10_accuracy_division as [He _].
  destruct (He true (Toy.base Toy.loader Toy.loader) Toy.world) as [_ Hok].
  destruct Hok as (correct & acc & _ & Hl & _ & _ & H0 & H1).
  { cbn. lia. }
  exists acc. split_and!; [exact Hl | exact H0 | apply H1; cbn; lia].
Defined.

(** A sampler that draws two samples from a dataset of one, both
    predicted correctly: the dataset is not empty and the accuracy is 2. *)
Lemma C10_counterexample :
  dataset_len Toy.oversampling_loader = 1
  /\ fst (BaseClass.evaluate true
            (Toy.base Toy.loader Toy.oversampling_loader, Toy.world)) = Ok tt
  /\ last (trace (snd (snd (BaseClass.evaluate true
             (Toy.base Toy.loader Toy.oversampling_loader, Toy.world)))))
     = Some (EvPrint (LAccuracy (2 # 1)))
  /\ ~ (2 # 1 <= 1)%Q
  /\ fst (Quantizer._evaluate_model 0
            (Toy.quantizer (Some Toy.oversampling_loader), Toy.world))
     = Ok (2 # 1)%Q.
Proof.
  split_and!; try (vm_compute; reflexivity).
  unfold Qle. cbn. lia.
Qed.
End Runs.

(** * Further properties *)

(** A call into the framework with its branches, run on the state at
    hand. *)
Ltac run_leaf :=
  run_call; run_branches; cbv [raise];
  cbn [fst snd heap next_loc optimizers fs dirs trace passes clock set_heap
       set_next_loc set_optimizers set_fs set_trace set_passes set_clock].

Section TrainFrames.
Context `{Framework} `{!BaseClass.Subclass}.
Import BaseClass.

(** *** The attributes *)

Lemma train_teacher_attributes epochs plot_losses save_model save_model_pth self
    (vars0 : list Scalar * Q) :
  preserves (fun s : Σ => exists sd, fst s = with_best_teacher sd self)
    (vars <- train_teacher_epochs epochs vars0 ;;
     train_teacher_end vars plot_losses save_model save_model_pth).
Proof.
  frame; intros s Hs; run_leaf; try exact Hs.
  all: destruct Hs as [sd0 ->]; eexists; reflexivity.
Qed.

Lemma train_student_attributes epochs plot_losses save_model save_model_pth self
    (vars0 : list Scalar * Q) :
  preserves (fun s : Σ => exists sd, fst s = with_best_student sd self)
    (vars <- train_student_epochs epochs vars0 ;;
     train_student_end vars plot_losses save_model save_model_pth).
Proof.
  frame; intros s Hs; run_leaf; try exact Hs.
  all: destruct Hs as [sd0 ->]; eexists; reflexivity.
Qed.

(** *** The files *)

Lemma train_teacher_files epochs plot_losses save_model save_model_pth
    (f0 : gmap string (list byte)) :
  preserves (fun s : Σ => forall p, (save_model = true -> p <> save_model_pth) ->
                                    fs (snd s) !! p = f0 !! p)
    (train_teacher epochs plot_losses save_model save_model_pth).
Proof.
  frame; intros s Hs; run_leaf; try exact Hs.
  intros p Hp. rewrite lookup_insert_ne; [apply Hs, Hp|].
  intros ->. exact (Hp eq_refl eq_refl).
Qed.

Lemma train_student_files epochs plot_losses save_model save_model_pth
    (f0 : gmap string (list byte)) :
  preserves (fun s : Σ => forall p, (save_model = true -> p <> save_model_pth) ->
                                    fs (snd s) !! p = f0 !! p)
    (train_student epochs plot_losses save_model save_model_pth).
Proof.
  frame; intros s Hs; run_leaf; try exact Hs.
  intros p Hp. rewrite lookup_insert_ne; [apply Hs, Hp|].
  intros ->. exact (Hp eq_refl eq_refl).
Qed.

End TrainFrames.

Section TraceFrames.
Context `{Framework} `{!BaseClass.Subclass}.
Import BaseClass.

Lemma extends_by_refl (Q : Event -> Prop) (w : World) : extends_by Q (trace w) w.
Proof. exists []. rewrite app_nil_r. split; [reflexivity | constructor]. Qed.

Lemma extends_by_snoc (Q : Event -> Prop) t0 (w w' : World) (e : Event) :
  extends_by Q t0 w -> trace w' = trace w ++ [e] -> Q e -> extends_by Q t0 w'.
Proof.
  intros (new & Ht & HF) Ht' He. exists (new ++ [e]). split.
  - rewrite Ht', Ht, <- app_assoc. reflexivity.
  - apply Forall_app. split; [exact HF | constructor; [exact He | constructor]].
Qed.

Lemma extends_by_same (Q : Event -> Prop) t0 (w w' : World) :
  extends_by Q t0 w -> trace w' = trace w -> extends_by Q t0 w'.
Proof. intros (new & Ht & HF) Ht'. exists new. rewrite Ht'. auto. Qed.

Ltac acts :=
  unfold acts_within; cbn [event_object event_optimizer event_path];
  split_and!; intros ? E; try discriminate E; injection E as <-; set_solver.

Ltac trace_leaf :=
  first
    [ eapply extends_by_same; [eassumption | reflexivity]
    | eapply extends_by_snoc; [eassumption | reflexivity | acts] ].

Lemma train_teacher_acts epochs plot_losses save_model save_model_pth
    (t ot : loc) (t0 : list Event) :
  preserves (fun s : Σ =>
               teacher_model (fst s) = t /\ optimizer_teacher (fst s) = ot
               /\ extends_by (acts_within [t] [ot] [save_model_pth]) t0 (snd s))
    (train_teacher epochs plot_losses save_model save_model_pth).
Proof.
  frame.
  all: repeat match goal with
         | Hs : _ /\ _ |- _ => destruct Hs as (<- & <- & _)
         end.
  all: intros s (Hm & Ho & Ht); run_leaf; split_and!; try assumption.
  all: try trace_leaf.
Qed.

Lemma train_student_acts epochs plot_losses save_model save_model_pth
    (t st os : loc) (t0 : list Event) :
  preserves (fun s : Σ =>
               teacher_model (fst s) = t /\ student_model (fst s) = st
               /\ optimizer_student (fst s) = os
               /\ extends_by (acts_within [st; t] [os] [save_model_pth]) t0 (snd s))
    (train_student epochs plot_losses save_model save_model_pth).
Proof.
  frame.
  all: repeat match goal with
         | Hs : _ /\ _ |- _ => destruct Hs as (<- & <- & <- & _)
         end.
  all: intros s (Hm & Hst & Ho & Ht); run_leaf; split_and!; try assumption.
  all: try trace_leaf.
Qed.
End TraceFrames.

Section QuantizerFrames.
Context `{Framework}.
Import Quantizer.

Lemma training_store_state (l l' : loc) (sd : StateDict) (h : Heap) :
  training (store l (with_state sd (h l)) h l') = training (h l').
Proof.
  unfold store. destruct (Nat.eqb l' l) eqn:E; [|reflexivity].
  apply Nat.eqb_eq in E. subst. reflexivity.
Qed.

Lemma training_store_eval (l l' : loc) (h : Heap) :
  training (h l') = false ->
  training (store l (with_training false (h l)) h l') = false.
Proof.
  intros Hl. unfold store. destruct (Nat.eqb l' l); [reflexivity | exact Hl].
Qed.

(** An evaluation keeps every model that is in eval mode in eval mode. *)
Lemma evaluate_model_keeps_eval (m m' : loc) :
  preserves (fun s : Σ => training (heap (snd s) m') = false) (_evaluate_model m).
Proof.
  frame; intros s Hs; run_call; try exact Hs.
  - apply training_store_eval, Hs.
  - rewrite training_store_state. exact Hs.
Qed.

Lemma evaluate_model_eval_mode (m : loc) (s : Σ) :
  training (heap (snd (snd (_evaluate_model m s))) m) = false.
Proof.
  unfold _evaluate_model.
  apply (bind_establishes (fun s : Σ => training (heap (snd s) m) = false)).
  - destruct s as [self w]. cbn. rewrite store_same. reflexivity.
  - intros _. frame; intros s1 Hs; run_call; try exact Hs.
    rewrite training_store_state. exact Hs.
Qed.

Lemma time_model_evaluation_keeps_eval (m m' : loc) :
  preserves (fun s : Σ => training (heap (snd s) m') = false)
    (_time_model_evaluation m).
Proof.
  unfold _time_model_evaluation.
  apply preserves_bind; [frame; intros s Hs; exact Hs | intros t1].
  apply preserves_bind; [apply evaluate_model_keeps_eval | intros acc].
  frame; intros s Hs; exact Hs.
Qed.

Lemma time_model_evaluation_eval_mode (m : loc) (s : Σ) :
  training (heap (snd (snd (_time_model_evaluation m s))) m) = false.
Proof.
  unfold _time_model_evaluation, bind at 1.
  destruct (lift time_time s) as [[t1|e] s1] eqn:E1;
    [|destruct s; discriminate E1].
  apply (bind_establishes (fun s : Σ => training (heap (snd s) m) = false)).
  - apply evaluate_model_eval_mode.
  - intros acc. frame; intros s2 Hs; exact Hs.
Qed.

(** An evaluation touches no other module object, and of the evaluated
    one neither the architecture nor the gradients. *)
Lemma evaluate_model_frame (m : loc) (h0 : Heap) :
  preserves (fun s : Σ => (forall l, l <> m -> heap (snd s) l = h0 l)
                          /\ arch (heap (snd s) m) = arch (h0 m)
                          /\ grads (heap (snd s) m) = grads (h0 m))
    (_evaluate_model m).
Proof.
  frame; intros s (Hl & Ha & Hg); run_call; try (split_and!; assumption).
  all: rewrite store_same; cbn; split_and!; try assumption.
  all: intros l Hne; rewrite store_other by exact Hne; apply Hl, Hne.
Qed.
End QuantizerFrames.

Section EvaluationFunction.
Context `{Framework}.

(** The batches of [BaseClass.evaluate] compute [eval_loop] on the object
    they call. *)
Lemma evaluate_batches_fun (bs : list (Data * Label)) (model : loc) :
  forall (correct : nat) (self : BaseClass.instance) (w : World),
  exists w',
    for_each bs (BaseClass.evaluate_batch model) correct (self, w)
    = (Ok (fst (eval_loop (heap w model) bs correct)), (self, w'))
    /\ heap w' model = snd (eval_loop (heap w model) bs correct)
    /\ (forall l, l <> model -> heap w' l = heap w l)
    /\ next_loc w' = next_loc w
    /\ passes w' = passes w.
Proof.
  induction bs as [|b bs IH]; intros correct self w.
  - exists w. cbn. auto.
  - set (r := forward (arch (heap w model)) (training (heap w model))
                (state (heap w model)) (fst b)).
    set (w1 := set_trace (trace w ++ [EvCall model (snd r)])
                 (set_heap (store model (with_state (fst r) (heap w model)) (heap w)) w)).
    assert (E1 : BaseClass.evaluate_batch model correct b (self, w)
                 = (Ok (correct + batch_correct b (snd r)), (self, w1)))
      by reflexivity.
    destruct (IH (correct + batch_correct b (snd r)) self w1)
      as (w' & E2 & Hm & Hh & Hn & Hp).
    assert (Hw1 : heap w1 model = with_state (fst r) (heap w model))
      by (unfold w1; cbn; apply store_same).
    rewrite Hw1 in E2, Hm.
    exists w'. rewrite for_each_cons, (bind_ok _ _ _ _ _ E1), E2.
    cbn [eval_loop]. fold r. split_and!; auto.
    intros l Hl. rewrite Hh by exact Hl. unfold w1. cbn. apply store_other, Hl.
Qed.

(** So do those of [Quantizer._evaluate_model]. *)
Lemma q_evaluate_batches_fun (bs : list (Data * Label)) (model : loc) :
  forall (correct : nat) (self : Quantizer.instance) (w : World),
  exists w',
    for_each bs (Quantizer._evaluate_model_batch model) correct (self, w)
    = (Ok (fst (eval_loop (heap w model) bs correct)), (self, w'))
    /\ heap w' model = snd (eval_loop (heap w model) bs correct)
    /\ passes w' = passes w
    /\ clock w' = clock w
    /\ printed (trace w') = printed (trace w).
Proof.
  induction bs as [|b bs IH]; intros correct self w.
  - exists w. cbn. auto.
  - set (r := forward (arch (heap w model)) (training (heap w model))
                (state (heap w model)) (fst b)).
    set (w1 := set_trace (trace w ++ [EvCall model (snd r)])
                 (set_heap (store model (with_state (fst r) (heap w model)) (heap w)) w)).
    assert (E1 : Quantizer._evaluate_model_batch model correct b (self, w)
                 = (Ok (correct + batch_correct b (snd r)), (self, w1)))
      by reflexivity.
    destruct (IH (correct + batch_correct b (snd r)) self w1)
      as (w' & E2 & Hm & Hp & Hc & Ht).
    assert (Hw1 : heap w1 model = with_state (fst r) (heap w model))
      by (unfold w1; cbn; apply store_same).
    rewrite Hw1 in E2, Hm.
    exists w'. rewrite for_each_cons, (bind_ok _ _ _ _ _ E1), E2.
    cbn [eval_loop]. fold r. split_and!; auto.
    rewrite Ht. unfold w1. cbn [trace set_trace set_heap].
    rewrite printed_app. cbn. apply app_nil_r.
Qed.

(** [evaluate] as a function of the object it copies and of the batches. *)
Lemma evaluate_fun (teacher : bool) (self : BaseClass.instance) (w : World) :
  let src := if teacher then BaseClass.teacher_model self
             else BaseClass.student_model self in
  let loader := BaseClass.val_loader self in
  let correct := fst (eval_loop (with_training false (heap w src))
                        (batches loader (passes w)) 0) in
  exists w1,
    (forall l, l <> next_loc w -> heap w1 l = heap w l)
    /\ next_loc w1 = S (next_loc w)
    /\ passes w1 = S (passes w)
    /\ match truediv correct (dataset_len loader) with
       | Ok acc =>
           BaseClass.evaluate teacher (self, w) = (Ok tt, (self, w1))
           /\ last (trace w1) = Some (EvPrint (LAccuracy acc))
       | Raise e => BaseClass.evaluate teacher (self, w) = (Raise e, (self, w1))
       end.
Proof.
  intros src loader correct. set (copy := next_loc w).
  set (w0 := set_passes (S (passes w))
               (set_trace (trace w ++ [EvDeepcopyModule src copy; EvMode copy false])
                  (set_heap (store copy (with_training false (heap w src))
                               (store copy (heap w src) (heap w)))
                     (set_next_loc (S copy) w)))).
  destruct (evaluate_batches_fun (batches loader (passes w)) copy 0 self w0)
    as (w' & E & _ & Hh & Hn & Hp).
  assert (Hc : heap w0 copy = with_training false (heap w src))
    by (unfold w0; cbn; apply store_same).
  rewrite Hc in E. fold correct in E.
  assert (Ebegin :
    BaseClass.evaluate teacher (self, w)
    = (bind (for_each (batches loader (passes w)) (BaseClass.evaluate_batch copy) 0)
         (fun correct =>
            lift (print LRule) ;;
            acc <- of_result (truediv correct (dataset_len loader)) ;;
            lift (print (LAccuracy acc)))) (self, w0)).
  { unfold BaseClass.evaluate, w0, src. destruct teacher; cbn;
      rewrite store_same, <- !app_assoc; reflexivity. }
  assert (Hframe : forall l, l <> copy -> heap w' l = heap w l).
  { intros l Hl. rewrite Hh by exact Hl. unfold w0. cbn.
    rewrite !store_other by exact Hl. reflexivity. }
  rewrite Ebegin, (bind_ok _ _ _ _ _ E). unfold bind, of_result.
  cbn [lift print emit modify fst snd].
  destruct (truediv correct (dataset_len loader)) as [acc|e] eqn:D.
  - exists (set_trace ((trace w' ++ [EvPrint LRule]) ++ [EvPrint (LAccuracy acc)]) w').
    cbn [heap next_loc passes trace set_trace]. split_and!; auto.
    apply last_snoc.
  - exists (set_trace (trace w' ++ [EvPrint LRule]) w').
    cbn [heap next_loc passes trace set_trace]. split_and!; auto.
Qed.

(** [_evaluate_model] as a function of the object it calls. *)
Lemma q_evaluate_model_fun (m : loc) (self : Quantizer.instance) (w : World)
    (loader : DataLoader) :
  Quantizer.test_loader self = Some loader ->
  let m0 := with_training false (heap w m) in
  let r := eval_loop m0 (batches loader (passes w)) 0 in
  exists w',
    Quantizer._evaluate_model m (self, w)
    = (truediv (fst r) (dataset_len loader), (self, w'))
    /\ heap w' m = snd r
    /\ passes w' = S (passes w)
    /\ clock w' = clock w
    /\ printed (trace w') = printed (trace w).
Proof.
  intros Hld m0 r.
  set (w0 := set_passes (S (passes w))
               (set_trace (trace w ++ [EvMode m false])
                  (set_heap (store m (with_training false (heap w m)) (heap w)) w))).
  destruct (q_evaluate_batches_fun (batches loader (passes w)) m 0 self w0)
    as (w' & E & Hm & Hp & Hc & Ht).
  assert (Hw0 : heap w0 m = m0) by (unfold w0; cbn; apply store_same).
  rewrite Hw0 in E, Hm. fold r in E, Hm.
  exists w'. split_and!; auto.
  - assert (Ebegin :
      Quantizer._evaluate_model m (self, w)
      = (bind (for_each (batches loader (passes w))
                 (Quantizer._evaluate_model_batch m) 0)
           (fun correct => of_result (truediv correct (dataset_len loader))))
          (self, w0)).
    { unfold Quantizer._evaluate_model. cbn. rewrite Hld. reflexivity. }
    rewrite Ebegin, (bind_ok _ _ _ _ _ E). reflexivity.
  - rewrite Ht. unfold w0. cbn [trace set_trace set_heap set_passes].
    rewrite printed_app. cbn. apply app_nil_r.
Qed.

(** A module whose forward pass, in eval mode, leaves its state as it is
    comes out of the loop as it went in. *)
Lemma eval_loop_stateless (bs : list (Data * Label)) :
  (forall a sd d, fst (forward a false sd d) = sd) ->
  forall (m : Module) (correct : nat),
    training m = false -> snd (eval_loop m bs correct) = m.
Proof.
  intros Hfw. induction bs as [|b bs IH]; intros m correct Hm; [reflexivity|].
  cbn [eval_loop]. rewrite Hm, Hfw.
  assert (Em : with_state (state m) m = m) by (destruct m; reflexivity).
  rewrite Em. apply IH, Hm.
Qed.
End EvaluationFunction.

Section EpochFrames.
Context `{Framework} `{!BaseClass.Subclass}.
Import BaseClass.

Lemma range_nonpos (n : Z) : (n <= 0)%Z -> range n = [].
Proof. intros Hn. unfold range. rewrite Z2Nat.nonpos by exact Hn. reflexivity. Qed.

Lemma range_pos (n : Z) :
  (0 < n)%Z -> range n = 0%Z :: map Z.of_nat (seq 1 (Z.to_nat n - 1)).
Proof.
  intros Hn. unfold range. destruct (Z.to_nat n) as [|k] eqn:E; [lia|].
  cbn. rewrite Nat.sub_0_r. reflexivity.
Qed.

Lemma teacher_epoch_files len vars ep (f0 : gmap string (list byte)) :
  preserves (fun s : Σ => fs (snd s) = f0) (train_teacher_epoch len vars ep).
Proof. frame; intros s Hs; exact Hs. Qed.

Lemma student_epoch_files len vars ep (f0 : gmap string (list byte)) :
  preserves (fun s : Σ => fs (snd s) = f0) (train_student_epoch len vars ep).
Proof. frame; intros s Hs; exact Hs. Qed.

Lemma printed_teacher_batches self (rs : list (output Logits * Scalar)) :
  printed (concat (map (teacher_batch_events self) rs)) = [].
Proof. induction rs as [|r rs IH]; [reflexivity | exact IH]. Qed.

Lemma printed_student_batches self
    (rs : list (output Logits * output Logits * Scalar)) :
  printed (concat (map (student_batch_events self) rs)) = [].
Proof. induction rs as [|r rs IH]; [reflexivity | exact IH]. Qed.

(** A batch of [train_student] in the class itself: two forward passes,
    then the loss method raises. *)
Lemma student_batch_base (acc : Scalar * nat) (b : Data * Label)
    (self : instance) (w : World) :
  override_calculate_kd_loss = None ->
  exists so to w1,
    train_student_batch acc b (self, w) = (Raise NotImplementedError, (self, w1))
    /\ trace w1 = trace w ++ [EvCall (student_model self) so;
                              EvCall (teacher_model self) to]
    /\ fs w1 = fs w
    /\ optimizers w1 = optimizers w.
Proof.
  intros Hnone. unfold train_student_batch, self_calculate_kd_loss.
  rewrite Hnone. cbn. eexists _, _, _. split; [reflexivity|]. cbn.
  rewrite <- app_assoc. auto.
Qed.

(** [torch.save] below a directory that is there. *)
Lemma save_there (m : loc) (path : string) (self : instance) (w : World) :
  directory_exists w (directory_of path) = true ->
  lift (torch_save_state_dict m path) (self, w)
  = (Ok tt, (self, set_trace (trace w ++ [EvSave path (state (heap w m))])
                     (set_fs (<[path := pickle (state (heap w m))]> (fs w)) w))).
Proof.
  intros Hd. unfold lift, torch_save_state_dict, bind, get. cbn [fst snd].
  rewrite Hd. reflexivity.
Qed.
End EpochFrames.

(** X1. With [epochs <= 0], and with the directory of [save_model_pth] in
    place when [save_model] is set, the training methods train nothing and
    return, whatever the training set and the loss method: the model is put
    in train mode and reloaded with the state it already had, no other
    module object changes (but the teacher, put in eval mode by
    [train_student]), the loader is not iterated, and the only calls are
    those before and after the loop, with an empty loss array. *)
Theorem X1_no_epochs_no_training `{Framework} `{!BaseClass.Subclass}
    (epochs : Z) (plot_losses save_model : bool) (save_model_pth : string)
    (self : BaseClass.instance) (w : World) :
  (epochs <= 0)%Z ->
  (save_model = true ->
   directory_exists w (directory_of save_model_pth) = true) ->
  (let model := BaseClass.teacher_model self in
   let sd0 := state (heap w model) in
   exists w',
     BaseClass.train_teacher epochs plot_losses save_model save_model_pth (self, w)
     = (Ok tt, (BaseClass.with_best_teacher sd0 self, w'))
     /\ heap w' model = with_training true (heap w model)
     /\ (forall l, l <> model -> heap w' l = heap w l)
     /\ passes w' = passes w
     /\ trace w'
        = trace w
          ++ [EvMode model true; EvDeepcopyStateDict model sd0;
              EvPrint LTrainingTeacher]
          ++ end_events model sd0 [] plot_losses save_model save_model_pth)
  /\ (let model := BaseClass.student_model self in
      let teacher := BaseClass.teacher_model self in
      let sd0 := state (heap w model) in
      exists w',
        BaseClass.train_student epochs plot_losses save_model save_model_pth (self, w)
        = (Ok tt, (BaseClass.with_best_student sd0 self, w'))
        /\ heap w' model = with_training true (heap w model)
        /\ (teacher <> model -> heap w' teacher = with_training false (heap w teacher))
        /\ (forall l, l <> model -> l <> teacher -> heap w' l = heap w l)
        /\ passes w' = passes w
        /\ trace w'
           = trace w
             ++ [EvMode teacher false; EvMode model true;
                 EvDeepcopyStateDict model sd0; EvPrint LTrainingStudent]
             ++ end_events model sd0 [] plot_losses save_model save_model_pth).
Proof.
  intros Hn Hdir.
  assert (Hd : forall w', dirs w' = dirs w ->
                 save_model = true ->
                 directory_exists w' (directory_of save_model_pth) = true).
  { intros w' E Hsv. unfold directory_exists. rewrite E. exact (Hdir Hsv). }
  split.
  - intros model sd0.
    unfold BaseClass.train_teacher, BaseClass.train_teacher_epochs.
    rewrite (range_nonpos epochs Hn). unfold end_events.
    destruct save_model, plot_losses; cbn; fold model; rewrite !store_same;
      cbn; fold sd0; try unfold bind;
      rewrite ?save_there by (apply Hd; reflexivity); cbn;
      (eexists; split; [reflexivity|]); cbn;
      rewrite ?store_same, <- ?app_assoc; cbn; split_and!; auto;
      intros l Hl; rewrite !store_other by exact Hl; reflexivity.
  - intros model teacher sd0.
    unfold BaseClass.train_student, BaseClass.train_student_epochs.
    rewrite (range_nonpos epochs Hn). unfold end_events.
    assert (Hsd : state (store model
                           (with_training true
                              (store teacher (with_training false (heap w teacher))
                                 (heap w) model))
                           (store teacher (with_training false (heap w teacher))
                              (heap w)) model) = sd0).
    { rewrite store_same. cbn. apply state_store_training. }
    assert (Hmod : with_state sd0
                     (with_training true
                        (store teacher (with_training false (heap w teacher))
                           (heap w) model))
                   = with_training true (heap w model)).
    { unfold store. destruct (Nat.eqb model teacher) eqn:E; [|reflexivity].
      apply Nat.eqb_eq in E. unfold sd0. rewrite E. reflexivity. }
    destruct save_model, plot_losses; cbn; fold model teacher;
      rewrite ?Hsd; try unfold bind;
      rewrite ?save_there by (apply Hd; reflexivity); cbn;
      rewrite ?Hsd; (eexists; split; [reflexivity|]); cbn;
      rewrite ?store_same, <- ?app_assoc; cbn; rewrite ?store_same, ?Hmod;
      split_and!; auto;
      try (intros Hne; rewrite !(store_other model) by exact Hne;
           apply store_same);
      intros l Hl Hl'; rewrite !store_other by assumption; reflexivity.
Qed.

(** X2. On an empty training set ([len(train_loader.dataset) = 0]) a call
    with at least one epoch raises [ZeroDivisionError] at the end of its
    first epoch ([train_student]: when the loss method returns): the
    snapshot attribute holds the initial state of the model, the loader has
    been iterated once, no epoch line is printed and no file is written. *)
Theorem X2_empty_training_set_raises `{Framework} `{!BaseClass.Subclass}
    (epochs : Z) (plot_losses save_model : bool) (save_model_pth : string)
    (self : BaseClass.instance) (w : World) :
  dataset_len (BaseClass.train_loader self) = 0 ->
  (0 < epochs)%Z ->
  (exists s',
     BaseClass.train_teacher epochs plot_losses save_model save_model_pth (self, w)
     = (Raise ZeroDivisionError, s')
     /\ fst s' = BaseClass.with_best_teacher
                   (state (heap w (BaseClass.teacher_model self))) self
     /\ fs (snd s') = fs w
     /\ passes (snd s') = S (passes w)
     /\ printed (trace (snd s')) = printed (trace w) ++ [LTrainingTeacher])
  /\ (kd_loss_total ->
      exists s',
        BaseClass.train_student epochs plot_losses save_model save_model_pth (self, w)
        = (Raise ZeroDivisionError, s')
        /\ fst s' = BaseClass.with_best_student
                      (state (heap w (BaseClass.student_model self))) self
        /\ fs (snd s') = fs w
        /\ passes (snd s') = S (passes w)
        /\ printed (trace (snd s')) = printed (trace w) ++ [LTrainingStudent]).
Proof.
  intros Hlen Hpos. split.
  - destruct (teacher_begin_run self w) as (w0 & Eb & _ & Pb & Fb & Tb).
    set (self0 := BaseClass.with_best_teacher _ self) in *.
    destruct (teacher_epoch_run 0 ([], 0%Q) 0%Z self0 w0)
      as (rs & w1 & _ & _ & T1 & P1 & R).
    rewrite truediv_zero in R.
    pose proof (teacher_epoch_files 0 ([], 0%Q) 0%Z (fs w0) (self0, w0) eq_refl)
      as F1.
    rewrite R in F1. cbn [snd] in F1.
    exists (self0, w1). split_and!.
    + unfold BaseClass.train_teacher. rewrite (bind_ok _ _ _ _ _ Eb).
      apply bind_raise. unfold BaseClass.train_teacher_epochs.
      rewrite (bind_ok BaseClass.self_ _ (self0, w0) self0 (self0, w0) eq_refl).
      change (dataset_len (BaseClass.train_loader self0))
        with (dataset_len (BaseClass.train_loader self)).
      rewrite Hlen, (range_pos epochs Hpos), for_each_cons.
      apply bind_raise. exact R.
    + reflexivity.
    + cbn [snd]. rewrite F1. exact Fb.
    + cbn [snd]. rewrite P1, Pb. reflexivity.
    + cbn [snd]. rewrite T1, Tb, !printed_app, printed_teacher_batches.
      cbn. rewrite app_nil_r. reflexivity.
  - intros Htot.
    destruct (student_begin_run self w) as (w0 & Eb & _ & Pb & Fb & Tb).
    set (self0 := BaseClass.with_best_student _ self) in *.
    destruct (student_epoch_run 0 ([], 0%Q) 0%Z self0 w0)
      as [(e & s1 & Hr & _)|(rs & w1 & _ & _ & T1 & P1 & R)].
    { destruct (kd_loss_total_not_raised _ _ Htot Hr). }
    rewrite truediv_zero in R.
    pose proof (student_epoch_files 0 ([], 0%Q) 0%Z (fs w0) (self0, w0) eq_refl)
      as F1.
    rewrite R in F1. cbn [snd] in F1.
    exists (self0, w1). split_and!.
    + unfold BaseClass.train_student. rewrite (bind_ok _ _ _ _ _ Eb).
      apply bind_raise. unfold BaseClass.train_student_epochs.
      rewrite (bind_ok BaseClass.self_ _ (self0, w0) self0 (self0, w0) eq_refl).
      change (dataset_len (BaseClass.train_loader self0))
        with (dataset_len (BaseClass.train_loader self)).
      rewrite Hlen, (range_pos epochs Hpos), for_each_cons.
      apply bind_raise. exact R.
    + reflexivity.
    + cbn [snd]. rewrite F1. exact Fb.
    + cbn [snd]. rewrite P1, Pb. reflexivity.
    + cbn [snd]. rewrite T1, Tb, !printed_app, printed_student_batches.
      cbn. rewrite app_nil_r. reflexivity.
Qed.

Section BeginFrames.
Context `{Framework}.

Lemma student_begin_optimizers (o0 : loc -> OptState) :
  preserves (fun s : BaseClass.Σ => optimizers (snd s) = o0)
    BaseClass.train_student_begin.
Proof. frame; intros s Hs; exact Hs. Qed.
End BeginFrames.

(** X3. [train_student] of the class itself (no override of
    [calculate_kd_loss]) raises [NotImplementedError] in the first batch of
    its first epoch, after the forward passes of the student and of the
    teacher: no optimizer is touched, no file is written, and the snapshot
    attribute holds the initial state of the student. *)
Theorem X3_train_student_needs_loss_method `{Framework} `{!BaseClass.Subclass}
    (epochs : Z) (plot_losses save_model : bool) (save_model_pth : string)
    (self : BaseClass.instance) (w : World) :
  BaseClass.override_calculate_kd_loss = None ->
  (0 < epochs)%Z ->
  batches (BaseClass.train_loader self) (passes w) <> [] ->
  let model := BaseClass.student_model self in
  let teacher := BaseClass.teacher_model self in
  let sd0 := state (heap w model) in
  exists s' so to,
    BaseClass.train_student epochs plot_losses save_model save_model_pth (self, w)
    = (Raise NotImplementedError, s')
    /\ fst s' = BaseClass.with_best_student sd0 self
    /\ fs (snd s') = fs w
    /\ optimizers (snd s') = optimizers w
    /\ trace (snd s')
       = trace w
         ++ [EvMode teacher false; EvMode model true;
             EvDeepcopyStateDict model sd0; EvPrint LTrainingStudent;
             EvCall model so; EvCall teacher to].
Proof.
  intros Hnone Hpos Hbs model teacher sd0.
  destruct (batches (BaseClass.train_loader self) (passes w)) as [|b bs] eqn:Eb;
    [congruence|]. clear Hbs.
  destruct (student_begin_run self w) as (w0 & Ebegin & _ & P0 & F0 & T0).
  fold model teacher sd0 in Ebegin, T0.
  pose proof (student_begin_optimizers (optimizers w) (self, w) eq_refl) as O0.
  rewrite Ebegin in O0. cbn [snd] in O0.
  set (self0 := BaseClass.with_best_student sd0 self) in *.
  destruct (student_batch_base (float_zero, 0) b self0
              (set_passes (S (passes w0)) w0) Hnone)
    as (so & to & w1 & E1 & T1 & F1 & O1).
  exists (self0, w1), so, to. split_and!.
  - unfold BaseClass.train_student. rewrite (bind_ok _ _ _ _ _ Ebegin).
    apply bind_raise. unfold BaseClass.train_student_epochs.
    rewrite (bind_ok BaseClass.self_ _ (self0, w0) self0 (self0, w0) eq_refl).
    rewrite (range_pos epochs Hpos), for_each_cons.
    apply bind_raise. unfold BaseClass.train_student_epoch.
    rewrite (bind_ok BaseClass.self_ _ (self0, w0) self0 (self0, w0) eq_refl).
    assert (Eit : lift (iterate (BaseClass.train_loader self0)) (self0, w0)
                  = (Ok (b :: bs), (self0, set_passes (S (passes w0)) w0))).
    { unfold lift, iterate. cbn. rewrite P0.
      change (BaseClass.train_loader self0) with (BaseClass.train_loader self).
      rewrite Eb. reflexivity. }
    rewrite (bind_ok _ _ _ _ _ Eit). apply bind_raise.
    rewrite for_each_cons. apply bind_raise. exact E1.
  - reflexivity.
  - cbn [snd]. rewrite F1. exact F0.
  - cbn [snd]. rewrite O1. exact O0.
  - cbn [snd]. rewrite T1. cbn [trace set_passes]. rewrite T0, <- app_assoc.
    reflexivity.
Qed.

(** X4. Whether it returns or raises, [train_teacher] assigns to no
    attribute of the instance other than [best_teacher_model_weights], and
    [train_student] to none other than [best_student_model_weights]: the
    models, loaders, optimizers and settings of the instance are those of
    the call, and the snapshot of the other model is kept. *)
Theorem X4_training_keeps_the_attributes `{Framework} `{!BaseClass.Subclass}
    (epochs : Z) (plot_losses save_model : bool) (save_model_pth : string)
    (self : BaseClass.instance) (w : World) :
  (exists sd,
     fst (snd (BaseClass.train_teacher epochs plot_losses save_model
                 save_model_pth (self, w)))
     = BaseClass.with_best_teacher sd self)
  /\ (exists sd,
        fst (snd (BaseClass.train_student epochs plot_losses save_model
                    save_model_pth (self, w)))
        = BaseClass.with_best_student sd self).
Proof.
  split.
  - destruct (teacher_begin_run self w) as (w0 & Eb & _).
    unfold BaseClass.train_teacher, bind at 1. rewrite Eb.
    apply (train_teacher_attributes epochs plot_losses save_model save_model_pth
             self ([], 0%Q) (_, w0)).
    eexists. reflexivity.
  - destruct (student_begin_run self w) as (w0 & Eb & _).
    unfold BaseClass.train_student, bind at 1. rewrite Eb.
    apply (train_student_attributes epochs plot_losses save_model save_model_pth
             self ([], 0%Q) (_, w0)).
    eexists. reflexivity.
Qed.

(** X5. Whether it returns or raises, every call [train_teacher] makes on
    a module object is on the teacher, every call on an optimizer is on
    [optimizer_teacher], and the only file it may write is
    [save_model_pth]; [train_student] calls no module object but the
    student and the teacher, no optimizer but [optimizer_student], and
    writes no other file either. *)
Theorem X5_training_acts_on_its_own_objects `{Framework} `{!BaseClass.Subclass}
    (epochs : Z) (plot_losses save_model : bool) (save_model_pth : string)
    (self : BaseClass.instance) (w : World) :
  (exists new,
     trace (snd (snd (BaseClass.train_teacher epochs plot_losses save_model
                        save_model_pth (self, w))))
     = trace w ++ new
     /\ Forall (acts_within [BaseClass.teacher_model self]
                  [BaseClass.optimizer_teacher self] [save_model_pth]) new)
  /\ (exists new,
        trace (snd (snd (BaseClass.train_student epochs plot_losses save_model
                           save_model_pth (self, w))))
        = trace w ++ new
        /\ Forall (acts_within
                     [BaseClass.student_model self; BaseClass.teacher_model self]
                     [BaseClass.optimizer_student self] [save_model_pth]) new).
Proof.
  split.
  - apply (train_teacher_acts epochs plot_losses save_model save_model_pth
             _ _ (trace w) (self, w)).
    split_and!; [reflexivity | reflexivity | apply extends_by_refl].
  - apply (train_student_acts epochs plot_losses save_model save_model_pth
             _ _ _ (trace w) (self, w)).
    split_and!; [reflexivity | reflexivity | reflexivity | apply extends_by_refl].
Qed.

(** X6. Whether it returns or raises, a training method leaves every file
    other than [save_model_pth] as it was, and all files when [save_model]
    is false. *)
Theorem X6_training_keeps_the_other_files `{Framework} `{!BaseClass.Subclass}
    (epochs : Z) (plot_losses save_model : bool) (save_model_pth : string)
    (self : BaseClass.instance) (w : World) :
  let after_teacher :=
    snd (snd (BaseClass.train_teacher epochs plot_losses save_model
                save_model_pth (self, w))) in
  let after_student :=
    snd (snd (BaseClass.train_student epochs plot_losses save_model
                save_model_pth (self, w))) in
  (forall p, p <> save_model_pth -> fs after_teacher !! p = fs w !! p)
  /\ (save_model = false -> fs after_teacher = fs w)
  /\ (forall p, p <> save_model_pth -> fs after_student !! p = fs w !! p)
  /\ (save_model = false -> fs after_student = fs w).
Proof.
  intros after_teacher after_student.
  pose proof (train_teacher_files epochs plot_losses save_model save_model_pth
                (fs w) (self, w) (fun p _ => eq_refl)) as Ht.
  pose proof (train_student_files epochs plot_losses save_model save_model_pth
                (fs w) (self, w) (fun p _ => eq_refl)) as Hs.
  fold after_teacher in Ht. fold after_student in Hs. split_and!.
  - intros p Hp. apply Ht. intros _. exact Hp.
  - intros Hf. apply map_eq. intros p. apply Ht. rewrite Hf. discriminate.
  - intros p Hp. apply Hs. intros _. exact Hp.
  - intros Hf. apply map_eq. intros p. apply Hs. rewrite Hf. discriminate.
Qed.

Section EpochLines.
Context `{Framework} `{!BaseClass.Subclass}.
Import BaseClass.

Lemma epoch_accuracies_app (t1 t2 : list Event) :
  epoch_accuracies (t1 ++ t2) = epoch_accuracies t1 ++ epoch_accuracies t2.
Proof. apply omap_app. Qed.

Lemma epoch_accuracies_teacher_batches self (rs : list (output Logits * Scalar)) :
  epoch_accuracies (concat (map (teacher_batch_events self) rs)) = [].
Proof. induction rs as [|r rs IH]; [reflexivity | exact IH]. Qed.

Lemma epoch_accuracies_student_batches self
    (rs : list (output Logits * output Logits * Scalar)) :
  epoch_accuracies (concat (map (student_batch_events self) rs)) = [].
Proof. induction rs as [|r rs IH]; [reflexivity | exact IH]. Qed.

Lemma epoch_accuracies_epoch {R} (bev : R -> list Event) model ep
    (log : EpochLog R) :
  epoch_accuracies (concat (map bev (batch_results log))) = [] ->
  epoch_accuracies (epoch_events bev model ep log) = [epoch_acc log].
Proof.
  intros Hb. unfold epoch_events. rewrite !epoch_accuracies_app, Hb.
  destruct (snapshot log); reflexivity.
Qed.

Lemma epoch_accuracies_epochs {R} (bev : R -> list Event) model
    (logs : list (EpochLog R)) :
  (forall rs, epoch_accuracies (concat (map bev rs)) = []) ->
  forall k, epoch_accuracies (epochs_events bev model k logs) = map epoch_acc logs.
Proof.
  intros Hb. induction logs as [|log logs IH]; intros k; [reflexivity|].
  cbn [epochs_events map]. rewrite epoch_accuracies_app, IH.
  rewrite epoch_accuracies_epoch by apply Hb. reflexivity.
Qed.

Lemma epoch_accuracies_end model best arr plot_losses save_model save_model_pth :
  epoch_accuracies (end_events model best arr plot_losses save_model save_model_pth)
  = [].
Proof. destruct plot_losses, save_model; reflexivity. Qed.

(** Epochs none of which is above the running best leave the snapshot and
    the running best as they were. *)
Lemma teacher_epochs_unimproved len n :
  forall k vars s vars' s',
    for_each (map Z.of_nat (seq k n)) (train_teacher_epoch len) vars s
    = (Ok vars', s') ->
    exists new,
      trace (snd s') = trace (snd s) ++ new
      /\ (Forall (fun a => (a <= snd vars)%Q) (epoch_accuracies new) ->
          fst s' = fst s /\ snd vars' = snd vars).
Proof.
  induction n as [|n IH]; intros k vars s vars' s' E.
  - cbn in E. injection E as <- <-. exists []. rewrite app_nil_r. auto.
  - cbn [seq map] in E. rewrite for_each_cons in E.
    apply bind_ok_inv in E as (vars1 & s1 & E1 & E2).
    apply teacher_epoch_ok in E1
      as (log & _ & _ & _ & _ & _ & Hv & Hself & Ht & _).
    apply IH in E2 as (new & Ht' & Himp).
    exists (epoch_events (teacher_batch_events (fst s)) (teacher_model (fst s))
              (Z.of_nat k) log ++ new).
    split; [rewrite Ht', Ht, <- app_assoc; reflexivity|].
    rewrite epoch_accuracies_app, epoch_accuracies_epoch
      by apply epoch_accuracies_teacher_batches.
    intros Hall. apply Forall_app in Hall as [Hlog Hall].
    apply Forall_singleton, gt_false in Hlog.
    rewrite Hlog in Hv, Hself. subst vars1. cbn [fst snd] in Himp.
    destruct (Himp Hall) as [Hfst Hsnd]. rewrite Hfst, Hsnd, Hself. auto.
Qed.

Lemma student_epochs_unimproved len n :
  forall k vars s vars' s',
    for_each (map Z.of_nat (seq k n)) (train_student_epoch len) vars s
    = (Ok vars', s') ->
    exists new,
      trace (snd s') = trace (snd s) ++ new
      /\ (Forall (fun a => (a <= snd vars)%Q) (epoch_accuracies new) ->
          fst s' = fst s /\ snd vars' = snd vars).
Proof.
  induction n as [|n IH]; intros k vars s vars' s' E.
  - cbn in E. injection E as <- <-. exists []. rewrite app_nil_r. auto.
  - cbn [seq map] in E. rewrite for_each_cons in E.
    apply bind_ok_inv in E as (vars1 & s1 & E1 & E2).
    apply student_epoch_ok in E1
      as (log & _ & _ & _ & _ & _ & Hv & Hself & Ht & _).
    apply IH in E2 as (new & Ht' & Himp).
    exists (epoch_events (student_batch_events (fst s)) (student_model (fst s))
              (Z.of_nat k) log ++ new).
    split; [rewrite Ht', Ht, <- app_assoc; reflexivity|].
    rewrite epoch_accuracies_app, epoch_accuracies_epoch
      by apply epoch_accuracies_student_batches.
    intros Hall. apply Forall_app in Hall as [Hlog Hall].
    apply Forall_singleton, gt_false in Hlog.
    rewrite Hlog in Hv, Hself. subst vars1. cbn [fst snd] in Himp.
    destruct (Himp Hall) as [Hfst Hsnd]. rewrite Hfst, Hsnd, Hself. auto.
Qed.
End EpochLines.

(** X7. A training run none of whose epochs gets a prediction right (every
    epoch prints accuracy 0) ends with the model reloaded with the state it
    had at the call: the running best starts at 0 and only a strictly
    higher accuracy replaces the snapshot, so the updates of the optimizer
    are undone by the final restore. *)
Theorem X7_no_correct_prediction_undoes_training `{Framework} `{!BaseClass.Subclass}
    (epochs : Z) (plot_losses save_model : bool) (save_model_pth : string)
    (self : BaseClass.instance) (w : World) :
  (forall s',
      BaseClass.train_teacher epochs plot_losses save_model save_model_pth (self, w)
      = (Ok tt, s') ->
      Forall (fun a => (a <= 0)%Q)
        (epoch_accuracies (drop (length (trace w)) (trace (snd s')))) ->
      let model := BaseClass.teacher_model self in
      state (heap (snd s') model) = state (heap w model)
      /\ BaseClass.best_teacher_model_weights (fst s')
         = Some (state (heap w model)))
  /\ (forall s',
      BaseClass.train_student epochs plot_losses save_model save_model_pth (self, w)
      = (Ok tt, s') ->
      Forall (fun a => (a <= 0)%Q)
        (epoch_accuracies (drop (length (trace w)) (trace (snd s')))) ->
      let model := BaseClass.student_model self in
      state (heap (snd s') model) = state (heap w model)
      /\ BaseClass.best_student_model_weights (fst s')
         = Some (state (heap w model))).
Proof.
  split; intros s' E Hall model.
  - unfold BaseClass.train_teacher in E.
    destruct (teacher_begin_run self w) as (w0 & Eb & _ & _ & _ & Tb).
    fold model in Eb, Tb. set (sd0 := state (heap w model)) in *.
    rewrite (bind_ok _ _ _ _ _ Eb) in E.
    apply bind_ok_inv in E as (vars & [self1 w1] & Ee & Eend).
    unfold BaseClass.train_teacher_epochs in Ee.
    rewrite (bind_ok BaseClass.self_ _ _ _ _ eq_refl), range_seq in Ee.
    cbn [fst] in Ee.
    pose proof (teacher_epochs_ok _ _ _ _ _ _ _ Ee)
      as (_ & _ & _ & _ & Hself & _).
    apply teacher_epochs_unimproved in Ee as (new & Tn & Himp).
    cbn [fst snd] in Tn, Himp, Hself.
    assert (Hcfg : exists best,
               BaseClass.best_teacher_model_weights self1 = Some best
               /\ BaseClass.teacher_model self1 = model).
    { destruct Hself as [->|[sd ->]]; eexists; split; reflexivity. }
    destruct Hcfg as (best & Hbest & Hm).
    destruct (teacher_end_ok _ _ _ _ _ _ _ _ Hbest Eend)
      as (w' & -> & Hst & _ & _ & _ & _ & Tend).
    cbn [fst snd] in *. rewrite Hm in Hst, Tend.
    rewrite Tend, Tn, Tb, <- !app_assoc, drop_app_length in Hall.
    rewrite !epoch_accuracies_app, epoch_accuracies_end, app_nil_r in Hall.
    cbn in Hall. destruct (Himp Hall) as [Hfst _]. subst self1.
    cbn in Hbest. injection Hbest as <-. auto.
  - unfold BaseClass.train_student in E.
    destruct (student_begin_run self w) as (w0 & Eb & _ & _ & _ & Tb).
    fold model in Eb, Tb. set (sd0 := state (heap w model)) in *.
    rewrite (bind_ok _ _ _ _ _ Eb) in E.
    apply bind_ok_inv in E as (vars & [self1 w1] & Ee & Eend).
    unfold BaseClass.train_student_epochs in Ee.
    rewrite (bind_ok BaseClass.self_ _ _ _ _ eq_refl), range_seq in Ee.
    cbn [fst] in Ee.
    pose proof (student_epochs_ok _ _ _ _ _ _ _ Ee)
      as (_ & _ & _ & _ & Hself & _).
    apply student_epochs_unimproved in Ee as (new & Tn & Himp).
    cbn [fst snd] in Tn, Himp, Hself.
    assert (Hcfg : exists best,
               BaseClass.best_student_model_weights self1 = Some best
               /\ BaseClass.student_model self1 = model).
    { destruct Hself as [->|[sd ->]]; eexists; split; reflexivity. }
    destruct Hcfg as (best & Hbest & Hm).
    destruct (student_end_ok _ _ _ _ _ _ _ _ Hbest Eend)
      as (w' & -> & Hst & _ & _ & _ & _ & Tend).
    cbn [fst snd] in *. rewrite Hm in Hst, Tend.
    rewrite Tend, Tn, Tb, <- !app_assoc, drop_app_length in Hall.
    rewrite !epoch_accuracies_app, epoch_accuracies_end, app_nil_r in Hall.
    cbn in Hall. destruct (Himp Hall) as [Hfst _]. subst self1.
    cbn in Hbest. injection Hbest as <-. auto.
Qed.

(** X8. The accuracies a returning training run prints, one per epoch, are
    never negative, and none is above 1 when no iteration of the loader
    yields more samples than [len(train_loader.dataset)]. *)
Theorem X8_epoch_accuracies_bounded `{Framework} `{!BaseClass.Subclass}
    (epochs : Z) (plot_losses save_model : bool) (save_model_pth : string)
    (self : BaseClass.instance) (w : World) :
  let loader := BaseClass.train_loader self in
  let fits := forall k, samples_yielded (batches loader k) <= dataset_len loader in
  (forall s',
      BaseClass.train_teacher epochs plot_losses save_model save_model_pth (self, w)
      = (Ok tt, s') ->
      let accs := epoch_accuracies (drop (length (trace w)) (trace (snd s'))) in
      length accs = Z.to_nat epochs
      /\ Forall (fun a => (0 <= a)%Q) accs
      /\ (fits -> Forall (fun a => (a <= 1)%Q) accs))
  /\ (forall s',
      BaseClass.train_student epochs plot_losses save_model save_model_pth (self, w)
      = (Ok tt, s') ->
      let accs := epoch_accuracies (drop (length (trace w)) (trace (snd s'))) in
      length accs = Z.to_nat epochs
      /\ Forall (fun a => (0 <= a)%Q) accs
      /\ (fits -> Forall (fun a => (a <= 1)%Q) accs)).
Proof.
  intros loader fits. split; intros s' E accs.
  - pose proof (train_teacher_ok _ _ _ _ _ _ _ E)
      as (w0 & vars & s1 & best & logs & _ & _ & _ & _ & Ln & _ & Hlogs
          & _ & _ & _ & _ & _ & T).
    assert (Haccs : accs = map epoch_acc logs).
    { unfold accs. rewrite T, drop_app_length, !epoch_accuracies_app.
      rewrite epoch_accuracies_end, app_nil_r.
      rewrite epoch_accuracies_epochs by apply epoch_accuracies_teacher_batches.
      reflexivity. }
    rewrite Haccs, length_map. split; [exact Ln|].
    split; [|intros Hfits]; apply Forall_map, Forall_lookup; intros i log Hl;
      destruct (Hlogs i log Hl) as (_ & _ & _ & D);
      destruct (truediv_bounds _ _ _ D) as [H0le H1le]; [exact H0le|].
    apply H1le. etransitivity; [apply correct_le_samples | apply Hfits].
  - pose proof (train_student_ok _ _ _ _ _ _ _ E)
      as (w0 & vars & s1 & best & logs & _ & _ & _ & _ & Ln & _ & Hlogs
          & _ & _ & _ & _ & _ & T).
    assert (Haccs : accs = map epoch_acc logs).
    { unfold accs. rewrite T, drop_app_length, !epoch_accuracies_app.
      rewrite epoch_accuracies_end, app_nil_r.
      rewrite epoch_accuracies_epochs by apply epoch_accuracies_student_batches.
      reflexivity. }
    rewrite Haccs, length_map. split; [exact Ln|].
    split; [|intros Hfits]; apply Forall_map, Forall_lookup; intros i log Hl;
      destruct (Hlogs i log Hl) as (_ & _ & _ & D);
      destruct (truediv_bounds _ _ _ D) as [H0le H1le]; [exact H0le|].
    apply H1le. etransitivity; [apply correct_le_samples | apply Hfits].
Qed.

(** X9. [evaluate] is repeatable: it works on a copy, so a second call,
    when the loader yields the same batches again, returns as well and
    prints the same accuracy. *)
Theorem X9_evaluate_is_repeatable `{Framework}
    (teacher : bool) (self : BaseClass.instance) (w : World) (s1 : BaseClass.Σ) :
  (if teacher then BaseClass.teacher_model self
   else BaseClass.student_model self) < next_loc w ->
  batches (BaseClass.val_loader self) (S (passes w))
  = batches (BaseClass.val_loader self) (passes w) ->
  BaseClass.evaluate teacher (self, w) = (Ok tt, s1) ->
  exists s2 acc,
    BaseClass.evaluate teacher s1 = (Ok tt, s2)
    /\ last (trace (snd s1)) = Some (EvPrint (LAccuracy acc))
    /\ last (trace (snd s2)) = Some (EvPrint (LAccuracy acc)).
Proof.
  intros Hsrc Hbs E.
  destruct (evaluate_fun teacher self w) as (w1 & Hh & Hn & Hp & R).
  cbn zeta in R.
  destruct (truediv _ _) as [acc|e] eqn:D; [|rewrite R in E; discriminate E].
  destruct R as [E1 L1]. rewrite E1 in E. injection E as <-.
  destruct (evaluate_fun teacher self w1) as (w2 & _ & _ & _ & R2).
  cbn zeta in R2. rewrite Hp, Hbs, Hh, D in R2.
  2:{ exact (Nat.lt_neq _ _ Hsrc). }
  destruct R2 as [E2 L2]. exists (self, w2), acc. auto.
Qed.

(** X10. [Quantizer._evaluate_model] works on the model itself, not on a
    copy: whether it returns or raises, the model is left in eval mode; no
    other module object changes, and of the model neither the architecture
    nor the gradients.  After [get_performance_statistics], whatever its
    outcome, the model of the instance is in eval mode. *)
Theorem X10_evaluation_leaves_eval_mode `{Framework}
    (self : Quantizer.instance) (w : World) :
  (forall m,
      let w' := snd (snd (Quantizer._evaluate_model m (self, w))) in
      training (heap w' m) = false
      /\ arch (heap w' m) = arch (heap w m)
      /\ grads (heap w' m) = grads (heap w m)
      /\ (forall l, l <> m -> heap w' l = heap w l))
  /\ training (heap (snd (snd (Quantizer.get_performance_statistics (self, w))))
                 (Quantizer.model self)) = false.
Proof.
  split.
  - intros m w'. split; [apply evaluate_model_eval_mode|].
    destruct (evaluate_model_frame m (heap w) (self, w)) as (Hl & Ha & Hg).
    { auto. }
    auto.
  - unfold Quantizer.get_performance_statistics.
    rewrite (bind_ok Quantizer.self_ _ (self, w) self (self, w) eq_refl).
    apply (bind_establishes
             (fun s : Quantizer.Σ =>
                training (heap (snd s) (Quantizer.model self)) = false)).
    + apply time_model_evaluation_eval_mode.
    + intros r. apply preserves_bind; [frame; intros s Hs; exact Hs | intros _].
      apply preserves_bind_qself. intros s0 _.
      apply preserves_bind; [apply time_model_evaluation_keeps_eval | intros r2].
      frame; intros s Hs; exact Hs.
Qed.

(** X11. A [Quantizer] without a test loader (the default of [__init__])
    cannot measure anything: [get_performance_statistics] raises
    [AttributeError] after having read the clock once and put the model in
    eval mode, and prints nothing.  With a test loader over an empty dataset
    it raises [ZeroDivisionError], again before printing anything. *)
Theorem X11_statistics_need_a_test_set `{Framework}
    (self : Quantizer.instance) (w : World) :
  (Quantizer.test_loader self = None ->
   exists w',
     Quantizer.get_performance_statistics (self, w)
     = (Raise AttributeError, (self, w'))
     /\ trace w' = trace w ++ [EvMode (Quantizer.model self) false]
     /\ clock w' = S (clock w)
     /\ passes w' = passes w)
  /\ (forall loader,
        Quantizer.test_loader self = Some loader -> dataset_len loader = 0 ->
        exists w',
          Quantizer.get_performance_statistics (self, w)
          = (Raise ZeroDivisionError, (self, w'))
          /\ printed (trace w') = printed (trace w)
          /\ clock w' = S (clock w)
          /\ passes w' = S (passes w)).
Proof.
  split.
  - intros Hld. set (m := Quantizer.model self).
    set (w0 := set_clock (S (clock w)) w).
    set (w1 := set_trace (trace w0 ++ [EvMode m false])
                 (set_heap (store m (with_training false (heap w0 m)) (heap w0)) w0)).
    assert (E0 : lift time_time (self, w) = (Ok (time_at (clock w)), (self, w0)))
      by reflexivity.
    assert (E1 : lift (nn_eval m) (self, w0) = (Ok tt, (self, w1))) by reflexivity.
    assert (E2 : Quantizer._evaluate_model m (self, w0)
                 = (Raise AttributeError, (self, w1))).
    { unfold Quantizer._evaluate_model. rewrite (bind_ok _ _ _ _ _ E1).
      rewrite (bind_ok Quantizer.self_ _ (self, w1) self (self, w1) eq_refl).
      rewrite Hld. reflexivity. }
    exists w1. split_and!; auto.
    unfold Quantizer.get_performance_statistics.
    rewrite (bind_ok Quantizer.self_ _ (self, w) self (self, w) eq_refl).
    apply bind_raise. unfold Quantizer._time_model_evaluation.
    rewrite (bind_ok _ _ _ _ _ E0). apply bind_raise. exact E2.
  - intros loader Hld Hlen.
    set (w0 := set_clock (S (clock w)) w).
    destruct (q_evaluate_model_fun (Quantizer.model self) self w0 loader Hld)
      as (w' & E & _ & Hp & Hc & Ht).
    rewrite Hlen, truediv_zero in E.
    exists w'. split_and!; auto.
    unfold Quantizer.get_performance_statistics.
    rewrite (bind_ok Quantizer.self_ _ (self, w) self (self, w) eq_refl).
    apply bind_raise. unfold Quantizer._time_model_evaluation.
    assert (E0 : lift time_time (self, w) = (Ok (time_at (clock w)), (self, w0)))
      by reflexivity.
    rewrite (bind_ok _ _ _ _ _ E0). apply bind_raise. exact E.
Qed.

(** X12. On a [Quantizer] whose [quantized_model] is its [model] (as
    [__init__] leaves it), with a module whose forward pass in eval mode
    leaves its state as it is and a loader that yields the same batches
    twice, [get_performance_statistics] reports the same accuracy for the
    original and for the quantized model. *)
Theorem X12_statistics_of_the_same_model `{Framework}
    (self : Quantizer.instance) (w : World) (loader : DataLoader)
    (s' : Quantizer.Σ) :
  Quantizer.quantized_model self = Quantizer.model self ->
  Quantizer.test_loader self = Some loader ->
  (forall a sd d, fst (forward a false sd d) = sd) ->
  batches loader (S (passes w)) = batches loader (passes w) ->
  Quantizer.get_performance_statistics (self, w) = (Ok tt, s') ->
  exists acc t1 t2,
    printed (trace (snd s'))
    = printed (trace w) ++ [LOriginalModel acc t1; LQuantizedModel acc t2].
Proof.
  intros Hq Hld Hfw Hbs E.
  unfold Quantizer.get_performance_statistics in E.
  rewrite (bind_ok Quantizer.self_ _ (self, w) self (self, w) eq_refl) in E.
  set (m := Quantizer.model self) in *.
  set (w0 := set_clock (S (clock w)) w).
  assert (E0 : lift time_time (self, w) = (Ok (time_at (clock w)), (self, w0)))
    by reflexivity.
  destruct (q_evaluate_model_fun m self w0 loader Hld)
    as (w1 & E1 & Hm1 & Hp1 & _ & Ht1).
  cbn zeta in E1, Hm1.
  set (m0 := with_training false (heap w0 m)) in *.
  set (bs := batches loader (passes w0)) in *.
  assert (Hstay : snd (eval_loop m0 bs 0) = m0)
    by (apply eval_loop_stateless; [exact Hfw | reflexivity]).
  destruct (truediv (fst (eval_loop m0 bs 0)) (dataset_len loader)) as [acc|e] eqn:D.
  2:{ assert (Er : Quantizer._time_model_evaluation m (self, w) = (Raise e, (self, w1))).
      { unfold Quantizer._time_model_evaluation. rewrite (bind_ok _ _ _ _ _ E0).
        apply bind_raise. exact E1. }
      rewrite (bind_raise _ _ _ _ _ Er) in E. discriminate E. }
  set (w2 := set_clock (S (clock w1)) w1).
  set (t1 := float_sub (time_at (clock w1)) (time_at (clock w))).
  assert (Et1 : Quantizer._time_model_evaluation m (self, w)
                = (Ok (acc, t1), (self, w2))).
  { unfold Quantizer._time_model_evaluation.
    rewrite (bind_ok _ _ _ _ _ E0), (bind_ok _ _ _ _ _ E1). reflexivity. }
  rewrite (bind_ok _ _ _ _ _ Et1) in E. cbn [fst snd] in E.
  set (w3 := set_trace (trace w2 ++ [EvPrint (LOriginalModel acc t1)]) w2).
  assert (E3 : lift (print (LOriginalModel acc t1)) (self, w2) = (Ok tt, (self, w3)))
    by reflexivity.
  rewrite (bind_ok _ _ _ _ _ E3) in E.
  rewrite (bind_ok Quantizer.self_ _ (self, w3) self (self, w3) eq_refl) in E.
  rewrite Hq in E. fold m in E.
  set (w4 := set_clock (S (clock w3)) w3).
  assert (E4 : lift time_time (self, w3) = (Ok (time_at (clock w3)), (self, w4)))
    by reflexivity.
  destruct (q_evaluate_model_fun m self w4 loader Hld) as (w5 & E5 & _ & _ & _ & Ht5).
  cbn zeta in E5.
  assert (Hm4 : with_training false (heap w4 m) = m0).
  { change (heap w4 m) with (heap w1 m). rewrite Hm1, Hstay. reflexivity. }
  assert (Hp4 : batches loader (passes w4) = bs).
  { change (passes w4) with (passes w1). rewrite Hp1. exact Hbs. }
  rewrite Hm4, Hp4, D in E5.
  set (t2 := float_sub (time_at (clock w5)) (time_at (clock w3))).
  assert (Et2 : Quantizer._time_model_evaluation m (self, w3)
                = (Ok (acc, t2), (self, set_clock (S (clock w5)) w5))).
  { unfold Quantizer._time_model_evaluation.
    rewrite (bind_ok _ _ _ _ _ E4), (bind_ok _ _ _ _ _ E5). reflexivity. }
  rewrite (bind_ok _ _ _ _ _ Et2) in E. cbn in E. injection E as <-.
  exists acc, t1, t2.
  cbn [snd trace set_trace set_clock]. rewrite printed_app, Ht5.
  change (trace w4) with (trace w2 ++ [EvPrint (LOriginalModel acc t1)]).
  rewrite printed_app. change (trace w2) with (trace w1). rewrite Ht1.
  cbn. rewrite <- app_assoc. reflexivity.
Qed.

(** X14. [get_model_sizes] always returns, whatever the two models and
    the files: it prints the rule and the sizes of the pickled state dicts of
    [model] and of [quantized_model], changes no module object, leaves no
    file [temp.p] (one that existed before is gone) and every other file as
    it was. *)
Theorem X14_model_sizes_frame `{Framework}
    (self : Quantizer.instance) (w : World) :
  let size_mb (m : loc) :=
    (Z.of_nat (length (pickle (state (heap w m)))) # 1000000)%Q in
  exists w',
    Quantizer.get_model_sizes (self, w) = (Ok tt, (self, w'))
    /\ heap w' = heap w
    /\ fs w' !! "temp.p" = None
    /\ (forall path, path <> "temp.p" -> fs w' !! path = fs w !! path)
    /\ printed (trace w')
       = printed (trace w)
         ++ [LRule; LSizeOriginal (size_mb (Quantizer.model self));
             LSizeQuantized (size_mb (Quantizer.quantized_model self))].
Proof.
  intros size_mb.
  destruct (get_model_sizes_run self w) as (w' & E & F & Hh & P).
  exists w'. rewrite F. split_and!; auto.
  - apply lookup_delete_eq.
  - intros path Hne. apply lookup_delete_ne. congruence.
Qed.

Section PlottedLosses.
Context `{Framework}.

(** A sum whose last summand requires grad requires grad, when addition
    passes it on. *)
Lemma loss_sum_requires_grad (losses : list Scalar) :
  (forall a b, requires_grad b = true -> requires_grad (scalar_add a b) = true) ->
  losses <> [] ->
  Forall (fun l => requires_grad l = true) losses ->
  requires_grad (loss_sum losses) = true.
Proof.
  intros Hadd Hne Hall.
  destruct losses as [|l ls _] using rev_ind; [congruence|].
  unfold loss_sum. rewrite fold_left_app. cbn.
  apply Hadd. apply Forall_app in Hall. destruct Hall as [_ Hl].
  inversion Hl; assumption.
Qed.

Lemma last_snoc_if {A} (l : list A) (x y : A) (b : bool) :
  last ((l ++ [x]) ++ (if b then [y] else [])) = Some (if b then y else x).
Proof. destruct b; [|rewrite app_nil_r]; apply last_snoc. Qed.
End PlottedLosses.

(** X15. The loss array holds what the epochs summed up: tensors of the
    graph.  When every loss requires grad and a sum requires grad as soon
    as its last summand does, a call with [plot_losses] set, at least one
    epoch, a non-empty training set, a first epoch of at least one batch
    and the directory of the path in place does not return: after the loop,
    the restore and the save, [plt.plot] raises [RuntimeError]. *)
Theorem X15_plot_of_the_losses_raises `{Framework} `{!BaseClass.Subclass}
    (epochs : Z) (save_model : bool) (save_model_pth : string)
    (self : BaseClass.instance) (w : World) :
  (forall a b, requires_grad b = true -> requires_grad (scalar_add a b) = true) ->
  (0 < epochs)%Z ->
  dataset_len (BaseClass.train_loader self) <> 0 ->
  batches (BaseClass.train_loader self) (passes w) <> [] ->
  (save_model = true ->
   directory_exists w (directory_of save_model_pth) = true) ->
  ((forall out label, requires_grad (cross_entropy out label) = true) ->
   let model := BaseClass.teacher_model self in
   let r := BaseClass.train_teacher epochs true save_model save_model_pth
              (self, w) in
   let restored := state (heap (snd (snd r)) model) in
   fst r = Raise RuntimeError
   /\ BaseClass.best_teacher_model_weights (fst (snd r)) = Some restored
   /\ (save_model = true ->
       fs (snd (snd r)) !! save_model_pth = Some (pickle restored))
   /\ last (trace (snd (snd r)))
      = Some (if save_model then EvSave save_model_pth restored
              else EvLoadStateDict model restored))
  /\ (kd_loss_total ->
      (forall self' so to label l,
          kd_loss_result self' so to label = Ok l -> requires_grad l = true) ->
      let model := BaseClass.student_model self in
      let r := BaseClass.train_student epochs true save_model save_model_pth
                 (self, w) in
      let restored := state (heap (snd (snd r)) model) in
      fst r = Raise RuntimeError
      /\ BaseClass.best_student_model_weights (fst (snd r)) = Some restored
      /\ (save_model = true ->
          fs (snd (snd r)) !! save_model_pth = Some (pickle restored))
      /\ last (trace (snd (snd r)))
         = Some (if save_model then EvSave save_model_pth restored
                 else EvLoadStateDict model restored)).
Proof.
  intros Hadd Hpos Hlen Hbs Hdir. split.
  - intros Hce model r restored.
    destruct (teacher_loop_returns epochs self w Hlen) as (vars & s1 & E).
    destruct (teacher_loop_ok _ _ _ _ _ E)
      as (best & logs & Ln & Hv & Hlogs & Hs1 & Hd & _).
    destruct (teacher_call_cases epochs true save_model save_model_pth self w
                vars s1 best E Hs1 Hd) as (Hself & Hst & _ & Hthere).
    destruct (Hthere Hdir) as (Hfs & Hraise & _).
    assert (Hg : true && existsb requires_grad (fst vars) = true).
    { destruct logs as [|log logs]; [cbn in Ln; lia|].
      destruct (Hlogs 0 log eq_refl) as (Hl & HF & Hsum & _).
      rewrite Nat.add_0_r in Hl, HF.
      rewrite Hv. cbn [map existsb andb]. rewrite Hsum.
      rewrite loss_sum_requires_grad; [reflexivity | exact Hadd | |].
      - destruct (batch_results log); [|discriminate].
        destruct (batches _ _); [congruence | discriminate Hl].
      - apply Forall_map. clear - HF Hce.
        induction HF as [|b res bs rs [_ Hres] _ IH]; [constructor|].
        constructor; [|exact IH]. rewrite Hres. apply Hce. }
    destruct (Hraise Hg) as [Hr Ht].
    fold r in Hself, Hst, Hfs, Hr, Ht. fold model in Hst, Ht.
    fold restored in Hst. subst best.
    split_and!.
    + exact Hr.
    + rewrite Hself, Hs1. reflexivity.
    + exact Hfs.
    + rewrite Ht. apply last_snoc_if.
  - intros Htot Hkd model r restored.
    destruct (student_loop_returns epochs self w Hlen Htot) as (vars & s1 & E).
    destruct (student_loop_ok _ _ _ _ _ E)
      as (best & logs & Ln & Hv & Hlogs & Hs1 & Hd & _).
    destruct (student_call_cases epochs true save_model save_model_pth self w
                vars s1 best E Hs1 Hd) as (Hself & Hst & _ & Hthere).
    destruct (Hthere Hdir) as (Hfs & Hraise & _).
    assert (Hg : true && existsb requires_grad (fst vars) = true).
    { destruct logs as [|log logs]; [cbn in Ln; lia|].
      destruct (Hlogs 0 log eq_refl) as (Hl & (self' & _ & HF) & Hsum & _).
      rewrite Nat.add_0_r in Hl, HF.
      rewrite Hv. cbn [map existsb andb]. rewrite Hsum.
      rewrite loss_sum_requires_grad; [reflexivity | exact Hadd | |].
      - destruct (batch_results log); [|discriminate].
        destruct (batches _ _); [congruence | discriminate Hl].
      - apply Forall_map. clear - HF Hkd.
        induction HF as [|b res bs rs (_ & _ & Hres) _ IH]; [constructor|].
        constructor; [|exact IH]. exact (Hkd _ _ _ _ _ Hres). }
    destruct (Hraise Hg) as [Hr Ht].
    fold r in Hself, Hst, Hfs, Hr, Ht. fold model in Hst, Ht.
    fold restored in Hst. subst best.
    split_and!.
    + exact Hr.
    + rewrite Hself, Hs1. reflexivity.
    + exact Hfs.
    + rewrite Ht. apply last_snoc_if.
Qed.

Section SizeRuns.
#[local] Existing Instance Toy.tensors.
#[local] Existing Instance Toy.framework.

(** A file [temp.p] of the user does not survive the call; another file
    does. *)
Lemma X14_witness :
  fs (snd (snd (Quantizer.get_model_sizes
                  (Toy.quantizer None,
                   set_fs (<["m.pt" := [x00]]> (fs Toy.world_with_temp))
                     Toy.world_with_temp)))) !! "m.pt"
  = Some [x00].
Proof.
  destruct (@X14_model_sizes_frame Toy.tensors Toy.framework (Toy.quantizer None)
              (set_fs (<["m.pt" := [x00]]> (fs Toy.world_with_temp))
                 Toy.world_with_temp)) as (w' & E & _ & _ & Hother & _).
  rewrite E. cbn [snd]. rewrite Hother by discriminate. apply lookup_insert_eq.
Defined.
End SizeRuns.

(** * More runs on the small framework *)

Section MoreRuns.
#[local] Existing Instance Toy.tensors.
#[local] Existing Instance Toy.framework.

Local Abbreviation untrained_teacher :=
  (BaseClass.train_teacher (-1) true true "m.pt"
     (Toy.base Toy.empty_loader Toy.loader, Toy.world)).

(** A negative number of epochs on an empty training set. *)
Lemma X1_witness :
  exists w',
    untrained_teacher
    = (Ok tt, (BaseClass.with_best_teacher 0%Z
                 (Toy.base Toy.empty_loader Toy.loader), w'))
    /\ heap w' 0 = with_training true (heap Toy.world 0).
Proof.
  destruct (@X1_no_epochs_no_training _ _ Toy.base_class (-1) true true "m.pt"
              (Toy.base Toy.empty_loader Toy.loader) Toy.world)
    as [(w' & E & Hm & _) _].
  - lia.
  - reflexivity.
  - exists w'. split; [exact E | exact Hm].
Defined.

Lemma X2_witness :
  (exists s',
     BaseClass.train_teacher 1 true true "m.pt"
       (Toy.base Toy.empty_loader Toy.loader, Toy.world)
     = (Raise ZeroDivisionError, s') /\ fs (snd s') = fs Toy.world)
  /\ (exists s',
        @BaseClass.train_student _ _ Toy.distiller 1 true true "m.pt"
          (Toy.base Toy.empty_loader Toy.loader, Toy.world)
        = (Raise ZeroDivisionError, s') /\ fs (snd s') = fs Toy.world).
Proof.
  destruct (@X2_empty_training_set_raises _ _ Toy.distiller 1 true true "m.pt"
              (Toy.base Toy.empty_loader Toy.loader) Toy.world) as [Ht Hs].
  - reflexivity.
  - lia.
  - split.
    + destruct Ht as (s' & E & _ & F & _). exists s'. split; [exact E | exact F].
    + destruct (Hs distiller_total) as (s' & E & _ & F & _).
      exists s'. split; [exact E | exact F].
Defined.

Lemma X3_witness :
  exists s',
    @BaseClass.train_student _ _ Toy.base_class 1 true true "m.pt"
      (Toy.base Toy.loader Toy.loader, Toy.world)
    = (Raise NotImplementedError, s')
    /\ optimizers (snd s') = optimizers Toy.world.
Proof.
  destruct (@X3_train_student_needs_loss_method _ _ Toy.base_class
              1 true true "m.pt" (Toy.base Toy.loader Toy.loader) Toy.world)
    as (s' & so & to & E & _ & _ & O & _).
  - reflexivity.
  - lia.
  - discriminate.
  - exists s'. split; [exact E | exact O].
Defined.

Local Abbreviation saved_teacher :=
  (BaseClass.train_teacher 1 false true "m.pt"
     (Toy.base Toy.loader Toy.loader, Toy.world_with_temp)).

Local Abbreviation unsaved_student :=
  (@BaseClass.train_student _ _ Toy.distiller 1 false false "m.pt"
     (Toy.base Toy.loader Toy.loader, Toy.world_with_temp)).

Lemma X6_witness :
  fs (snd (snd saved_teacher)) !! "temp.p" = Some [x2a]
  /\ fs (snd (snd unsaved_student)) = fs Toy.world_with_temp.
Proof.
  split.
  - destruct (@X6_training_keeps_the_other_files _ _ Toy.distiller
                1 false true "m.pt" (Toy.base Toy.loader Toy.loader)
                Toy.world_with_temp) as (Ht & _).
    rewrite Ht by discriminate. apply lookup_insert_eq.
  - destruct (@X6_training_keeps_the_other_files _ _ Toy.distiller
                1 false false "m.pt" (Toy.base Toy.loader Toy.loader)
                Toy.world_with_temp) as (_ & _ & _ & Hs).
    apply Hs. reflexivity.
Defined.

Local Abbreviation one_epoch :=
  (BaseClass.train_teacher 1 false false "m.pt"
     (Toy.base Toy.loader Toy.loader, Toy.world)).

(** One epoch without a correct prediction: the step of the optimizer is
    undone. *)
Lemma X7_witness :
  state (heap (snd (snd one_epoch)) 0) = 0%Z
  /\ EvStep 0 ∈ trace (snd (snd one_epoch)).
Proof.
  destruct (@X7_no_correct_prediction_undoes_training _ _ Toy.distiller
              1 false false "m.pt" (Toy.base Toy.loader Toy.loader) Toy.world)
    as [Ht _].
  destruct (Ht (snd one_epoch)) as [Hst _].
  - apply run_returns. vm_compute. reflexivity.
  - assert (E : epoch_accuracies
                  (drop (length (trace Toy.world)) (trace (snd (snd one_epoch))))
                = [(0 # 2)%Q]) by (vm_compute; reflexivity).
    rewrite E. constructor; [|constructor]. unfold Qle. cbn. lia.
  - split; [exact Hst|]. vm_compute. do 7 right. left.
Defined.

Local Abbreviation three_epochs :=
  (BaseClass.train_teacher 3 false true "m.pt"
     (Toy.base Toy.loader Toy.loader, Toy.world)).

Lemma X8_witness :
  Forall (fun a => (a <= 1)%Q)
    (epoch_accuracies
       (drop (length (trace Toy.world)) (trace (snd (snd three_epochs))))).
Proof.
  destruct (@X8_epoch_accuracies_bounded _ _ Toy.distiller
              3 false true "m.pt" (Toy.base Toy.loader Toy.loader) Toy.world)
    as [Ht _].
  destruct (Ht (snd three_epochs)) as (_ & H0le & H1le).
  - apply run_returns. vm_compute. reflexivity.
  - apply H1le. intros k. cbn. lia.
Defined.

Local Abbreviation evaluated_once :=
  (BaseClass.evaluate true (Toy.base Toy.loader Toy.loader, Toy.world)).

Lemma X9_witness :
  exists s2 acc,
    BaseClass.evaluate true (snd evaluated_once) = (Ok tt, s2)
    /\ last (trace (snd s2)) = Some (EvPrint (LAccuracy acc)).
Proof.
  destruct (@X9_evaluate_is_repeatable Toy.tensors Toy.framework true
              (Toy.base Toy.loader Toy.loader) Toy.world (snd evaluated_once))
    as (s2 & acc & E & _ & L).
  - cbn. lia.
  - reflexivity.
  - apply run_returns. vm_compute. reflexivity.
  - exists s2, acc. split; [exact E | exact L].
Defined.

Lemma X10_witness :
  heap (snd (snd (Quantizer._evaluate_model 0
                    (Toy.quantizer (Some Toy.loader), Toy.world)))) 1
  = heap Toy.world 1.
Proof.
  destruct (@X10_evaluation_leaves_eval_mode Toy.tensors Toy.framework
              (Toy.quantizer (Some Toy.loader)) Toy.world) as [He _].
  destruct (He 0) as (_ & _ & _ & Hl). apply Hl. discriminate.
Defined.

Lemma X11_witness :
  fst (Quantizer.get_performance_statistics (Toy.quantizer None, Toy.world))
  = Raise AttributeError
  /\ fst (Quantizer.get_performance_statistics
            (Toy.quantizer (Some Toy.empty_loader), Toy.world))
     = Raise ZeroDivisionError.
Proof.
  split.
  - destruct (@X11_statistics_need_a_test_set Toy.tensors Toy.framework
                (Toy.quantizer None) Toy.world) as [Hn _].
    destruct Hn as (w' & E & _); [reflexivity|]. rewrite E. reflexivity.
  - destruct (@X11_statistics_need_a_test_set Toy.tensors Toy.framework
                (Toy.quantizer (Some Toy.empty_loader)) Toy.world) as [_ He].
    destruct (He Toy.empty_loader) as (w' & E & _); [reflexivity | reflexivity |].
    rewrite E. reflexivity.
Defined.

Local Abbreviation measured_twice :=
  (Quantizer.get_performance_statistics
     (Toy.quantizer (Some Toy.loader), Toy.world)).

Lemma X12_witness :
  exists acc t1 t2,
    printed (trace (snd (snd measured_twice)))
    = [LOriginalModel acc t1; LQuantizedModel acc t2].
Proof.
  destruct (@X12_statistics_of_the_same_model Toy.tensors Toy.framework
              (Toy.quantizer (Some Toy.loader)) Toy.world Toy.loader
              (snd measured_twice)) as (acc & t1 & t2 & P).
  - reflexivity.
  - reflexivity.
  - intros a sd d. reflexivity.
  - reflexivity.
  - apply run_returns. vm_compute. reflexivity.
  - exists acc, t1, t2. exact P.
Defined.

Local Abbreviation plotted_teacher :=
  (BaseClass.train_teacher 3 true true "m.pt"
     (Toy.base Toy.loader Toy.loader, Toy.world)).

(** Three epochs with the plot: the call ends in [plt.plot], with the
    file written. *)
Lemma X15_witness :
  fst plotted_teacher = Raise RuntimeError
  /\ last (trace (snd (snd plotted_teacher)))
     = Some (EvSave "m.pt" (state (heap (snd (snd plotted_teacher)) 0))).
Proof.
  destruct (@X15_plot_of_the_losses_raises _ _ Toy.distiller 3 true "m.pt"
              (Toy.base Toy.loader Toy.loader) Toy.world) as [Ht _].
  - intros a b Hb. cbn in *. rewrite Hb. apply orb_true_r.
  - lia.
  - cbn. lia.
  - discriminate.
  - reflexivity.
  - destruct Ht as (Hr & _ & _ & Hl); [reflexivity|].
    split; [exact Hr | exact Hl].
Defined.
End MoreRuns.
